(** * DQN agent, replay memory and traffic-light detector

    A shallow embedding of [DQNAgentSim.py] and [Detector.py].

    - Python [float] and NumPy [float64] values are IEEE binary64 numbers:
      Rocq's primitive [float] with its own arithmetic.
    - NumPy [float32] values are the binary64 numbers that [f32] leaves
      unchanged; a [float32] operation is the binary64 operation followed
      by [f32] (exact, since 53 >= 2 * 24 + 2).
    - Python [int] is [Z]; [%] is [Z.modulo] (the sign follows the divisor
      in both).
    - An exception is an [exn] carried by [Raise]; it propagates to the
      driver, which does not catch it.  [Diverge] stands for a loop that
      outlives the fuel it was given.
    - TensorFlow (the session, the two networks, the optimizer), the
      random generators and the drawing utilities are outside the
      repository: they are the members of the classes [TensorFlow],
      [Random], [Detector.Graph] and [Detector.VisUtil]. *)

From Stdlib Require Import ZArith Floats SpecFloat Lia.
From stdpp Require Import base option list gmap strings.

Set Warnings "-inexact-float".
Open Scope Z_scope.

(** ** Exceptions and outcomes *)

Inductive exn :=
| IndexError (msg : string)
| AssertionError (msg : string)
| ValueError (msg : string)
| KeyError (msg : string)
| ZeroDivisionError (msg : string)
| OverflowError (msg : string).

Inductive outcome (A : Type) :=
| Ok (a : A)
| Raise (e : exn)
| Diverge.
Arguments Ok {A} a.
Arguments Raise {A} e.
Arguments Diverge {A}.

#[global] Instance outcome_ret : MRet outcome := fun A a => Ok a.
#[global] Instance outcome_bind : MBind outcome := fun A B f m =>
  match m with
  | Ok a => f a
  | Raise e => Raise e
  | Diverge => Diverge
  end.

Definition is_Ok {A} (o : outcome A) : Prop := exists a, o = Ok a.

(** [mapM] over a list, left to right, stopping at the first exception. *)
Fixpoint mapO {A B} (f : A -> outcome B) (l : list A) : outcome (list B) :=
  match l with
  | [] => Ok []
  | x :: l' => y ← f x; ys ← mapO f l'; mret (y :: ys)
  end.

(** ** Numbers *)

(** Rounding of a binary64 number to the nearest binary32 number, ties to
    even: what NumPy does when a value is stored into a [float32] array. *)
Definition f32 (x : float) : float :=
  match Prim2SF x with
  | S754_finite s m e => SF2Prim (binary_round 24 128 s m e)
  | _ => x
  end.

(** [float(n)] for a Python int of less than 63 bits. *)
Definition float_of_Z (n : Z) : float :=
  match n with
  | Z0 => 0%float
  | Zpos _ => of_uint63 (Uint63.of_Z n)
  | Zneg p => (- of_uint63 (Uint63.of_Z (Zpos p)))%float
  end.

(** The integer part of a finite float. *)
Definition trunc (x : float) : option Z :=
  match Prim2SF x with
  | S754_zero _ => Some 0
  | S754_finite s m e =>
      let a := if 0 <=? e then Z.pos m * 2 ^ e else Z.pos m / 2 ^ (- e) in
      Some (if s then - a else a)
  | _ => None
  end.

(** [int(x)]. *)
Definition int_of_float (x : float) : outcome Z :=
  match trunc x with
  | Some n => Ok n
  | None =>
      if is_nan x then Raise (ValueError "cannot convert float NaN to integer")
      else Raise (OverflowError "cannot convert float infinity to integer")
  end.

(** [astype(np.uint8)] of a float: the integer part, wrapped to a byte
    (the conversion of a NaN or an infinity depends on the platform; it is
    0 here). *)
Definition uint8_of_float (x : float) : Z :=
  match trunc x with
  | Some n => n mod 256
  | None => 0
  end.

(** A Python bool stored into a [float32] array. *)
Definition float_of_bool (b : bool) : float := if b then 1%float else 0%float.

(** Python's [x > y] on floats is [y < x]. *)
Definition gtb (x y : float) : bool := (y <? x)%float.
Definition geb (x y : float) : bool := (y <=? x)%float.

(** NumPy's float32 addition, subtraction and multiplication. *)
Definition add32 (x y : float) : float := f32 (x + y).
Definition sub32 (x y : float) : float := f32 (x - y).
Definition mul32 (x y : float) : float := f32 (x * y).

(** ** Python and NumPy containers *)

Definition len {A} (l : list A) : Z := Z.of_nat (length l).

(** [l[i]]: a negative index counts from the end. *)
Definition py_norm_index (n i : Z) : option nat :=
  let j := if i <? 0 then i + n else i in
  if (0 <=? j) && (j <? n) then Some (Z.to_nat j) else None.

Definition getitem {A} (l : list A) (i : Z) : outcome A :=
  match py_norm_index (len l) i with
  | Some j =>
      match l !! j with
      | Some x => Ok x
      | None => Raise (IndexError "index out of bounds")
      end
  | None => Raise (IndexError "index out of bounds")
  end.

(** [a % b] on ints. *)
Definition py_mod (a b : Z) : outcome Z :=
  if b =? 0 then Raise (ZeroDivisionError "integer division or modulo by zero")
  else Ok (a mod b).

(** [l[i] = x]. *)
Definition setitem {A} (l : list A) (i : Z) (x : A) : outcome (list A) :=
  match py_norm_index (len l) i with
  | Some j => Ok (<[j := x]> l)
  | None => Raise (IndexError "index out of bounds")
  end.

(** [l[start:stop]]: negative bounds count from the end, and both are
    clamped to the length. *)
Definition slice_bound (n k : Z) : Z :=
  if k <? 0 then Z.max 0 (k + n) else Z.min k n.

Definition slice {A} (l : list A) (start stop : Z) : list A :=
  let a := slice_bound (len l) start in
  let b := slice_bound (len l) stop in
  take (Z.to_nat (b - a)) (drop (Z.to_nat a) l).

(** [np.arange(a, b)]. *)
Definition arange (a b : Z) : list Z :=
  (fun k : nat => a + Z.of_nat k) <$> seq 0 (Z.to_nat (b - a)).

(** [l.take(indexes, mode='wrap', axis=0)]: every index is reduced modulo
    the length of the axis; an empty axis has nothing to take from. *)
Definition take_wrap {A} (l : list A) (indexes : list Z) : outcome (list A) :=
  mapO (fun i : Z =>
          match l !! Z.to_nat (i mod len l) with
          | Some x => Ok x
          | None => Raise (IndexError "cannot do a non-empty take from an empty axes.")
          end) indexes.

(** [l[indexes]] with a list of indices. *)
Definition fancy {A} (l : list A) (indexes : list Z) : outcome (list A) :=
  mapO (getitem l) indexes.

(** [a.any()]: some element is not zero (a NaN is not zero). *)
Definition any_nonzero (l : list float) : bool :=
  existsb (fun x => negb (x =? 0)%float) l.

(** An array as the agent receives it from the environment. *)
Record ndarray := { shape : list Z; data : list float }.

Definition shape_eqb (s1 s2 : list Z) : bool := bool_decide (s1 = s2).

Definition numel (s : list Z) : Z := foldr Z.mul 1 s.

Definition zeros (n : Z) : list float := replicate (Z.to_nat n) 0%float.

(** NumPy's broadcasting, for an assignment [dst[...] = src].  [align]
    gives the source's shape as many dimensions as the destination has:
    ones are added on the left, or unit dimensions are stripped from the
    left.  Each dimension must then be the destination's, or 1. *)
Fixpoint strip_ones (k : nat) (s : list Z) : option (list Z) :=
  match k, s with
  | O, _ => Some s
  | S k', 1 :: s' => strip_ones k' s'
  | S _, _ => None
  end.

Definition align (s r : list Z) : option (list Z) :=
  if (length r <=? length s)%nat
  then strip_ones (length s - length r) s
  else Some (replicate (length r - length s) 1 ++ s).

Definition broadcastable (s r : list Z) : bool :=
  forallb (fun p : Z * Z => (p.1 =? p.2) || (p.1 =? 1)) (zip s r).

(** The [count] consecutive pieces of [size] elements of a flat array. *)
Definition chunks {A} (size count : nat) (d : list A) : list (list A) :=
  (fun k : nat => take size (drop (k * size) d)) <$> seq 0 count.

(** The flat data, in row-major order, of an array of shape [s]
    broadcast to the shape [r], dimension by dimension: a unit dimension
    is repeated. *)
Fixpoint broadcast_data (s r : list Z) (d : list float) : list float :=
  match s, r with
  | sd :: s', rd :: r' =>
      if sd =? rd
      then concat (broadcast_data s' r' <$> chunks (Z.to_nat (numel s')) (Z.to_nat sd) d)
      else concat (replicate (Z.to_nat rd) (broadcast_data s' r' d))
  | _, _ => d
  end.

(** The values that [dst[...] = a] stores into a destination of shape
    [r]; an array of that very shape is stored as it is. *)
Definition broadcast_to (a : ndarray) (r : list Z) : outcome (list float) :=
  if shape_eqb (shape a) r then Ok (data a)
  else
    match align (shape a) r with
    | Some s =>
        if broadcastable s r then Ok (broadcast_data s r (data a))
        else Raise (ValueError "could not broadcast input array")
    | None =>
        match r with
        | [] => Raise (ValueError "setting an array element with a sequence.")
        | _ => Raise (ValueError "could not broadcast input array")
        end
    end.

(** ** External collaborators *)

(** [random] and [np.random]: a generator state threaded through the
    calls.  [random_randrange n] is called with [0 < n] and
    [np_random_randint low high] with [low < high]; the wrappers below
    raise [ValueError] otherwise, as the libraries do. *)
Class Random := {
  rng : Type;
  random_random : rng -> float * rng;
  random_randrange : Z -> rng -> Z * rng;
  np_random_randint : Z -> Z -> rng -> Z * rng;
}.

Definition randrange `{Random} (n : Z) (g : rng) : outcome (Z * rng) :=
  if n <=? 0 then Raise (ValueError "empty range for randrange()")
  else Ok (random_randrange n g).

Definition randint `{Random} (low high : Z) (g : rng) : outcome (Z * rng) :=
  if high <=? low then Raise (ValueError "low >= high")
  else Ok (np_random_randint low high g).

(** ** ReplayMemory *)

Module ReplayMemory.

Record t := {
  _pos : Z;
  _count : Z;
  _max_size : Z;
  _history_length : Z;
  _state_shape : list Z;
  _states : list (list float);
  _actions : list Z;
  _rewards : list float;
  _terminals : list float;
}.

(** [np.zeros] refuses a negative dimension. *)
Definition __init__ (size : Z) (sample_shape : list Z) (history_length : Z)
  : outcome t :=
  if (size <? 0) || existsb (fun d => d <? 0) sample_shape
  then Raise (ValueError "negative dimensions are not allowed")
  else Ok {| _pos := 0;
             _count := 0;
             _max_size := size;
             _history_length := Z.max 1 history_length;
             _state_shape := sample_shape;
             _states := replicate (Z.to_nat size) (zeros (numel sample_shape));
             _actions := replicate (Z.to_nat size) 0;
             _rewards := zeros size;
             _terminals := zeros size |}.

Definition __len__ (m : t) : Z := _count m.

(** The four stores convert to the arrays' types: [float32] for states,
    rewards and terminal flags, [uint8] (wrapping) for actions. *)
Definition append (m : t) (state : ndarray) (action : Z) (reward : float)
           (done : bool) : outcome t :=
  if negb (shape_eqb (shape state) (_state_shape m))
  then Raise (AssertionError "Invalid state shape")
  else
    states ← setitem (_states m) (_pos m) (f32 <$> data state);
    actions ← setitem (_actions m) (_pos m) (action mod 256);
    rewards ← setitem (_rewards m) (_pos m) (f32 reward);
    terminals ← setitem (_terminals m) (_pos m) (float_of_bool done);
    pos ← py_mod (_pos m + 1) (_max_size m);
    mret {| _pos := pos;
            _count := Z.max (_count m) (_pos m + 1);
            _max_size := _max_size m;
            _history_length := _history_length m;
            _state_shape := _state_shape m;
            _states := states;
            _actions := actions;
            _rewards := rewards;
            _terminals := terminals |}.

Definition get_state (m : t) (index : Z) : outcome (list (list float)) :=
  if _count m =? 0 then Raise (IndexError "Empty Memory")
  else
    let index := index mod _count m in
    let history_length := _history_length m in
    if history_length <=? index
    then Ok (slice (_states m) (index - (history_length - 1)) (index + 1))
    else take_wrap (_states m) (arange (index - history_length + 1) (index + 1)).

Section Sampling.
Context `{Random}.

(** The [while] loop of [sample]; one unit of fuel per draw. *)
Fixpoint sample_loop (fuel : nat) (m : t) (size : Z) (indexes : list Z)
         (g : rng) : outcome (list Z * rng) :=
  if size <=? len indexes then Ok (indexes, g)
  else
    match fuel with
    | O => Diverge
    | S fuel' =>
        let count := _count m - 1 in
        let pos := _pos m in
        let history_len := _history_length m in
        '(index, g) ← randint history_len count g;
        if bool_decide (index ∈ indexes)
        then sample_loop fuel' m size indexes g
        else if (pos <=? index) && (index - history_len <? pos)
        then sample_loop fuel' m size indexes g
        else if any_nonzero (slice (_terminals m) (index - history_len) index)
        then sample_loop fuel' m size indexes g
        else sample_loop fuel' m size (indexes ++ [index]) g
    end.

Definition sample (fuel : nat) (m : t) (size : Z) (g : rng)
  : outcome (list Z * rng) :=
  sample_loop fuel m size [] g.

Definition minibatch (fuel : nat) (m : t) (size : Z) (g : rng)
  : outcome (list (list (list float)) * list Z * list (list (list float))
             * list float * list float * rng) :=
  '(indexes, g) ← sample fuel m size g;
  pre_states ← mapO (get_state m) indexes;
  post_states ← mapO (fun index => get_state m (index + 1)) indexes;
  actions ← fancy (_actions m) indexes;
  rewards ← fancy (_rewards m) indexes;
  dones ← fancy (_terminals m) indexes;
  mret (pre_states, actions, post_states, rewards, dones, g).

End Sampling.

(** A sequence of [append] calls, first to last. *)
Fixpoint append_all (m : t) (trs : list (ndarray * Z * float * bool))
  : outcome t :=
  match trs with
  | [] => Ok m
  | (state, action, reward, done) :: trs' =>
      m' ← append m state action reward done; append_all m' trs'
  end.

(** The memories a program can hold: a fresh one and whatever [append]
    makes of it. *)
Inductive reachable : t -> Prop :=
| reach_init size sample_shape history_length m :
    __init__ size sample_shape history_length = Ok m -> reachable m
| reach_append m state action reward done m' :
    reachable m -> append m state action reward done = Ok m' -> reachable m'.

Record wf (m : t) : Prop := {
  wf_pos : 0 <= _pos m;
  wf_pos_lt : _pos m < _max_size m \/ _pos m = 0;
  wf_count : 0 <= _count m <= _max_size m;
  wf_states : len (_states m) = _max_size m;
  wf_actions : len (_actions m) = _max_size m;
  wf_rewards : len (_rewards m) = _max_size m;
  wf_terminals : len (_terminals m) = _max_size m;
  wf_history : 1 <= _history_length m;
}.

End ReplayMemory.

(** ** History *)

Module History.

(** The array [_buffer]: its shape and its rows, oldest first. *)
Record t := {
  _shape : list Z;
  _buffer : list (list float);
}.

Definition __init__ (shape : list Z) : outcome t :=
  if existsb (fun d => d <? 0) shape
  then Raise (ValueError "negative dimensions are not allowed")
  else Ok {| _shape := shape;
             _buffer := match shape with
                        | [] => []
                        | n :: row => replicate (Z.to_nat n) (zeros (numel row))
                        end |}.

Definition value (h : t) : list (list float) := _buffer h.

(** [_buffer[:-1] = _buffer[1:]], then [_buffer[-1] = state]: the last
    row is looked up first (an empty buffer has none), and the state is
    then broadcast into it and stored as float32. *)
Definition append (h : t) (state : ndarray) : outcome t :=
  let n := len (_buffer h) in
  let shifted := slice (_buffer h) 1 n ++ slice (_buffer h) (-1) n in
  _ ← getitem shifted (-1);
  row ← broadcast_to state (tail (_shape h));
  buffer ← setitem shifted (-1) (f32 <$> row);
  mret {| _shape := _shape h; _buffer := buffer |}.

Definition reset (h : t) : t :=
  {| _shape := _shape h;
     _buffer := (fun row : list float => (fun _ => 0%float) <$> row) <$> _buffer h |}.

End History.

(** ** NumPy reductions and broadcasting *)

(** [np.maximum]: a NaN on the left wins. *)
Definition maximum (a b : float) : float :=
  if (b <=? a)%float || is_nan a then a else b.

(** [np.max] of a flat array. *)
Definition np_max (l : list float) : outcome float :=
  match l with
  | [] => Raise (ValueError "zero-size array to reduction operation maximum which has no identity")
  | x :: l' => Ok (foldl maximum x l')
  end.

(** [np.argmax] of a flat array: the first maximum, a NaN counting as
    one. *)
Fixpoint argmax_from (mp : float) (best i : Z) (l : list float) : Z :=
  match l with
  | [] => best
  | x :: l' =>
      if negb (x <=? mp)%float
      then if is_nan x then i else argmax_from x i (i + 1) l'
      else argmax_from mp best (i + 1) l'
  end.

Definition np_argmax (l : list float) : outcome Z :=
  match l with
  | [] => Raise (ValueError "attempt to get argmax of an empty sequence")
  | x :: l' => Ok (if is_nan x then 0 else argmax_from x 0 1 l')
  end.

(** An operation on two flat arrays: equal lengths, or one of them of
    length one, which is repeated. *)
Definition broadcast2 (f : float -> float -> float) (a b : list float)
  : outcome (list float) :=
  if len a =? len b then Ok (zip_with f a b)
  else
    match a, b with
    | [x], _ => Ok (f x <$> b)
    | _, [y] => Ok ((fun x => f x y) <$> a)
    | _, _ => Raise (ValueError "operands could not be broadcast together")
    end.

(** ** TensorFlow *)

(** The two networks have the same topology; [model w batch] is the
    Q-values (one row per state of the batch) of a network whose trainable
    weights are [w].  [minimize] is one run of [[loss, grads_update]]: the
    loss, and the online weights and RMSProp slots after the step. *)
Class TensorFlow := {
  weights : Type;
  optimizer : Type;
  build_network : list Z -> Z -> weights;
  build_training_op : optimizer;
  model : weights -> list (list (list float)) -> list (list float);
  minimize : optimizer -> weights -> list (list (list float)) -> list Z ->
             list float -> float * weights * optimizer;
}.

(** [q_values.eval] and [target_q_values.eval]: float32 arrays. *)
Definition q_values_eval `{TensorFlow} (w : weights)
           (batch : list (list (list float))) : list (list float) :=
  (fun row : list float => f32 <$> row) <$> model w batch.

(** ** DeepQAgent *)

Module DeepQAgent.

Definition STATE_LENGTH : Z := 4.
Definition GAMMA : float := 0.99%float.
Definition EXPLORATION_STEPS : Z := 10000.
Definition INITIAL_EPSILON : float := 1.0%float.
Definition FINAL_EPSILON : float := 0.1%float.
Definition INITIAL_REPLAY_SIZE : Z := 10000.
Definition MEMORY_SIZE : Z := 400000.
Definition BATCH_SIZE : Z := 64.
Definition TARGET_UPDATE_INTERVAL : Z := 10000.
Definition TRAIN_AFTER : Z := 500.
Definition TRAIN_INTERVAL : Z := 4.
Definition SAVE_INTERVAL : Z := 10000.
Definition SAVE_NETWORK_PATH : string := "models_sim".

(** What the agent writes: the episode's summary record, the two console
    reports and the checkpoints. *)
Inductive event :=
| AddSummary (stats : list float) (global_step : Z)
| EpisodeSummary (episode t duration : Z)
    (epsilon total_reward avg_max_q avg_loss : float) (mode : string)
| TrainStep (episode t agent_step : Z)
| SaveCheckpoint (path : string) (global_step : Z).

(** [epsilon] after [k] more decrements by [epsilon_step]. *)
Definition EPSILON_STEP : float :=
  ((INITIAL_EPSILON - FINAL_EPSILON) / float_of_Z EXPLORATION_STEPS)%float.

Fixpoint decrements (k : nat) (e : float) : float :=
  match k with
  | O => e
  | S k' => decrements k' (e - EPSILON_STEP)%float
  end.

(** Where the annealing ends in binary64 arithmetic. *)
Definition EPSILON_FLOOR : float := 0.09999999999985551%float.

(** [e] and the [n] values after it: all but the last are above
    [FINAL_EPSILON], the last is not, and all are within
    [EPSILON_FLOOR .. INITIAL_EPSILON]. *)
Fixpoint annealing_check (n : nat) (e : float) : bool :=
  (EPSILON_FLOOR <=? e)%float && (e <=? INITIAL_EPSILON)%float &&
  match n with
  | O => negb (gtb e FINAL_EPSILON)
  | S n' => gtb e FINAL_EPSILON && annealing_check n' (e - EPSILON_STEP)%float
  end.

(** [y_batch] of [train_network]: every operation is a float32 one, the
    scalars [1] and [GAMMA] taking the arrays' type. *)
Definition y_batch (reward_batch terminal_batch : list float)
           (target_q_values_batch : list (list float)) : outcome (list float) :=
  max_q ← mapO np_max target_q_values_batch;
  let not_terminal := (fun d => sub32 1 d) <$> terminal_batch in
  let discount := (fun x => mul32 x (f32 GAMMA)) <$> not_terminal in
  future ← broadcast2 mul32 discount max_q;
  broadcast2 add32 reward_batch future.

Section Agent.
Context `{TensorFlow} `{Random}.

Record agent := {
  t : Z;
  epsilon : float;
  epsilon_step : float;
  total_reward : float;
  total_q_max : float;
  total_loss : float;
  duration : Z;
  episode : Z;
  input_shape : list Z;
  nb_actions : Z;
  _history : History.t;
  _memory : ReplayMemory.t;
  _num_actions_taken : Z;
  q_network_weights : weights;
  target_network_weights : weights;
  optimizer_slots : optimizer;
  random_state : rng;
  output : list event;
}.

(** [LOAD_NETWORK] is [False]: the online network starts from
    [build_network], and [update_target_network] copies it to the target
    network.  [g] is the state of the random generators.  The directories
    the constructor creates and the summary writer it opens hold nothing
    yet; [output] starts empty. *)
Definition __init__ (input_shape : list Z) (nb_actions : Z) (g : rng)
  : outcome agent :=
  history ← History.__init__ input_shape;
  memory ← ReplayMemory.__init__ MEMORY_SIZE
             (slice input_shape 1 (len input_shape)) STATE_LENGTH;
  let q_network := build_network input_shape nb_actions in
  mret {| t := 0;
          epsilon := INITIAL_EPSILON;
          epsilon_step :=
            ((INITIAL_EPSILON - FINAL_EPSILON) / float_of_Z EXPLORATION_STEPS)%float;
          total_reward := 0%float;
          total_q_max := 0%float;
          total_loss := 0%float;
          duration := 0;
          episode := 0;
          input_shape := input_shape;
          nb_actions := nb_actions;
          _history := history;
          _memory := memory;
          _num_actions_taken := 0;
          q_network_weights := q_network;
          target_network_weights := q_network;
          optimizer_slots := build_training_op;
          random_state := g;
          output := [] |}.

(** The greedy action on the current history window. *)
Definition greedy (self : agent) (history : History.t) : outcome Z :=
  let env_with_history := History.value history in
  np_argmax (concat (q_values_eval (q_network_weights self) [env_with_history])).

Definition act (self : agent) (state : ndarray) : outcome (Z * agent) :=
  history ← History.append (_history self) state;
  let '(r, g) := random_random (random_state self) in
  '(action, g) ←
    (if geb (epsilon self) r || (t self <? INITIAL_REPLAY_SIZE)
     then randrange (nb_actions self) g
     else action ← greedy self history; mret (action, g));
  let epsilon' :=
    if gtb (epsilon self) FINAL_EPSILON && (INITIAL_REPLAY_SIZE <=? t self)
    then (epsilon self - epsilon_step self)%float
    else epsilon self in
  mret (action,
        {| t := t self;
           epsilon := epsilon';
           epsilon_step := epsilon_step self;
           total_reward := total_reward self;
           total_q_max := total_q_max self;
           total_loss := total_loss self;
           duration := duration self;
           episode := episode self;
           input_shape := input_shape self;
           nb_actions := nb_actions self;
           _history := history;
           _memory := _memory self;
           _num_actions_taken := _num_actions_taken self + 1;
           q_network_weights := q_network_weights self;
           target_network_weights := target_network_weights self;
           optimizer_slots := optimizer_slots self;
           random_state := g;
           output := output self |}).

Definition mode_of (t : Z) : string :=
  if t <? INITIAL_REPLAY_SIZE then "random"
  else if (INITIAL_REPLAY_SIZE <=? t) && (t <? INITIAL_REPLAY_SIZE + EXPLORATION_STEPS)
       then "explore"
       else "exploit".

(** [duration] is at least one where it divides: it was just incremented,
    and it is never negative in an agent built by [__init__]. *)
Definition observe (self : agent) (old_state : ndarray) (action : Z)
           (reward : float) (done : bool) : outcome agent :=
  let total_reward' := (total_reward self + reward)%float in
  let total_reward' := (total_reward' + reward)%float in
  let env_with_history := History.value (_history self) in
  q_max ← np_max (concat (q_values_eval (q_network_weights self) [env_with_history]));
  let total_q_max' := (total_q_max self + q_max)%float in
  let duration' := duration self + 1 in
  let summary :=
    if done && (INITIAL_REPLAY_SIZE <=? t self)
    then [AddSummary
            [total_reward';
             (total_q_max' / float_of_Z duration')%float;
             float_of_Z duration';
             (total_loss self / (float_of_Z duration' / float_of_Z TRAIN_INTERVAL))%float]
            (episode self + 1)]
    else [] in
  let printed :=
    if done
    then [EpisodeSummary (episode self + 1) (t self) duration' (epsilon self)
            total_reward'
            (total_q_max' / float_of_Z duration')%float
            (total_loss self / float_of_Z duration')%float
            (mode_of (t self))]
    else [] in
  memory ← ReplayMemory.append (_memory self) old_state action reward done;
  mret {| t := t self;
          epsilon := epsilon self;
          epsilon_step := epsilon_step self;
          total_reward := if done then 0%float else total_reward';
          total_q_max := if done then 0%float else total_q_max';
          total_loss := if done then 0%float else total_loss self;
          duration := if done then 0 else duration';
          episode := if done then episode self + 1 else episode self;
          input_shape := input_shape self;
          nb_actions := nb_actions self;
          _history := if done then History.reset (_history self) else _history self;
          _memory := memory;
          _num_actions_taken := _num_actions_taken self;
          q_network_weights := q_network_weights self;
          target_network_weights := target_network_weights self;
          optimizer_slots := optimizer_slots self;
          random_state := random_state self;
          output := output self ++ summary ++ printed |}.

Definition train_network (fuel : nat) (self : agent) : outcome agent :=
  '(state_batch, action_batch, next_state_batch, reward_batch, terminal_batch, g) ←
    ReplayMemory.minibatch fuel (_memory self) BATCH_SIZE (random_state self);
  let target_q_values_batch :=
    q_values_eval (target_network_weights self) next_state_batch in
  y ← y_batch reward_batch terminal_batch target_q_values_batch;
  let '(loss, q_network, slots) :=
    minimize (optimizer_slots self) (q_network_weights self)
             state_batch action_batch y in
  mret {| t := t self;
          epsilon := epsilon self;
          epsilon_step := epsilon_step self;
          total_reward := total_reward self;
          total_q_max := total_q_max self;
          total_loss := (total_loss self + loss)%float;
          duration := duration self;
          episode := episode self;
          input_shape := input_shape self;
          nb_actions := nb_actions self;
          _history := _history self;
          _memory := _memory self;
          _num_actions_taken := _num_actions_taken self;
          q_network_weights := q_network;
          target_network_weights := target_network_weights self;
          optimizer_slots := slots;
          random_state := g;
          output := output self |}.

(** The three single-field updates of [train]. *)
Definition print (self : agent) (e : event) : agent :=
  {| t := t self;
     epsilon := epsilon self;
     epsilon_step := epsilon_step self;
     total_reward := total_reward self;
     total_q_max := total_q_max self;
     total_loss := total_loss self;
     duration := duration self;
     episode := episode self;
     input_shape := input_shape self;
     nb_actions := nb_actions self;
     _history := _history self;
     _memory := _memory self;
     _num_actions_taken := _num_actions_taken self;
     q_network_weights := q_network_weights self;
     target_network_weights := target_network_weights self;
     optimizer_slots := optimizer_slots self;
     random_state := random_state self;
     output := output self ++ [e] |}.

Definition update_target_network (self : agent) : agent :=
  {| t := t self;
     epsilon := epsilon self;
     epsilon_step := epsilon_step self;
     total_reward := total_reward self;
     total_q_max := total_q_max self;
     total_loss := total_loss self;
     duration := duration self;
     episode := episode self;
     input_shape := input_shape self;
     nb_actions := nb_actions self;
     _history := _history self;
     _memory := _memory self;
     _num_actions_taken := _num_actions_taken self;
     q_network_weights := q_network_weights self;
     target_network_weights := q_network_weights self;
     optimizer_slots := optimizer_slots self;
     random_state := random_state self;
     output := output self |}.

Definition set_t (self : agent) (t' : Z) : agent :=
  {| t := t';
     epsilon := epsilon self;
     epsilon_step := epsilon_step self;
     total_reward := total_reward self;
     total_q_max := total_q_max self;
     total_loss := total_loss self;
     duration := duration self;
     episode := episode self;
     input_shape := input_shape self;
     nb_actions := nb_actions self;
     _history := _history self;
     _memory := _memory self;
     _num_actions_taken := _num_actions_taken self;
     q_network_weights := q_network_weights self;
     target_network_weights := target_network_weights self;
     optimizer_slots := optimizer_slots self;
     random_state := random_state self;
     output := output self |}.

Definition train (fuel : nat) (self : agent) : outcome agent :=
  let agent_step := _num_actions_taken self in
  if TRAIN_AFTER <=? agent_step then
    if agent_step mod TRAIN_INTERVAL =? 0 then
      let self := print self (TrainStep (episode self) (t self) agent_step) in
      self ←
        (if INITIAL_REPLAY_SIZE <=? t self then
           self ← (if t self mod TRAIN_INTERVAL =? 0
                   then train_network fuel self
                   else mret self);
           let self := if t self mod TARGET_UPDATE_INTERVAL =? 0
                       then update_target_network self
                       else self in
           let self := if t self mod SAVE_INTERVAL =? 0
                       then print self (SaveCheckpoint SAVE_NETWORK_PATH (t self))
                       else self in
           mret self
         else mret self);
      mret (set_t self (t self + 1))
    else mret self
  else mret self.

Definition test (self : agent) (state : ndarray) : outcome (option Z * agent) :=
  let self := set_t self (t self + 1) in
  history ← History.append (_history self) state;
  let self' :=
    {| t := t self;
       epsilon := epsilon self;
       epsilon_step := epsilon_step self;
       total_reward := total_reward self;
       total_q_max := total_q_max self;
       total_loss := total_loss self;
       duration := duration self;
       episode := episode self;
       input_shape := input_shape self;
       nb_actions := nb_actions self;
       _history := history;
       _memory := _memory self;
       _num_actions_taken := _num_actions_taken self;
       q_network_weights := q_network_weights self;
       target_network_weights := target_network_weights self;
       optimizer_slots := optimizer_slots self;
       random_state := random_state self;
       output := output self |} in
  if STATE_LENGTH <=? t self'
  then action ← greedy self' history; mret (Some action, self')
  else mret (None, self').

(** The calls a program makes on an agent, and the agents they lead to. *)
Inductive call :=
| Act (state : ndarray)
| Observe (old_state : ndarray) (action : Z) (reward : float) (done : bool)
| Train (fuel : nat)
| Test (state : ndarray).

Definition do_call (self : agent) (c : call) : outcome agent :=
  match c with
  | Act state => '(_, self') ← act self state; mret self'
  | Observe old_state action reward done => observe self old_state action reward done
  | Train fuel => train fuel self
  | Test state => '(_, self') ← test self state; mret self'
  end.

Fixpoint run (self : agent) (calls : list call) : outcome agent :=
  match calls with
  | [] => Ok self
  | c :: calls' => self' ← do_call self c; run self' calls'
  end.

Definition reachable (self : agent) : Prop :=
  exists input_shape nb_actions g self0 calls,
    __init__ input_shape nb_actions g = Ok self0 /\ run self0 calls = Ok self.

(** The invariant of [epsilon]: it is one of the first
    [EXPLORATION_STEPS + 1] values of the annealing. *)
Definition annealing (self : agent) : Prop :=
  epsilon_step self = EPSILON_STEP /\
  exists k : nat, (k <= Z.to_nat EXPLORATION_STEPS)%nat /\
                  epsilon self = decrements k INITIAL_EPSILON.

End Agent.

End DeepQAgent.

(** ** Detector *)

Module Detector.

Definition NUM_CLASSES : Z := 90.
Definition min_score_thresh : float := 0.7%float.

(** An entry of [category_index]. *)
Record category := { id : Z; name : string }.

(** A [uint8] image array: its shape and its bytes. *)
Record image := { im_shape : list Z; pixels : list Z }.

(** Instance masks, one [uint8] plane per detection. *)
Definition masks : Type := list (list (list Z)).

(** What [sess.run] fetches, batch dimension first. *)
Record fetched := {
  fetched_num_detections : list float;
  fetched_detection_boxes : list (list (list float));
  fetched_detection_scores : list (list float);
  fetched_detection_classes : list (list float);
  fetched_detection_masks : option (list masks);
}.

Record output_dict := {
  num_detections : Z;
  detection_classes : list Z;
  detection_boxes : list (list float);
  detection_scores : list float;
  detection_masks : option masks;
}.

(** The frozen detection graph, run on one image. *)
Class Graph := { sess_run : image -> fetched }.

(** [vis_util.visualize_boxes_and_labels_on_image_array]: it draws on the
    array it is given; the result is that array's new content. *)
Class VisUtil := {
  visualize_boxes_and_labels_on_image_array :
    image -> list (list float) -> list Z -> list float -> gmap Z category ->
    float -> option masks -> image;
}.

(** The objects of the program: arrays by reference, and the files
    written. *)
Record world := {
  heap : gmap positive image;
  files : gmap string image;
}.

Record t := { category_index : gmap Z category }.

Section Detect.
Context `{Graph} `{VisUtil}.

Definition run_inference_for_single_image (image : image) : outcome output_dict :=
  let fetched := sess_run image in
  n ← getitem (fetched_num_detections fetched) 0;
  num ← int_of_float n;
  classes ← getitem (fetched_detection_classes fetched) 0;
  boxes ← getitem (fetched_detection_boxes fetched) 0;
  scores ← getitem (fetched_detection_scores fetched) 0;
  masks ← match fetched_detection_masks fetched with
           | Some m => x ← getitem m 0; mret (Some x)
           | None => mret None
           end;
  mret {| num_detections := num;
          detection_classes := uint8_of_float <$> classes;
          detection_boxes := boxes;
          detection_scores := scores;
          detection_masks := masks |}.

(** The body of the innermost [if] of [detect]. *)
Definition geometry (im_width im_height : Z) (box : list float)
  : outcome (float * float * float * float) :=
  match box with
  | [ymin; xmin; ymax; xmax] =>
      let left := (xmin * float_of_Z im_width)%float in
      let right := (xmax * float_of_Z im_width)%float in
      let top := (ymin * float_of_Z im_height)%float in
      let bottom := (ymax * float_of_Z im_height)%float in
      let POS_X := ((left + right - float_of_Z im_width) / 2.0)%float in
      let POS_Y := ((top + bottom - float_of_Z im_height) / 2.0)%float in
      let WIDTH := (right - left)%float in
      let HEIGHT := (bottom - top)%float in
      Ok (POS_X, POS_Y, WIDTH, HEIGHT)
  | _ => Raise (ValueError "wrong number of values to unpack")
  end.

(** The [for] loop of [detect] over the indices still to visit; falling
    off its end is Python's implicit [return None]. *)
Fixpoint scan (self : t) (bboxes : list (list float)) (classes : list Z)
         (scores : option (list float)) (im_width im_height : Z)
         (range : list Z) : outcome (option (float * float * float * float)) :=
  match range with
  | [] => Ok None
  | i :: range' =>
      above ← match scores with
              | None => Ok true
              | Some scores => s ← getitem scores i; mret (gtb s min_score_thresh)
              end;
      if above : bool then
        c ← getitem classes i;
        match category_index self !! c with
        | Some cat =>
            if String.eqb (name cat) "traffic light"
            then box ← getitem bboxes i;
                 r ← geometry im_width im_height box;
                 mret (Some r)
            else scan self bboxes classes scores im_width im_height range'
        | None => scan self bboxes classes scores im_width im_height range'
        end
      else scan self bboxes classes scores im_width im_height range'
  end.

(** [image_np] is a reference to the caller's array; a program holds no
    reference to an array that is not there, and the [KeyError] below is
    never seen from Python. *)
Definition detect (self : t) (w : world) (image_np : positive)
  : outcome (option (float * float * float * float) * world) :=
  match heap w !! image_np with
  | None => Raise (KeyError "no such array")
  | Some array =>
      let image := fresh (dom (heap w)) in
      let heap1 := <[image := array]> (heap w) in
      output_dict ← run_inference_for_single_image array;
      let drawn :=
        visualize_boxes_and_labels_on_image_array array
          (detection_boxes output_dict) (detection_classes output_dict)
          (detection_scores output_dict) (category_index self)
          min_score_thresh (detection_masks output_dict) in
      let heap2 := <[image := drawn]> heap1 in
      let files2 := <["detect.jpg" := drawn]> (files w) in
      let bboxes := detection_boxes output_dict in
      let classes := detection_classes output_dict in
      let scores := Some (detection_scores output_dict) in
      match slice (im_shape array) 0 2 with
      | [im_width; im_height] =>
          r ← scan self bboxes classes scores im_width im_height
                 (arange 0 (len bboxes));
          mret (r, {| heap := heap2; files := files2 |})
      | _ => Raise (ValueError "wrong number of values to unpack")
      end
  end.

End Detect.

(** Detection [i] counts: its score is above the threshold and its class
    is in the label map under the name "traffic light". *)
Definition qualifies (self : t) (classes : list Z) (scores : list float)
           (i : nat) : Prop :=
  exists s c cat,
    scores !! i = Some s /\ gtb s min_score_thresh = true /\
    classes !! i = Some c /\ category_index self !! c = Some cat /\
    name cat = "traffic light".

(** The geometry as the specification words it: [W] columns, [H] rows. *)
Definition spec_geometry (H W : Z) (ymin xmin ymax xmax : float)
  : float * float * float * float :=
  let left := (xmin * float_of_Z W)%float in
  let right := (xmax * float_of_Z W)%float in
  let top := (ymin * float_of_Z H)%float in
  let bottom := (ymax * float_of_Z H)%float in
  (((left + right - float_of_Z W) / 2)%float,
   ((top + bottom - float_of_Z H) / 2)%float,
   (right - left)%float,
   (bottom - top)%float).

End Detector.

(** ** Sequences of calls *)

(** [History.append] for each state, first to last. *)
Fixpoint append_frames (h : History.t) (states : list ndarray) : outcome History.t :=
  match states with
  | [] => Ok h
  | state :: states' => h' ← History.append h state; append_frames h' states'
  end.

(** The [observe] calls among the calls made on an agent. *)
Fixpoint count_observes (calls : list DeepQAgent.call) : Z :=
  match calls with
  | [] => 0
  | DeepQAgent.Observe _ _ _ _ :: calls' => 1 + count_observes calls'
  | _ :: calls' => count_observes calls'
  end.

(** The [act] calls, and the [observe] calls that end an episode. *)
Fixpoint count_acts (calls : list DeepQAgent.call) : Z :=
  match calls with
  | [] => 0
  | DeepQAgent.Act _ :: calls' => 1 + count_acts calls'
  | _ :: calls' => count_acts calls'
  end.

Fixpoint count_terminals (calls : list DeepQAgent.call) : Z :=
  match calls with
  | [] => 0
  | DeepQAgent.Observe _ _ _ true :: calls' => 1 + count_terminals calls'
  | _ :: calls' => count_terminals calls'
  end.

(** The [observe] calls since the last one that ended an episode, on top
    of the [d] made before the calls. *)
Fixpoint observes_since_terminal (d : Z) (calls : list DeepQAgent.call) : Z :=
  match calls with
  | [] => d
  | DeepQAgent.Observe _ _ _ done :: calls' =>
      observes_since_terminal (if done then 0 else d + 1) calls'
  | _ :: calls' => observes_since_terminal d calls'
  end.

(** What every call on an agent keeps. *)
Definition steady `{TensorFlow} `{Random} (self : DeepQAgent.agent) : Prop :=
  ReplayMemory.reachable (DeepQAgent._memory self) /\
  ReplayMemory._max_size (DeepQAgent._memory self) = DeepQAgent.MEMORY_SIZE /\
  ReplayMemory._history_length (DeepQAgent._memory self) = DeepQAgent.STATE_LENGTH /\
  ReplayMemory._state_shape (DeepQAgent._memory self) = tail (DeepQAgent.input_shape self) /\
  History._shape (DeepQAgent._history self) = DeepQAgent.input_shape self /\
  length (History._buffer (DeepQAgent._history self))
  = Z.to_nat (hd 0 (DeepQAgent.input_shape self)) /\
  0 <= DeepQAgent.t self /\ 0 <= DeepQAgent.duration self /\
  0 <= DeepQAgent.episode self /\ 0 <= DeepQAgent._num_actions_taken self.


(** What [np.random.randint] promises: a draw within [low, high). *)
Definition randint_in_range `{Random} : Prop :=
  forall low high g, low < high ->
    low <= (np_random_randint low high g).1 < high.

(** What [random.randrange] promises: a draw within [0, n). *)
Definition randrange_in_range `{Random} : Prop :=
  forall n g, 0 < n -> 0 <= (random_randrange n g).1 < n.

(** [e] and the [n] values after it: none is above the one before, and
    each compares equal to itself. *)
Fixpoint descending_check (n : nat) (e : float) : bool :=
  (e <=? e)%float &&
  match n with
  | O => true
  | S n' => (e - DeepQAgent.EPSILON_STEP <=? e)%float &&
            descending_check n' (e - DeepQAgent.EPSILON_STEP)%float
  end.

(** ** interpret_action and the driver *)

Module Driver.

(** The driver's own failures, beside the exceptions of the agent. *)
Inductive failure :=
| AgentError (e : exn)
| UnboundLocalError (name : string)
| NameError (name : string).

Inductive result (A : Type) :=
| Done (a : A)
| Failed (f : failure)
| Looping.
Arguments Done {A} a.
Arguments Failed {A} f.
Arguments Looping {A}.

#[global] Instance result_ret : MRet result := fun A a => Done a.
#[global] Instance result_bind : MBind result := fun A B f m =>
  match m with
  | Done a => f a
  | Failed e => Failed e
  | Looping => Looping
  end.

Definition lift {A} (o : outcome A) : result A :=
  match o with
  | Ok a => Done a
  | Raise e => Failed (AgentError e)
  | Diverge => Looping
  end.

(** The offsets are kept as floats (Python's [0] and [0.0] compare
    equal); no branch assigns [quad_offset] for another action, and the
    [return] then fails. *)
Definition interpret_action (action : Z) : result (float * float * float) :=
  let scaling_factor := 0.25%float in
  if action =? 0 then Done (0, 0, 0)%float
  else if action =? 1 then Done (scaling_factor, 0, 0)%float
  else if action =? 2 then Done (0, scaling_factor, 0)%float
  else if action =? 3 then Done (- scaling_factor, 0, 0)%float
  else if action =? 4 then Done (0, - scaling_factor, 0)%float
  else Failed (UnboundLocalError "quad_offset").

(** The simulator: [reset()] and [step(quad_offset)]. *)
Class EnvironmentSim := {
  env : Type;
  reset : env -> ndarray * env;
  step : option (float * float * float) -> env -> ndarray * float * bool * env;
}.

(** What the driver prints itself. *)
Inductive line := RestartingTheGame | Separator.

Section Loop.
Context `{TensorFlow} `{Random} `{EnvironmentSim}.

(** The variables of the [while True] loops. *)
Record loop := {
  agent : DeepQAgent.agent;
  environment : env;
  current_state : ndarray;
  printed : list line;
}.

Definition restart_game (e : env) : ndarray * env := reset e.

(** One turn of the training loop; [fuel] bounds the sampling of
    [train]. *)
Definition train_turn (fuel : nat) (s : loop) : result loop :=
  '(action, a) ← lift (DeepQAgent.act (agent s) (current_state s));
  quad_offset ← interpret_action action;
  let '(new_state, reward, done, e) := step (Some quad_offset) (environment s) in
  a ← lift (DeepQAgent.observe a (current_state s) action reward done);
  a ← lift (DeepQAgent.train fuel a);
  let '(new_state, e, out) :=
    if done : bool
    then let '(st, e') := restart_game e in (st, e', printed s ++ [RestartingTheGame])
    else (new_state, e, printed s) in
  mret {| agent := a;
          environment := e;
          current_state := new_state;
          printed := out ++ [Separator] |}.

(** One turn of the testing loop: [interpret_action_seq] and
    [step_sizes] are not defined anywhere, so the first action that is not
    [None] ends the program. *)
Definition test_turn (s : loop) : result loop :=
  '(action, a) ← lift (DeepQAgent.test (agent s) (current_state s));
  quad_offset ← match action with
                 | Some _ => Failed (NameError "interpret_action_seq")
                 | None => Done (@None (float * float * float))
                 end;
  let '(new_state, _, _, e) := step quad_offset (environment s) in
  mret {| agent := a;
          environment := e;
          current_state := new_state;
          printed := printed s |}.

(** [n] turns of a loop. *)
Fixpoint turns (turn : loop -> result loop) (n : nat) (s : loop) : result loop :=
  match n with
  | O => Done s
  | S n' => s' ← turn s; turns turn n' s'
  end.

(** The state in which either loop starts: the agent of shape (4, 2)
    with five actions, and the simulator after its first [reset]. *)
Definition start (g : rng) (e : env) : result loop :=
  a ← lift (DeepQAgent.__init__ [4; 2] 5 g);
  let '(st, e') := reset e in
  mret {| agent := a; environment := e'; current_state := st; printed := [] |}.

End Loop.

End Driver.

(** ** Detector.load_image_into_numpy_array *)

(** A PIL image: its size (width, height) and its pixels, row by row,
    each with one value per band. *)
Record pil_image := {
  size : Z * Z;
  getdata : list (list Z);
}.

(** [np.array(image.getdata()).reshape((im_height, im_width, 3))
    .astype(np.uint8)]: the reshape needs exactly
    [im_height * im_width * 3] values. *)
Definition load_image_into_numpy_array (image : pil_image) : outcome Detector.image :=
  let '(im_width, im_height) := size image in
  let values := concat (getdata image) in
  if (im_height <? 0) || (im_width <? 0) || negb (len values =? im_height * im_width * 3)
  then Raise (ValueError "cannot reshape array")
  else Ok {| Detector.im_shape := [im_height; im_width; 3];
             Detector.pixels := (fun v => v mod 256) <$> values |}.

(** ** Collaborators for the examples *)

(** A network that values every action at zero and learns nothing. *)
Definition zero_network : TensorFlow :=
  {| weights := unit;
     optimizer := unit;
     build_network := fun _ _ => tt;
     build_training_op := tt;
     model := fun _ batch =>
       (fun _ : list (list float) => replicate 5 0%float) <$> batch;
     minimize := fun _ _ _ _ _ => (0%float, tt, tt) |}.

(** A generator that counts its draws. *)
Definition counting_random : Random :=
  {| rng := Z;
     random_random := fun g => (0.5%float, g + 1);
     random_randrange := fun n g => (g mod n, g + 1);
     np_random_randint := fun low high g => (low + g mod (high - low), g + 1) |}.

(** A graph that reports one detection, whatever the image. *)
Definition one_detection (class score : float) (box : list float)
  : Detector.Graph :=
  {| Detector.sess_run := fun _ =>
       {| Detector.fetched_num_detections := [1%float];
          Detector.fetched_detection_boxes := [[box]];
          Detector.fetched_detection_scores := [[score]];
          Detector.fetched_detection_classes := [[class]];
          Detector.fetched_detection_masks := None |} |}.

(** A drawing utility that paints the whole image white. *)
Definition whitewash : Detector.VisUtil :=
  {| Detector.visualize_boxes_and_labels_on_image_array :=
       fun image _ _ _ _ _ _ =>
         {| Detector.im_shape := Detector.im_shape image;
            Detector.pixels := (fun _ => 255) <$> Detector.pixels image |} |}.

(** Three entries of the COCO label map. *)
Definition coco : Detector.t :=
  {| Detector.category_index :=
       {[ 1 := {| Detector.id := 1; Detector.name := "person" |};
          3 := {| Detector.id := 3; Detector.name := "car" |};
          10 := {| Detector.id := 10; Detector.name := "traffic light" |} ]} |}.

(** A black image of [h] rows and [w] columns. *)
Definition black (h w : Z) : Detector.image :=
  {| Detector.im_shape := [h; w; 3];
     Detector.pixels := replicate (Z.to_nat (h * w * 3)) 0 |}.

Definition one_image (h w : Z) : Detector.world :=
  {| Detector.heap := {[ 1%positive := black h w ]}; Detector.files := ∅ |}.

(** The driver's agent: four frames of two features, five actions. *)
Definition driver_agent : outcome (@DeepQAgent.agent zero_network counting_random) :=
  @DeepQAgent.__init__ zero_network counting_random [4; 2] 5 0.

Definition frame (x y : float) : ndarray := {| shape := [2]; data := [x; y] |}.

(** What [run_inference_for_single_image] makes of [one_detection]. *)
Definition one_output (class : Z) (score : float) (box : list float)
  : Detector.output_dict :=
  {| Detector.num_detections := 1;
     Detector.detection_classes := [class];
     Detector.detection_boxes := [box];
     Detector.detection_scores := [score];
     Detector.detection_masks := None |}.

(** A box in the middle of the right half. *)
Definition right_box : list float := [0.25; 0.5; 0.5; 0.75]%float.

(** The specification's box, around the centre. *)
Definition centre_box : list float := [0.4; 0.4; 0.6; 0.6]%float.

(** Five hundred actions, ten thousand training calls, which bring [t] to
    [INITIAL_REPLAY_SIZE], and then [EXPLORATION_STEPS] actions. *)
Definition annealing_calls : list DeepQAgent.call :=
  replicate 500 (DeepQAgent.Act (frame 0 0)) ++
  replicate (Z.to_nat DeepQAgent.INITIAL_REPLAY_SIZE) (DeepQAgent.Train 0) ++
  replicate (Z.to_nat DeepQAgent.EXPLORATION_STEPS) (DeepQAgent.Act (frame 0 0)).

(** A memory of capacity 5 and history length 2: fresh, after eight
    appends of the zero frame with reward 1, and after five appends of the
    frames (1, 1) to (5, 5). *)
Definition memory5 : ReplayMemory.t :=
  {| ReplayMemory._pos := 0;
     ReplayMemory._count := 0;
     ReplayMemory._max_size := 5;
     ReplayMemory._history_length := 2;
     ReplayMemory._state_shape := [2];
     ReplayMemory._states := replicate 5 [0%float; 0%float];
     ReplayMemory._actions := replicate 5 0;
     ReplayMemory._rewards := replicate 5 0%float;
     ReplayMemory._terminals := replicate 5 0%float |}.

Definition memory5_full : ReplayMemory.t :=
  {| ReplayMemory._pos := 3;
     ReplayMemory._count := 5;
     ReplayMemory._max_size := 5;
     ReplayMemory._history_length := 2;
     ReplayMemory._state_shape := [2];
     ReplayMemory._states := replicate 5 [0%float; 0%float];
     ReplayMemory._actions := replicate 5 0;
     ReplayMemory._rewards := replicate 5 1%float;
     ReplayMemory._terminals := replicate 5 0%float |}.

Definition five_frames : list (ndarray * Z * float * bool) :=
  (fun k : float => (frame k k, 0, 0%float, false)) <$>
  [1%float; 2%float; 3%float; 4%float; 5%float].

Definition memory5_frames : ReplayMemory.t :=
  {| ReplayMemory._pos := 0;
     ReplayMemory._count := 5;
     ReplayMemory._max_size := 5;
     ReplayMemory._history_length := 2;
     ReplayMemory._state_shape := [2];
     ReplayMemory._states :=
       (fun k : float => [k; k]) <$> [1%float; 2%float; 3%float; 4%float; 5%float];
     ReplayMemory._actions := replicate 5 0;
     ReplayMemory._rewards := replicate 5 0%float;
     ReplayMemory._terminals := replicate 5 0%float |}.

(** A history of two frames of two features, and three frames to push
    into it, the last of one value that is broadcast to a row. *)
Definition history2 : History.t :=
  {| History._shape := [2; 2];
     History._buffer := [[0%float; 0%float]; [0%float; 0%float]] |}.

Definition single (x : float) : ndarray := {| shape := [1]; data := [x] |}.

Definition three_frames : list ndarray := [frame 1 1; frame 2 2; single 7].

(** Two steps of an episode that ends at the second. *)
Definition episode_calls : list DeepQAgent.call :=
  [DeepQAgent.Act (frame 0 0); DeepQAgent.Observe (frame 0 0) 1 1 false;
   DeepQAgent.Train 0;
   DeepQAgent.Act (frame 1 1); DeepQAgent.Observe (frame 1 1) 0 1 true;
   DeepQAgent.Train 0].

(** A simulator that counts its steps: every frame is (0, 0), every
    reward 1, and every third step ends an episode. *)
Definition counting_env : Driver.EnvironmentSim :=
  {| Driver.env := Z;
     Driver.reset := fun e => (frame 0 0, e);
     Driver.step := fun _ e => (frame 0 0, 1%float, (e + 1) mod 3 =? 0, e + 1) |}.

(** A simulator whose frames have three features where the agent expects
    two. *)
Definition wide_env : Driver.EnvironmentSim :=
  {| Driver.env := unit;
     Driver.reset := fun e =>
       ({| shape := [3]; data := [0%float; 0%float; 0%float] |}, e);
     Driver.step := fun _ e =>
       ({| shape := [3]; data := [0%float; 0%float; 0%float] |}, 0%float, false, e) |}.

(** A network that values the second action at 2.0 in every state, and
    whose gradient step keeps the targets it was given as its weights. *)
Definition recording_network : TensorFlow :=
  {| weights := list float;
     optimizer := unit;
     build_network := fun _ _ => [];
     build_training_op := tt;
     model := fun _ batch =>
       (fun _ : list (list float) => [0.5; 2.0; 1.25; 0; 0]%float) <$> batch;
     minimize := fun slots _ _ _ y => (0%float, y, slots) |}.


Definition memory70 : ReplayMemory.t :=
  {| ReplayMemory._pos := 70;
     ReplayMemory._count := 70;
     ReplayMemory._max_size := 80;
     ReplayMemory._history_length := 4;
     ReplayMemory._state_shape := [2];
     ReplayMemory._states := replicate 80 [0%float; 0%float];
     ReplayMemory._actions := replicate 80 0;
     ReplayMemory._rewards := replicate 70 1%float ++ replicate 10 0%float;
     ReplayMemory._terminals := replicate 80 0%float |}.

(** An agent with that memory, at step [t] after [n] actions. *)
Definition agent_at (t n : Z) : @DeepQAgent.agent recording_network counting_random :=
  {| DeepQAgent.t := t;
     DeepQAgent.epsilon := DeepQAgent.INITIAL_EPSILON;
     DeepQAgent.epsilon_step := DeepQAgent.EPSILON_STEP;
     DeepQAgent.total_reward := 0%float;
     DeepQAgent.total_q_max := 0%float;
     DeepQAgent.total_loss := 0%float;
     DeepQAgent.duration := 70;
     DeepQAgent.episode := 0;
     DeepQAgent.input_shape := [4; 2];
     DeepQAgent.nb_actions := 5;
     DeepQAgent._history :=
       {| History._shape := [4; 2];
          History._buffer := replicate 4 [0%float; 0%float] |};
     DeepQAgent._memory := memory70;
     DeepQAgent._num_actions_taken := n;
     DeepQAgent.q_network_weights := (@nil float : @weights recording_network);
     DeepQAgent.target_network_weights := (@nil float : @weights recording_network);
     DeepQAgent.optimizer_slots := (tt : @optimizer recording_network);
     DeepQAgent.random_state := (0 : @rng counting_random);
     DeepQAgent.output := [] |}.

(** The five frames, the fourth of which ended an episode. *)
Definition memory5_terminal : ReplayMemory.t :=
  {| ReplayMemory._pos := 0;
     ReplayMemory._count := 5;
     ReplayMemory._max_size := 5;
     ReplayMemory._history_length := 2;
     ReplayMemory._state_shape := [2];
     ReplayMemory._states :=
       (fun k : float => [k; k]) <$> [1%float; 2%float; 3%float; 4%float; 5%float];
     ReplayMemory._actions := replicate 5 0;
     ReplayMemory._rewards := replicate 5 0%float;
     ReplayMemory._terminals := [0%float; 0%float; 0%float; 1%float; 0%float] |}.

(** * Properties *)

(** ** Outcomes and containers *)

Lemma bind_Ok {A B} (f : A -> outcome B) (m : outcome A) (b : B) :
  m ≫= f = Ok b -> exists a, m = Ok a /\ f a = Ok b.
Proof. destruct m as [a| |]; simpl; [eauto | discriminate | discriminate]. Qed.

Lemma mapO_Ok_lookup {A B} (f : A -> outcome B) (l : list A) (r : list B) :
  mapO f l = Ok r ->
  length r = length l /\
  forall (j : nat) x, l !! j = Some x -> exists y, f x = Ok y /\ r !! j = Some y.
Proof.
  revert r. induction l as [|x l IH]; intros r H; simpl in H.
  - inversion H; subst. split; [reflexivity | intros j x Hj; discriminate].
  - apply bind_Ok in H as (y & Hy & H).
    apply bind_Ok in H as (ys & Hys & H). inversion H; subst.
    destruct (IH _ Hys) as [Hlen Hall].
    split; [simpl; congruence |].
    intros [|j] x' Hj; simpl in Hj.
    + inversion Hj; subst. eauto.
    + apply Hall in Hj. exact Hj.
Qed.

Lemma mapO_total {A B} (f : A -> outcome B) (l : list A) :
  (forall x, x ∈ l -> is_Ok (f x)) -> is_Ok (mapO f l).
Proof.
  induction l as [|x l IH]; intros H; simpl.
  - eexists; reflexivity.
  - destruct (H x) as [y Hy]; [left |]. rewrite Hy. simpl.
    destruct IH as [ys Hys]; [intros z Hz; apply H; right; exact Hz |].
    rewrite Hys. eexists; reflexivity.
Qed.

Lemma py_norm_index_Some (n i : Z) (j : nat) :
  py_norm_index n i = Some j ->
  (0 <= i < n /\ j = Z.to_nat i) \/ (- n <= i < 0 /\ j = Z.to_nat (i + n)).
Proof.
  unfold py_norm_index. intros H.
  destruct (i <? 0) eqn:Hi;
    destruct ((0 <=? _) && (_ <? n)) eqn:Hb; try discriminate;
    inversion H; subst; lia.
Qed.

Lemma py_norm_index_nonneg (n i : Z) :
  0 <= i < n -> py_norm_index n i = Some (Z.to_nat i).
Proof.
  intros Hi. unfold py_norm_index.
  destruct (i <? 0) eqn:E; [lia |].
  destruct ((0 <=? i) && (i <? n)) eqn:Hb; [reflexivity | lia].
Qed.

Lemma setitem_Ok {A} (l l' : list A) (i : Z) (x : A) :
  setitem l i x = Ok l' ->
  len l' = len l /\ (0 <= i < len l \/ - len l <= i < 0).
Proof.
  unfold setitem. intros H.
  destruct (py_norm_index (len l) i) as [j|] eqn:Hj; [| discriminate].
  inversion H; subst. unfold len. rewrite length_insert.
  apply py_norm_index_Some in Hj. unfold len in Hj. lia.
Qed.

Lemma setitem_total {A} (l : list A) (i : Z) (x : A) :
  0 <= i < len l -> is_Ok (setitem l i x).
Proof.
  intros Hi. unfold setitem. rewrite py_norm_index_nonneg by exact Hi.
  eexists; reflexivity.
Qed.

Lemma getitem_Ok_nonneg {A} (l : list A) (i : Z) (x : A) :
  0 <= i -> l !! Z.to_nat i = Some x -> getitem l i = Ok x.
Proof.
  intros Hi Hx. unfold getitem.
  assert (Hlt : (Z.to_nat i < length l)%nat) by (eapply lookup_lt_Some; eauto).
  rewrite py_norm_index_nonneg by (unfold len; lia).
  rewrite Hx. reflexivity.
Qed.

(** A slice inside the list is as long as it says, and its elements are
    the list's, in place. *)
Lemma slice_inside {A} (l : list A) (a b : Z) :
  0 <= a <= b -> b <= len l ->
  len (slice l a b) = b - a /\
  forall j, 0 <= j < b - a -> slice l a b !! Z.to_nat j = l !! Z.to_nat (a + j).
Proof.
  intros Hab Hb. unfold slice, slice_bound.
  destruct (a <? 0) eqn:Ha; [lia |].
  destruct (b <? 0) eqn:Hb0; [lia |].
  rewrite (Z.min_l a) by lia. rewrite (Z.min_l b) by lia.
  split.
  - unfold len in *. rewrite length_take, length_drop. lia.
  - intros j Hj. rewrite lookup_take_lt by lia.
    rewrite lookup_drop. f_equal. lia.
Qed.

Lemma arange_lookup (a b : Z) (j : nat) :
  (j < Z.to_nat (b - a))%nat -> arange a b !! j = Some (a + Z.of_nat j).
Proof.
  intros Hj. unfold arange. rewrite list_lookup_fmap.
  rewrite lookup_seq_lt by exact Hj. reflexivity.
Qed.

Lemma arange_length (a b : Z) : length (arange a b) = Z.to_nat (b - a).
Proof. unfold arange. rewrite length_fmap, length_seq. reflexivity. Qed.

Lemma take_wrap_total {A} (l : list A) (indexes : list Z) :
  0 < len l -> is_Ok (take_wrap l indexes).
Proof.
  intros Hl. apply mapO_total. intros i _.
  assert (Hi : 0 <= i mod len l < len l) by (apply Z.mod_pos_bound; exact Hl).
  destruct (l !! Z.to_nat (i mod len l)) as [x|] eqn:E; [eexists; reflexivity |].
  apply lookup_ge_None in E. unfold len in *. lia.
Qed.

Lemma take_wrap_lookup {A} (l r : list A) (indexes : list Z) (j : nat) (i : Z) :
  take_wrap l indexes = Ok r -> indexes !! j = Some i ->
  r !! j = l !! Z.to_nat (i mod len l) /\ is_Some (r !! j).
Proof.
  intros H Hi. apply mapO_Ok_lookup in H as [_ H].
  destruct (H j i Hi) as (y & Hy & Hr).
  destruct (l !! Z.to_nat (i mod len l)) as [x|] eqn:E; [| discriminate].
  inversion Hy; subst. rewrite Hr. split; [reflexivity | eauto].
Qed.

(** ** ReplayMemory *)

Section ReplayMemoryProperties.
Import ReplayMemory.

Lemma init_Ok (size : Z) (sample_shape : list Z) (history_length : Z) (m : t) :
  __init__ size sample_shape history_length = Ok m ->
  wf m /\ _pos m = 0 /\ _count m = 0 /\ _max_size m = size /\
  _state_shape m = sample_shape /\ 0 <= size.
Proof.
  unfold __init__. intros H.
  destruct ((size <? 0) || _) eqn:E; [discriminate |].
  apply orb_false_iff in E as [E _]. inversion H; subst; clear H.
  simpl. repeat split; simpl; unfold len, zeros;
    rewrite ?length_replicate; lia.
Qed.

(** What a successful [append] does to the cursor and the count. *)
Lemma append_Ok (m m' : t) (state : ndarray) (action : Z) (reward : float)
      (done : bool) :
  wf m -> append m state action reward done = Ok m' ->
  wf m' /\ 0 < _max_size m /\ _pos m < _max_size m /\
  _max_size m' = _max_size m /\
  _history_length m' = _history_length m /\
  _state_shape m' = _state_shape m /\
  _count m' = Z.max (_count m) (_pos m + 1) /\
  _pos m' = (_pos m + 1) mod _max_size m.
Proof.
  intros Hwf H. unfold append in H.
  destruct (negb _); [discriminate |].
  apply bind_Ok in H as (states & Hs & H).
  apply bind_Ok in H as (actions & Ha & H).
  apply bind_Ok in H as (rewards & Hr & H).
  apply bind_Ok in H as (terminals & Ht & H).
  apply bind_Ok in H as (pos & Hp & H).
  inversion H; subst; clear H.
  apply setitem_Ok in Hs as [Hs Hi], Ha as [Ha _], Hr as [Hr _], Ht as [Ht _].
  unfold py_mod in Hp.
  destruct (_max_size m =? 0) eqn:E; [discriminate |]. inversion Hp; subst; clear Hp.
  destruct Hwf as [H0 H1 H2 H3 H4 H5 H6 H7].
  rewrite H3 in Hi.
  assert (Hpos : 0 < _max_size m) by lia.
  assert (Hlt : _pos m < _max_size m) by lia.
  assert (Hmod : 0 <= (_pos m + 1) mod _max_size m < _max_size m)
    by (apply Z.mod_pos_bound; exact Hpos).
  simpl. repeat split; simpl; try lia; congruence.
Qed.

Lemma append_total (m : t) (state : ndarray) (action : Z) (reward : float)
      (done : bool) :
  wf m -> 0 < _max_size m -> shape state = _state_shape m ->
  is_Ok (append m state action reward done).
Proof.
  intros [H0 H1 H2 H3 H4 H5 H6 H7] Hpos Hshape. unfold append, shape_eqb.
  rewrite bool_decide_eq_true_2 by exact Hshape. simpl.
  destruct (setitem_total (_states m) (_pos m) (f32 <$> data state)) as [? ->]; [lia |].
  destruct (setitem_total (_actions m) (_pos m) (action mod 256)) as [? ->]; [lia |].
  destruct (setitem_total (_rewards m) (_pos m) (f32 reward)) as [? ->]; [lia |].
  destruct (setitem_total (_terminals m) (_pos m) (float_of_bool done)) as [? ->]; [lia |].
  simpl. unfold py_mod. destruct (_max_size m =? 0) eqn:E; [lia |].
  simpl. eexists; reflexivity.
Qed.

Lemma reachable_wf (m : t) : reachable m -> wf m.
Proof.
  induction 1 as [size sample_shape history_length m H | m state action reward done m' _ IH H].
  - apply init_Ok in H. tauto.
  - eapply append_Ok in H; [tauto | exact IH].
Qed.

Lemma append_all_reachable (m m' : t) (trs : list (ndarray * Z * float * bool)) :
  reachable m -> append_all m trs = Ok m' -> reachable m'.
Proof.
  revert m. induction trs as [|[[[state action] reward] done] trs IH]; intros m Hm H; simpl in H.
  - inversion H; subst. exact Hm.
  - apply bind_Ok in H as (m1 & H1 & H).
    eapply IH; [| exact H]. eapply reach_append; eauto.
Qed.

(** The cursor and the count after [k] appends, then [trs] more. *)
Lemma append_all_count_pos (m m' : t) (trs : list (ndarray * Z * float * bool)) (k : Z) :
  wf m -> 0 <= k ->
  _count m = Z.min k (_max_size m) -> _pos m = k mod _max_size m ->
  append_all m trs = Ok m' ->
  _max_size m' = _max_size m /\
  _count m' = Z.min (k + len trs) (_max_size m) /\
  _pos m' = (k + len trs) mod _max_size m.
Proof.
  revert m k. induction trs as [|[[[state action] reward] done] trs IH];
    intros m k Hwf Hk Hcount Hpos H; simpl in H.
  - inversion H; subst. unfold len. simpl. rewrite Z.add_0_r. auto.
  - apply bind_Ok in H as (m1 & H1 & H).
    destruct (append_Ok _ _ _ _ _ _ Hwf H1)
      as (Hwf1 & HN & Hlt & Hsize & _ & _ & Hc1 & Hp1).
    assert (Hmod : 0 <= k mod _max_size m < _max_size m)
      by (apply Z.mod_pos_bound; exact HN).
    destruct (IH m1 (k + 1) Hwf1) as (Hs' & Hc' & Hp'); [lia | | | exact H |].
    + rewrite Hc1, Hsize, Hcount, Hpos.
      destruct (Z_lt_le_dec k (_max_size m)) as [Hsmall | Hbig].
      * rewrite Z.mod_small by lia. lia.
      * lia.
    + rewrite Hp1, Hsize, Hpos. rewrite Zplus_mod_idemp_l. reflexivity.
    + rewrite Hsize in *. unfold len in *. simpl length.
      replace (k + Z.of_nat (S (length trs))) with (k + 1 + Z.of_nat (length trs)) by lia.
      auto.
Qed.

Lemma append_all_total (m : t) (trs : list (ndarray * Z * float * bool)) :
  wf m -> 0 < _max_size m ->
  Forall (fun tr => shape tr.1.1.1 = _state_shape m) trs ->
  is_Ok (append_all m trs).
Proof.
  revert m. induction trs as [|[[[state action] reward] done] trs IH];
    intros m Hwf Hpos Hall; simpl.
  - eexists; reflexivity.
  - inversion Hall as [|? ? Hhd Htl]; subst. simpl in Hhd.
    destruct (append_total m state action reward done Hwf Hpos Hhd) as [m1 H1].
    rewrite H1. simpl.
    destruct (append_Ok _ _ _ _ _ _ Hwf H1) as (Hwf1 & _ & _ & Hsize & _ & Hshape & _).
    apply IH; [exact Hwf1 | lia |].
    rewrite Hshape. exact Htl.
Qed.

(** C4. After [k] successful appends to a fresh memory of capacity [N],
    [count = min(k, N)] and the cursor is [k mod N]; after [N + 3] appends
    they are [N] and [3 mod N].  The count never exceeds the capacity, and
    one more append never lowers it.  The appends do succeed when the
    capacity is positive and the states have the memory's shape. *)
Theorem append_wraparound (N : Z) (sample_shape : list Z) (history_length : Z)
        (trs : list (ndarray * Z * float * bool)) :
  forall m0, __init__ N sample_shape history_length = Ok m0 ->
  (1 <= N -> Forall (fun tr => shape tr.1.1.1 = sample_shape) trs ->
   is_Ok (append_all m0 trs)) /\
  (forall m, append_all m0 trs = Ok m ->
     _count m = Z.min (len trs) N /\
     _pos m = len trs mod N /\
     (len trs = N + 3 -> _count m = N /\ _pos m = 3 mod N) /\
     _count m <= _max_size m /\
     _max_size m = N /\
     forall state action reward done m',
       append m state action reward done = Ok m' ->
       _count m <= _count m' /\ _count m' <= _max_size m').
Proof.
  intros m0 Hinit.
  destruct (init_Ok _ _ _ _ Hinit) as (Hwf & Hp & Hc & Hs & Hsh & HN).
  split.
  - intros HN1 Hall. apply append_all_total; [exact Hwf | lia |].
    rewrite Hsh. exact Hall.
  - intros m Hm.
    destruct (append_all_count_pos m0 m trs 0 Hwf) as (Hsize & Hcount & Hpos);
      [lia | rewrite Hc, Hs; lia | rewrite Hp, Zmod_0_l; reflexivity | exact Hm |].
    rewrite Hs in *. rewrite Z.add_0_l in *.
    assert (Hreach : reachable m)
      by (eapply append_all_reachable; [eapply reach_init; exact Hinit | exact Hm]).
    pose proof (reachable_wf _ Hreach) as Hwfm.
    split; [exact Hcount |]. split; [exact Hpos |].
    split.
    { intros Hlen. rewrite Hcount, Hpos, Hlen. split; [lia |].
      replace (N + 3) with (3 + 1 * N) by lia. apply Z_mod_plus_full. }
    split; [destruct Hwfm; lia |]. split; [exact Hsize |].
    intros state action reward done m' Happ.
    destruct (append_Ok _ _ _ _ _ _ Hwfm Happ) as (Hwf' & _ & _ & _ & _ & _ & Hc' & _).
    split; [lia | destruct Hwf'; lia].
Qed.

(** A closed instance: capacity 5, 5 + 3 appends. *)
Lemma append_wraparound_witness :
  exists m0 m,
    __init__ 5 [2] 2 = Ok m0 /\
    append_all m0 (replicate 8 (frame 0 0, 0, 1%float, false)) = Ok m /\
    _count m = 5 /\ _pos m = 3.
Proof.
  assert (Hinit : __init__ 5 [2] 2 = Ok memory5) by (vm_compute; reflexivity).
  assert (Happ : append_all memory5 (replicate 8 (frame 0 0, 0, 1%float, false))
                 = Ok memory5_full) by (vm_compute; reflexivity).
  destruct (append_wraparound 5 [2] 2
              (replicate 8 (frame 0 0, 0, 1%float, false)) memory5 Hinit) as [_ H].
  destruct (H memory5_full Happ) as (Hc & Hp & _).
  exists memory5, memory5_full.
  split; [exact Hinit |]. split; [exact Happ |].
  split; [exact Hc | exact Hp].
Defined.

(** The frames [get_state] returns from a well-formed, non-empty
    memory. *)
Lemma get_state_frames (m : t) (index : Z) :
  wf m -> 0 < _count m ->
  exists frames,
    get_state m index = Ok frames /\
    len frames = _history_length m /\
    (_history_length m <= index mod _count m ->
       frames = slice (_states m)
                      (index mod _count m - (_history_length m - 1))
                      (index mod _count m + 1) /\
       forall j, 0 <= j < _history_length m ->
         frames !! Z.to_nat j =
         _states m !! Z.to_nat (index mod _count m - (_history_length m - 1) + j)) /\
    (index mod _count m < _history_length m ->
       forall j, 0 <= j < _history_length m ->
         is_Some (frames !! Z.to_nat j) /\
         frames !! Z.to_nat j =
         _states m !! Z.to_nat ((index mod _count m - _history_length m + 1 + j)
                                mod _max_size m)).
Proof.
  intros [H0 H1 H2 H3 H4 H5 H6 H7] Hcount.
  assert (Hi : 0 <= index mod _count m < _count m)
    by (apply Z.mod_pos_bound; exact Hcount).
  unfold get_state.
  destruct (_count m =? 0) eqn:E; [lia |].
  set (i := index mod _count m) in *.
  set (h := _history_length m) in *.
  destruct (h <=? i) eqn:Hhi.
  - destruct (slice_inside (_states m) (i - (h - 1)) (i + 1)) as [Hlen Hlook];
      [lia | lia |].
    eexists. split; [reflexivity |].
    split; [rewrite Hlen; lia |].
    split; [| lia].
    intros _. split; [reflexivity |].
    intros j Hj. apply Hlook. lia.
  - destruct (take_wrap_total (_states m) (arange (i - h + 1) (i + 1))) as [frames Hf];
      [lia |].
    exists frames. split; [exact Hf |].
    pose proof (mapO_Ok_lookup _ _ _ Hf) as [Hlen _].
    rewrite arange_length in Hlen.
    split; [unfold len; lia |].
    split; [lia |].
    intros _ j Hj.
    assert (Hidx : arange (i - h + 1) (i + 1) !! Z.to_nat j = Some (i - h + 1 + j)).
    { rewrite arange_lookup by lia. f_equal. lia. }
    destruct (take_wrap_lookup _ _ _ _ _ Hf Hidx) as [Heq Hsome].
    split; [exact Hsome |]. rewrite Heq, H3. reflexivity.
Qed.

(** C5. On a memory with [count > 0], [get_state] reduces the index
    modulo [count]; from [history_length] on it returns the contiguous
    slice of [history_length] stored states that ends at the index, below
    it the states at [index - history_length + 1 .. index] taken modulo
    the capacity; either way [history_length] frames come back. *)
Theorem get_state_window (m : t) (index : Z) :
  reachable m -> 0 < _count m ->
  let i := index mod _count m in
  let h := _history_length m in
  exists frames,
    get_state m index = Ok frames /\
    len frames = h /\
    (h <= i ->
       frames = slice (_states m) (i - (h - 1)) (i + 1) /\
       forall j, 0 <= j < h ->
         frames !! Z.to_nat j = _states m !! Z.to_nat (i - (h - 1) + j)) /\
    (i < h ->
       forall j, 0 <= j < h ->
         is_Some (frames !! Z.to_nat j) /\
         frames !! Z.to_nat j =
         _states m !! Z.to_nat ((i - h + 1 + j) mod _max_size m)).
Proof.
  intros Hreach Hcount. simpl.
  apply get_state_frames; [apply reachable_wf; exact Hreach | exact Hcount].
Qed.

(** C6. [get_state] raises [IndexError('Empty Memory')] exactly when
    [count] is 0; with [count > 0] it returns a state. *)
Theorem get_state_empty_memory (m : t) (index : Z) :
  reachable m ->
  (get_state m index = Raise (IndexError "Empty Memory") <-> _count m = 0) /\
  (0 < _count m -> is_Ok (get_state m index)).
Proof.
  intros Hreach. pose proof (reachable_wf _ Hreach) as Hwf.
  split.
  - split.
    + intros Hraise.
      destruct (Z.eq_dec (_count m) 0) as [E | E]; [exact E |].
      destruct (get_state_frames m index Hwf) as (frames & Hf & _);
        [destruct Hwf; lia |].
      congruence.
    + intros E. unfold get_state. rewrite E. reflexivity.
  - intros Hcount.
    destruct (get_state_frames m index Hwf Hcount) as (frames & Hf & _).
    exists frames. exact Hf.
Qed.

Lemma memory5_frames_reachable : reachable memory5_frames.
Proof.
  apply (append_all_reachable memory5 memory5_frames five_frames).
  - apply (reach_init 5 [2] 2). vm_compute. reflexivity.
  - vm_compute. reflexivity.
Qed.

(** Index 3 of the five frames: the contiguous frames 2 and 3. *)
Lemma get_state_window_witness :
  exists frames,
    get_state memory5_frames 3 = Ok frames /\
    len frames = 2 /\
    frames = slice (_states memory5_frames) 2 4.
Proof.
  assert (Hcount : 0 < _count memory5_frames) by (simpl; lia).
  destruct (get_state_window memory5_frames 3 memory5_frames_reachable Hcount)
    as (frames & Hf & Hlen & Hslice & _).
  exists frames. split; [exact Hf |]. split; [exact Hlen |].
  apply Hslice. vm_compute. intros H; discriminate H.
Defined.

(** The two branches on the five frames: index 3 is contiguous, index 5
    reduces to 0 and wraps to the last frame. *)
Example get_state_contiguous :
  get_state memory5_frames 3 = Ok [[3; 3]; [4; 4]]%float.
Proof. vm_compute. reflexivity. Qed.

Example get_state_wraps :
  get_state memory5_frames 5 = Ok [[5; 5]; [1; 1]]%float.
Proof. vm_compute. reflexivity. Qed.

Lemma get_state_empty_memory_witness :
  get_state memory5 7 = Raise (IndexError "Empty Memory") /\
  is_Ok (get_state memory5_frames 7).
Proof.
  assert (Hfresh : reachable memory5)
    by (apply (reach_init 5 [2] 2); vm_compute; reflexivity).
  split.
  - apply (get_state_empty_memory memory5 7 Hfresh). reflexivity.
  - apply (get_state_empty_memory memory5_frames 7 memory5_frames_reachable).
    simpl. lia.
Defined.

End ReplayMemoryProperties.

(** ** The training target *)



(** ** DeepQAgent *)

Section AgentProperties.
Context `{TensorFlow} `{Random}.
Import DeepQAgent.

Lemma init_agent_Ok (input_shape : list Z) (nb_actions : Z) (g : rng) (self : agent) :
  __init__ input_shape nb_actions g = Ok self ->
  t self = 0 /\ epsilon self = INITIAL_EPSILON /\ epsilon_step self = EPSILON_STEP /\
  _num_actions_taken self = 0 /\ total_reward self = 0%float.
Proof.
  unfold __init__. intros H1.
  apply bind_Ok in H1 as (history & Hh & H1).
  apply bind_Ok in H1 as (memory & Hm & H1).
  inversion H1; subst; clear H1. simpl. auto.
Qed.

(** What [act] does to the counters and to [epsilon]. *)
Lemma act_Ok (self self' : agent) (state : ndarray) (action : Z) :
  act self state = Ok (action, self') ->
  t self' = t self /\
  epsilon_step self' = epsilon_step self /\
  _num_actions_taken self' = _num_actions_taken self + 1 /\
  epsilon self' =
    if gtb (epsilon self) FINAL_EPSILON && (INITIAL_REPLAY_SIZE <=? t self)
    then (epsilon self - epsilon_step self)%float
    else epsilon self.
Proof.
  unfold act. intros H1.
  apply bind_Ok in H1 as (history & Hh & H1).
  destruct (random_random (random_state self)) as [r g].
  apply bind_Ok in H1 as ([a g'] & Ha & H1).
  inversion H1; subst; clear H1. simpl. auto.
Qed.

(** What [observe] does to [total_reward], and what it leaves alone. *)
Lemma observe_Ok (self self' : agent) (old_state : ndarray) (action : Z)
      (reward : float) (done : bool) :
  observe self old_state action reward done = Ok self' ->
  t self' = t self /\
  epsilon self' = epsilon self /\
  epsilon_step self' = epsilon_step self /\
  _num_actions_taken self' = _num_actions_taken self /\
  total_reward self' =
    if done then 0%float else (total_reward self + reward + reward)%float.
Proof.
  unfold observe. intros H1.
  apply bind_Ok in H1 as (q_max & Hq & H1).
  apply bind_Ok in H1 as (memory & Hm & H1).
  inversion H1; subst; clear H1. simpl. auto.
Qed.

Lemma train_network_Ok (fuel : nat) (self self' : agent) :
  train_network fuel self = Ok self' ->
  t self' = t self /\
  epsilon self' = epsilon self /\
  epsilon_step self' = epsilon_step self /\
  _num_actions_taken self' = _num_actions_taken self.
Proof.
  unfold train_network. intros H1.
  apply bind_Ok in H1 as ([[[[[sb ab] nsb] rb] tb] g] & Hb & H1).
  apply bind_Ok in H1 as (y & Hy & H1).
  destruct (minimize _ _ _ _ _) as [[loss q] slots].
  inversion H1; subst; clear H1. simpl. auto.
Qed.

(** Inside the gate [train] advances [t] by one; it never touches
    [epsilon]. *)
Lemma train_Ok (fuel : nat) (self self' : agent) :
  train fuel self = Ok self' ->
  epsilon self' = epsilon self /\
  epsilon_step self' = epsilon_step self /\
  _num_actions_taken self' = _num_actions_taken self /\
  (self' = self \/
   (TRAIN_AFTER <= _num_actions_taken self /\
    _num_actions_taken self mod TRAIN_INTERVAL = 0 /\
    t self' = t self + 1)).
Proof.
  unfold train. intros H1.
  destruct (TRAIN_AFTER <=? _num_actions_taken self) eqn:Hafter;
    [| inversion H1; subst; auto].
  destruct (_num_actions_taken self mod TRAIN_INTERVAL =? 0) eqn:Hint;
    [| inversion H1; subst; auto].
  apply bind_Ok in H1 as (self1 & H1' & H1).
  inversion H1; subst; clear H1.
  assert (Hframe : t self1 = t self /\ epsilon self1 = epsilon self /\
                   epsilon_step self1 = epsilon_step self /\
                   _num_actions_taken self1 = _num_actions_taken self).
  { simpl in H1'.
    destruct (INITIAL_REPLAY_SIZE <=? t self);
      [| inversion H1'; subst; simpl; auto].
    apply bind_Ok in H1' as (self2 & H2 & H1').
    assert (H2' : t self2 = t self /\ epsilon self2 = epsilon self /\
                  epsilon_step self2 = epsilon_step self /\
                  _num_actions_taken self2 = _num_actions_taken self).
    { destruct (t self mod TRAIN_INTERVAL =? 0).
      - apply train_network_Ok in H2. simpl in H2. exact H2.
      - inversion H2; subst. simpl. auto. }
    inversion H1'; subst; clear H1'.
    destruct (t self2 mod TARGET_UPDATE_INTERVAL =? 0);
      destruct (t _ mod SAVE_INTERVAL =? 0); simpl; exact H2'. }
  simpl. destruct Hframe as (Ht & He & Hs & Hn).
  repeat split; try assumption. right. repeat split; lia.
Qed.

Lemma test_Ok (self self' : agent) (state : ndarray) (action : option Z) :
  test self state = Ok (action, self') ->
  epsilon self' = epsilon self /\ epsilon_step self' = epsilon_step self.
Proof.
  unfold test. intros H1.
  apply bind_Ok in H1 as (history & Hh & H1).
  match type of H1 with (if ?c then _ else _) = _ => destruct c end.
  - apply bind_Ok in H1 as (a & Ha & H1). inversion H1; subst. simpl. auto.
  - inversion H1; subst. simpl. auto.
Qed.

Lemma decrements_S (k : nat) (e : float) :
  decrements (S k) e = (decrements k e - EPSILON_STEP)%float.
Proof.
  revert e. induction k as [|k IH]; intros e; [reflexivity |].
  change (decrements (S (S k)) e) with (decrements (S k) (e - EPSILON_STEP)%float).
  rewrite IH. reflexivity.
Qed.

Lemma annealing_check_sound (n : nat) (e : float) :
  annealing_check n e = true ->
  forall k : nat, (k <= n)%nat ->
    (EPSILON_FLOOR <=? decrements k e)%float = true /\
    (decrements k e <=? INITIAL_EPSILON)%float = true /\
    ((k < n)%nat -> gtb (decrements k e) FINAL_EPSILON = true) /\
    (k = n -> gtb (decrements k e) FINAL_EPSILON = false).
Proof.
  revert e. induction n as [|n IH]; intros e Hc k Hk; simpl in Hc;
    apply andb_true_iff in Hc as [Hc Hlast];
    apply andb_true_iff in Hc as [Hlo Hhi].
  - assert (k = O) by lia. subst k. simpl.
    apply negb_true_iff in Hlast.
    repeat split; try assumption; [lia | intros _; exact Hlast].
  - apply andb_true_iff in Hlast as [Hgt Hrest].
    destruct k as [|k].
    + simpl. repeat split; try assumption; [intros _; exact Hgt | discriminate].
    + destruct (IH _ Hrest k) as (H1 & H2 & H3 & H4); [lia |].
      simpl. repeat split; try assumption.
      * intros Hlt. apply H3. lia.
      * intros Heq. apply H4. lia.
Qed.

Lemma annealing_checked :
  annealing_check (Z.to_nat EXPLORATION_STEPS) INITIAL_EPSILON = true.
Proof. vm_compute. reflexivity. Qed.

Lemma do_call_annealing (self self' : agent) (c : call) :
  annealing self -> do_call self c = Ok self' -> annealing self'.
Proof.
  intros [Hstep (k & Hk & Heps)] Hcall. unfold annealing.
  destruct c as [state | old_state action reward done | fuel | state]; simpl in Hcall.
  - apply bind_Ok in Hcall as ([a self1] & Hact & Hcall).
    inversion Hcall; subst; clear Hcall.
    apply act_Ok in Hact as (_ & Hs & _ & He).
    split; [congruence |].
    destruct (gtb (epsilon self) FINAL_EPSILON && (INITIAL_REPLAY_SIZE <=? t self)) eqn:G.
    + apply andb_true_iff in G as [G _]. rewrite Heps in G.
      destruct (annealing_check_sound _ _ annealing_checked k Hk) as (_ & _ & _ & Hend).
      assert (Hlt : (k < Z.to_nat EXPLORATION_STEPS)%nat).
      { destruct (Nat.eq_dec k (Z.to_nat EXPLORATION_STEPS)) as [E | E]; [| lia].
        rewrite (Hend E) in G. discriminate. }
      exists (S k). split; [lia |].
      rewrite He, decrements_S, Hstep, Heps. reflexivity.
    + exists k. split; [exact Hk | congruence].
  - apply observe_Ok in Hcall as (_ & He & Hs & _).
    split; [congruence |]. exists k. split; [exact Hk | congruence].
  - apply train_Ok in Hcall as (He & Hs & _).
    split; [congruence |]. exists k. split; [exact Hk | congruence].
  - apply bind_Ok in Hcall as ([a self1] & Htest & Hcall).
    inversion Hcall; subst; clear Hcall.
    apply test_Ok in Htest as (He & Hs).
    split; [congruence |]. exists k. split; [exact Hk | congruence].
Qed.

Lemma run_annealing (calls : list call) (self self' : agent) :
  annealing self -> run self calls = Ok self' -> annealing self'.
Proof.
  revert self. induction calls as [|c calls IH]; intros self Hinv Hrun; simpl in Hrun.
  - inversion Hrun; subst. exact Hinv.
  - apply bind_Ok in Hrun as (self1 & Hc & Hrun).
    eapply IH; [| exact Hrun]. eapply do_call_annealing; eauto.
Qed.

Lemma reachable_annealing (self : agent) : reachable self -> annealing self.
Proof.
  intros (input_shape & nb_actions & g & self0 & calls & Hinit & Hrun).
  eapply run_annealing; [| exact Hrun].
  apply init_agent_Ok in Hinit as (_ & He & Hs & _).
  split; [exact Hs |]. exists O. split; [lia | exact He].
Qed.

Lemma init_run_reachable (input_shape : list Z) (nb_actions : Z) (g : rng)
      (calls : list call) (self : agent) :
  (self0 ← __init__ input_shape nb_actions g; run self0 calls) = Ok self ->
  reachable self.
Proof.
  intros Hrun. apply bind_Ok in Hrun as (self0 & Hinit & Hrun).
  exists input_shape, nb_actions, g, self0, calls. split; assumption.
Qed.

(** C3, as the code has it.  An [act] call made while
    [epsilon > FINAL_EPSILON] and [t >= INITIAL_REPLAY_SIZE] subtracts
    [epsilon_step] from [epsilon] in binary64 arithmetic, and any other
    call leaves it; each of the first [EXPLORATION_STEPS] values is above
    [FINAL_EPSILON]; after exactly [EXPLORATION_STEPS] decrements
    [epsilon] is 0.09999999999985551, no longer above [FINAL_EPSILON], so
    that no further decrement occurs (it is below [FINAL_EPSILON] by
    less than 1.5e-13); and in every reachable agent state
    [0.09999999999985551 <= epsilon <= INITIAL_EPSILON]. *)
Theorem epsilon_annealing :
  (forall self state action self',
     act self state = Ok (action, self') ->
     epsilon self' =
       if gtb (epsilon self) FINAL_EPSILON && (INITIAL_REPLAY_SIZE <=? t self)
       then (epsilon self - epsilon_step self)%float
       else epsilon self) /\
  (forall self, reachable self ->
     epsilon_step self = ((INITIAL_EPSILON - FINAL_EPSILON) / 10000)%float) /\
  (forall k : nat, (k < Z.to_nat EXPLORATION_STEPS)%nat ->
     gtb (decrements k INITIAL_EPSILON) FINAL_EPSILON = true) /\
  decrements (Z.to_nat EXPLORATION_STEPS) INITIAL_EPSILON = EPSILON_FLOOR /\
  gtb EPSILON_FLOOR FINAL_EPSILON = false /\
  (EPSILON_FLOOR <? FINAL_EPSILON)%float = true /\
  (FINAL_EPSILON - EPSILON_FLOOR <? 1.5e-13)%float = true /\
  (forall self, reachable self ->
     exists k : nat, (k <= Z.to_nat EXPLORATION_STEPS)%nat /\
                     epsilon self = decrements k INITIAL_EPSILON) /\
  (forall self, reachable self ->
     (EPSILON_FLOOR <=? epsilon self)%float = true /\
     (epsilon self <=? INITIAL_EPSILON)%float = true).
Proof.
  split; [intros self state action self' Hact; apply act_Ok in Hact; tauto |].
  split; [intros self Hr; apply reachable_annealing in Hr as [Hs _]; exact Hs |].
  split.
  { intros k Hk.
    destruct (annealing_check_sound _ _ annealing_checked k) as (_ & _ & Hgt & _);
      [lia | auto]. }
  split; [vm_compute; reflexivity |].
  split; [vm_compute; reflexivity |].
  split; [vm_compute; reflexivity |].
  split; [vm_compute; reflexivity |].
  split.
  { intros self Hr. apply reachable_annealing in Hr as [_ Hk]. exact Hk. }
  intros self Hr. apply reachable_annealing in Hr as [_ (k & Hk & He)].
  destruct (annealing_check_sound _ _ annealing_checked k Hk) as (Hlo & Hhi & _).
  rewrite He. split; assumption.
Qed.

(** C8. Below [TRAIN_AFTER] actions, and whenever the action counter is
    not a multiple of [TRAIN_INTERVAL], [train] returns the agent as it
    was: no update of either network, no checkpoint, nothing printed, [t]
    unchanged.  A call that changes anything was made with at least
    [TRAIN_AFTER] actions taken and a counter that is a multiple of
    [TRAIN_INTERVAL], and it advances [t] by exactly one. *)
Theorem train_gate (fuel : nat) (self : agent) :
  (_num_actions_taken self < TRAIN_AFTER -> train fuel self = Ok self) /\
  (_num_actions_taken self mod TRAIN_INTERVAL <> 0 -> train fuel self = Ok self) /\
  (forall self', train fuel self = Ok self' -> self' <> self ->
     500 <= _num_actions_taken self /\
     _num_actions_taken self mod 4 = 0 /\
     t self' = t self + 1) /\
  (forall self', train fuel self = Ok self' ->
     q_network_weights self' <> q_network_weights self \/
     target_network_weights self' <> target_network_weights self \/
     output self' <> output self \/
     t self' <> t self ->
     TRAIN_AFTER <= _num_actions_taken self /\
     _num_actions_taken self mod TRAIN_INTERVAL = 0).
Proof.
  split; [| split; [| split]].
  - intros Hlt. unfold train.
    destruct (TRAIN_AFTER <=? _num_actions_taken self) eqn:E; [lia | reflexivity].
  - intros Hne. unfold train.
    destruct (TRAIN_AFTER <=? _num_actions_taken self); [| reflexivity].
    destruct (_num_actions_taken self mod TRAIN_INTERVAL =? 0) eqn:E; [lia | reflexivity].
  - intros self' Htrain Hne.
    apply train_Ok in Htrain as (_ & _ & _ & [Heq | Hgate]); [contradiction |].
    exact Hgate.
  - intros self' Htrain Hchange.
    apply train_Ok in Htrain as (_ & _ & _ & [Heq | Hgate]).
    + subst self'. destruct Hchange as [C | [C | [C | C]]]; contradiction.
    + tauto.
Qed.

End AgentProperties.

Section AgentExamples.
Import DeepQAgent.
#[local] Existing Instance zero_network.
#[local] Existing Instance counting_random.

(** C1 (the code departs from it). On the driver's fresh agent, one
    [observe] call with reward 1.0 on a transition that is not terminal
    takes [total_reward] from 0.0 to 2.0: the reward is added twice. *)
Theorem observe_adds_reward_twice :
  (self0 ← driver_agent;
   self ← observe self0 (frame 0 0) 0 1%float false;
   mret (total_reward self0, total_reward self))
  = Ok (0%float, 2%float).
Proof. vm_compute. reflexivity. Qed.

(** A call of [train] inside the gate: 500 actions taken, [t] goes from 0
    to 1 and one line is printed. *)
Example train_gate_open :
  (self0 ← driver_agent;
   self ← run self0 (replicate 500 (Act (frame 0 0)));
   self' ← train 0 self;
   mret (_num_actions_taken self, t self, t self', output self'))
  = Ok (500, 0, 1, [TrainStep 0 0 500]).
Proof. vm_compute. reflexivity. Qed.

(** C3 as stated fails: the agent reached by [annealing_calls] has made
    exactly [EXPLORATION_STEPS] decrements, and its [epsilon] is not
    [FINAL_EPSILON] but a number below it. *)
Lemma epsilon_falls_below_final :
  exists self : agent,
    reachable self /\
    epsilon self = decrements (Z.to_nat EXPLORATION_STEPS) INITIAL_EPSILON /\
    epsilon self <> FINAL_EPSILON /\
    (epsilon self <? FINAL_EPSILON)%float = true.
Proof.
  assert (Heps : (self ← (self0 ← @__init__ zero_network counting_random [4; 2] 5 0;
                          run self0 annealing_calls);
                  mret (epsilon self)) = Ok EPSILON_FLOOR)
    by (vm_compute; reflexivity).
  apply bind_Ok in Heps as (self & Hrun & Heps).
  assert (Heps' : epsilon self = EPSILON_FLOOR) by (inversion Heps; reflexivity).
  clear Heps. exists self. split; [| split; [| split]].
  - exact (init_run_reachable _ _ _ _ _ Hrun).
  - rewrite Heps'. vm_compute. reflexivity.
  - rewrite Heps'. intros Heq.
    assert (Hlt : (EPSILON_FLOOR <? FINAL_EPSILON)%float = true) by reflexivity.
    rewrite Heq in Hlt. vm_compute in Hlt. discriminate.
  - rewrite Heps'. reflexivity.
Qed.

End AgentExamples.

(** ** Detector *)

Lemma arange_elem (a b i : Z) : i ∈ arange a b -> a <= i < b.
Proof.
  unfold arange. intros Hi.
  apply list_elem_of_fmap in Hi as (k & -> & Hk).
  apply elem_of_seq in Hk. lia.
Qed.

Lemma getitem_total {A} (l : list A) (i : Z) :
  0 <= i < len l -> exists x, getitem l i = Ok x /\ l !! Z.to_nat i = Some x.
Proof.
  intros Hi.
  destruct (l !! Z.to_nat i) as [x|] eqn:E.
  - exists x. split; [apply getitem_Ok_nonneg; [lia | exact E] | reflexivity].
  - apply lookup_ge_None in E. unfold len in Hi. lia.
Qed.

Lemma arange_cons (a b : Z) : a < b -> arange a b = a :: arange (a + 1) b.
Proof.
  intros Hab. unfold arange.
  replace (Z.to_nat (b - a)) with (S (Z.to_nat (b - (a + 1)))) by lia.
  simpl seq. rewrite fmap_cons. f_equal; [lia |].
  rewrite <- fmap_S_seq, <- list_fmap_compose.
  apply list_fmap_ext. intros i k _. simpl. lia.
Qed.

Section DetectorProperties.
Context `{Detector.Graph} `{Detector.VisUtil}.
Import Detector.

(** The loop falls off its end when no index it visits qualifies. *)
Lemma scan_None (self : t) (bboxes : list (list float)) (classes : list Z)
      (scores : list float) (im_width im_height : Z) (range : list Z) :
  (forall i, i ∈ range -> 0 <= i < len scores /\ i < len classes) ->
  (forall i, i ∈ range -> ~ qualifies self classes scores (Z.to_nat i)) ->
  scan self bboxes classes (Some scores) im_width im_height range = Ok None.
Proof.
  induction range as [|i range IH]; intros Hin Hno; [reflexivity |].
  assert (IH' : scan self bboxes classes (Some scores) im_width im_height range = Ok None).
  { apply IH; intros j Hj; [apply Hin | apply Hno]; right; exact Hj. }
  destruct (Hin i) as [Hs Hc]; [left |].
  destruct (getitem_total scores i Hs) as (s & Hgs & Hls).
  destruct (getitem_total classes i) as (c & Hgc & Hlc); [lia |].
  simpl. rewrite Hgs. simpl.
  destruct (gtb s min_score_thresh) eqn:Hgt; [| exact IH'].
  rewrite Hgc. simpl.
  destruct (category_index self !! c) as [cat|] eqn:Hcat; [| exact IH'].
  destruct (String.eqb (name cat) "traffic light") eqn:Hname; [| exact IH'].
  exfalso. apply (Hno i); [left |].
  exists s, c, cat. apply String.eqb_eq in Hname. auto.
Qed.

(** An index that does not qualify is passed over. *)
Lemma scan_miss (self : t) (bboxes : list (list float)) (classes : list Z)
      (scores : list float) (im_width im_height i : Z) (range : list Z) :
  0 <= i < len scores -> i < len classes ->
  ~ qualifies self classes scores (Z.to_nat i) ->
  scan self bboxes classes (Some scores) im_width im_height (i :: range)
  = scan self bboxes classes (Some scores) im_width im_height range.
Proof.
  intros Hs Hc Hno.
  destruct (getitem_total scores i Hs) as (s & Hgs & Hls).
  destruct (getitem_total classes i) as (c & Hgc & Hlc); [lia |].
  simpl. rewrite Hgs. simpl.
  destruct (gtb s min_score_thresh) eqn:Hgt; [| reflexivity].
  rewrite Hgc. simpl.
  destruct (category_index self !! c) as [cat|] eqn:Hcat; [| reflexivity].
  destruct (String.eqb (name cat) "traffic light") eqn:Hname; [| reflexivity].
  exfalso. apply Hno.
  exists s, c, cat. apply String.eqb_eq in Hname. auto.
Qed.

(** An index that qualifies ends the loop with its box's geometry. *)
Lemma scan_hit (self : t) (bboxes : list (list float)) (classes : list Z)
      (scores : list float) (im_width im_height i : Z) (range : list Z)
      (ymin xmin ymax xmax : float) :
  0 <= i ->
  qualifies self classes scores (Z.to_nat i) ->
  bboxes !! Z.to_nat i = Some [ymin; xmin; ymax; xmax] ->
  scan self bboxes classes (Some scores) im_width im_height (i :: range)
  = Ok (Some (spec_geometry im_height im_width ymin xmin ymax xmax)).
Proof.
  intros Hi (s & c & cat & Hs & Hgt & Hc & Hcat & Hname) Hbox.
  simpl.
  rewrite (getitem_Ok_nonneg scores i s Hi Hs). simpl. rewrite Hgt.
  rewrite (getitem_Ok_nonneg classes i c Hi Hc). simpl. rewrite Hcat.
  apply String.eqb_eq in Hname. rewrite Hname.
  rewrite (getitem_Ok_nonneg bboxes i _ Hi Hbox). reflexivity.
Qed.

(** The loop returns the geometry of the first index that qualifies. *)
Lemma scan_first (self : t) (bboxes : list (list float)) (classes : list Z)
      (scores : list float) (im_width im_height : Z)
      (ymin xmin ymax xmax : float) (k n : Z) (d : nat) (a : Z) :
  k = a + Z.of_nat d -> 0 <= a -> k < n ->
  n <= len scores -> n <= len classes ->
  (forall j, a <= j < k -> ~ qualifies self classes scores (Z.to_nat j)) ->
  qualifies self classes scores (Z.to_nat k) ->
  bboxes !! Z.to_nat k = Some [ymin; xmin; ymax; xmax] ->
  scan self bboxes classes (Some scores) im_width im_height (arange a n)
  = Ok (Some (spec_geometry im_height im_width ymin xmin ymax xmax)).
Proof.
  revert a. induction d as [|d IH]; intros a Hk Ha Hn Hs Hc Hno Hq Hbox.
  - assert (a = k) by lia. subst a.
    rewrite arange_cons by lia. apply scan_hit; assumption.
  - rewrite arange_cons by lia.
    rewrite scan_miss; [| lia | lia | apply Hno; lia].
    apply IH; try assumption; try lia.
    intros j Hj. apply Hno. lia.
Qed.

(** [detect] on an array that is there, when inference succeeds: the
    copy, the drawing, the file and the loop. *)
Lemma detect_unfold (self : t) (w : world) (image_np : positive)
      (array : image) (out : output_dict) :
  heap w !! image_np = Some array ->
  run_inference_for_single_image array = Ok out ->
  detect self w image_np =
  let drawn :=
    visualize_boxes_and_labels_on_image_array array
      (detection_boxes out) (detection_classes out) (detection_scores out)
      (category_index self) min_score_thresh (detection_masks out) in
  match slice (im_shape array) 0 2 with
  | [im_width; im_height] =>
      r ← scan self (detection_boxes out) (detection_classes out)
             (Some (detection_scores out)) im_width im_height
             (arange 0 (len (detection_boxes out)));
      mret (r, {| heap := <[fresh (dom (heap w)) := drawn]>
                            (<[fresh (dom (heap w)) := array]> (heap w));
                  files := <["detect.jpg" := drawn]> (files w) |})
  | _ => Raise (ValueError "wrong number of values to unpack")
  end.
Proof.
  intros Harr Hout. unfold detect. rewrite Harr, Hout. reflexivity.
Qed.

Lemma detect_None (self : t) (w : world) (image_np : positive)
      (array : image) (out : output_dict) :
  heap w !! image_np = Some array ->
  run_inference_for_single_image array = Ok out ->
  (2 <= length (im_shape array))%nat ->
  length (detection_classes out) = length (detection_boxes out) ->
  length (detection_scores out) = length (detection_boxes out) ->
  (forall i, ~ qualifies self (detection_classes out) (detection_scores out) i) ->
  exists w', detect self w image_np = Ok (None, w').
Proof.
  intros Harr Hout Hshape Hclasses Hscores Hno.
  rewrite (detect_unfold _ _ _ _ _ Harr Hout). simpl.
  destruct (im_shape array) as [|h [|wd rest]]; simpl in Hshape; [lia | lia |].
  assert (Hslice : slice (h :: wd :: rest) 0 2 = [h; wd]).
  { unfold slice, slice_bound, len. simpl length.
    replace (Z.min 2 _) with 2 by lia. reflexivity. }
  rewrite Hslice.
  rewrite scan_None.
  - simpl. eexists; reflexivity.
  - intros i Hi. apply arange_elem in Hi. unfold len in *. lia.
  - intros i _. apply Hno.
Qed.

(** What [detect] returns when there is a traffic light: for an image
    of [rows] rows and [columns] columns, the specification's geometry of
    the first detection that qualifies, with the two dimensions
    exchanged. *)
Lemma detect_first_traffic_light (self : t) (w : world) (image_np : positive)
      (array : image) (out : output_dict) (rows columns : Z) (rest : list Z)
      (k : nat) (ymin xmin ymax xmax : float) :
  heap w !! image_np = Some array ->
  run_inference_for_single_image array = Ok out ->
  im_shape array = rows :: columns :: rest ->
  length (detection_classes out) = length (detection_boxes out) ->
  length (detection_scores out) = length (detection_boxes out) ->
  (forall j, (j < k)%nat ->
     ~ qualifies self (detection_classes out) (detection_scores out) j) ->
  qualifies self (detection_classes out) (detection_scores out) k ->
  detection_boxes out !! k = Some [ymin; xmin; ymax; xmax] ->
  exists w',
    detect self w image_np
    = Ok (Some (spec_geometry columns rows ymin xmin ymax xmax), w').
Proof.
  intros Harr Hout Hshape Hclasses Hscores Hno Hq Hbox.
  rewrite (detect_unfold _ _ _ _ _ Harr Hout). simpl. rewrite Hshape.
  assert (Hslice : slice (rows :: columns :: rest) 0 2 = [rows; columns]).
  { unfold slice, slice_bound, len. simpl length.
    replace (Z.min 2 _) with 2 by lia. reflexivity. }
  rewrite Hslice.
  assert (Hk : (k < length (detection_boxes out))%nat)
    by (eapply lookup_lt_Some; exact Hbox).
  rewrite (scan_first self _ _ _ rows columns ymin xmin ymax xmax
             (Z.of_nat k) (len (detection_boxes out)) k 0);
    unfold len in *; rewrite ?Nat2Z.id; try assumption; try lia.
  - simpl. eexists; reflexivity.
  - intros j Hj. apply Hno. lia.
Qed.

(** C9. When no detection has both a score above [min_score_thresh] and
    a class that the label map names "traffic light", [detect] returns
    [None]; so it does when no score is above the threshold, and when no
    detected class resolves to "traffic light". *)
Theorem detect_nothing_found (self : t) (w : world) (image_np : positive)
        (array : image) (out : output_dict) :
  heap w !! image_np = Some array ->
  run_inference_for_single_image array = Ok out ->
  (2 <= length (im_shape array))%nat ->
  length (detection_classes out) = length (detection_boxes out) ->
  length (detection_scores out) = length (detection_boxes out) ->
  ((forall i, ~ qualifies self (detection_classes out) (detection_scores out) i) ->
   exists w', detect self w image_np = Ok (None, w')) /\
  ((forall s, s ∈ detection_scores out -> gtb s min_score_thresh = false) ->
   exists w', detect self w image_np = Ok (None, w')) /\
  ((forall c cat, c ∈ detection_classes out ->
                  category_index self !! c = Some cat ->
                  name cat <> "traffic light") ->
   exists w', detect self w image_np = Ok (None, w')).
Proof.
  intros Harr Hout Hshape Hclasses Hscores.
  split; [| split]; intros Hno; eapply detect_None; eauto.
  - intros i (s & c & cat & Hs & Hgt & _).
    rewrite (Hno s) in Hgt; [discriminate |].
    apply list_elem_of_lookup. eauto.
  - intros i (s & c & cat & _ & _ & Hc & Hcat & Hname).
    apply (Hno c cat); [| exact Hcat | exact Hname].
    apply list_elem_of_lookup. eauto.
Qed.

(** C10. [detect] leaves the caller's array, and every other array that
    was there, as it found them: the drawing is made on a fresh copy,
    which is what is written to 'detect.jpg'. *)
Theorem detect_leaves_argument (self : t) (w : world) (image_np : positive)
        (array : image) :
  heap w !! image_np = Some array ->
  forall r w', detect self w image_np = Ok (r, w') ->
  heap w' !! image_np = Some array /\
  (forall l a, heap w !! l = Some a -> heap w' !! l = Some a) /\
  exists out,
    run_inference_for_single_image array = Ok out /\
    heap w !! fresh (dom (heap w)) = None /\
    heap w' !! fresh (dom (heap w)) = files w' !! "detect.jpg" /\
    files w' !! "detect.jpg" =
      Some (visualize_boxes_and_labels_on_image_array array
              (detection_boxes out) (detection_classes out)
              (detection_scores out) (category_index self)
              min_score_thresh (detection_masks out)).
Proof.
  intros Harr r w' Hdetect.
  destruct (run_inference_for_single_image array) as [out| |] eqn:Hout;
    [| unfold detect in Hdetect; rewrite Harr, Hout in Hdetect; discriminate
     | unfold detect in Hdetect; rewrite Harr, Hout in Hdetect; discriminate].
  rewrite (detect_unfold _ _ _ _ _ Harr Hout) in Hdetect. simpl in Hdetect.
  destruct (slice (im_shape array) 0 2) as [|im_width [|im_height [|]]];
    try discriminate.
  apply bind_Ok in Hdetect as (r' & _ & Hdetect).
  inversion Hdetect; subst; clear Hdetect. simpl.
  assert (Hfresh : heap w !! fresh (dom (heap w)) = None).
  { apply not_elem_of_dom. apply is_fresh. }
  assert (Hkeep : forall l a, heap w !! l = Some a ->
            <[fresh (dom (heap w)) := visualize_boxes_and_labels_on_image_array array
                (detection_boxes out) (detection_classes out)
                (detection_scores out) (category_index self)
                min_score_thresh (detection_masks out)]>
              (<[fresh (dom (heap w)) := array]> (heap w)) !! l = Some a).
  { intros l a Hl.
    assert (Hne : fresh (dom (heap w)) <> l)
      by (intros E; rewrite <- E in Hl; congruence).
    rewrite !lookup_insert_ne by exact Hne. exact Hl. }
  split; [apply Hkeep; exact Harr |].
  split; [exact Hkeep |].
  exists out. split; [reflexivity |]. split; [exact Hfresh |].
  rewrite !lookup_insert_eq. split; reflexivity.
Qed.

End DetectorProperties.

Section DetectorExamples.
Import Detector.
#[local] Existing Instance whitewash.

(** The code's geometry is the specification's with rows and columns
    exchanged: [detect] calls it with [im_width] the number of rows. *)
Lemma geometry_exchanged (im_width im_height : Z) (ymin xmin ymax xmax : float) :
  geometry im_width im_height [ymin; xmin; ymax; xmax]
  = Ok (spec_geometry im_height im_width ymin xmin ymax xmax).
Proof. reflexivity. Qed.

(** C2 (the code departs from it). On an image of 100 rows and 200
    columns, a traffic light of score 0.9 in the box (0.25, 0.5, 0.5, 0.75)
    is reported as (12.5, -25, 25, 50), where the claimed formulas give
    (25, -12.5, 50, 25): [detect] scales the x fractions by the number of
    rows and the y fractions by the number of columns.  On the square
    image of the specification's example both give (0, 0, 20, 20). *)
Theorem detect_exchanges_width_and_height :
  ('(r, _) ← @detect (one_detection 10 (f32 0.9) right_box) whitewash coco
               (one_image 100 200) 1;
   mret r) = Ok (Some (12.5, -25, 25, 50)%float) /\
  spec_geometry 100 200 0.25 0.5 0.5 0.75 = (25, -12.5, 50, 25)%float /\
  ('(r, _) ← @detect (one_detection 10 (f32 0.9) centre_box) whitewash coco
               (one_image 100 100) 1;
   mret r) = Ok (Some (0, 0, 20, 20)%float) /\
  spec_geometry 100 100 0.4 0.4 0.6 0.6 = (0, 0, 20, 20)%float.
Proof. repeat split; vm_compute; reflexivity. Qed.

(** A person above the threshold and a traffic light below it: nothing
    is found either time. *)
Lemma detect_nothing_found_witness :
  (exists w', @detect (one_detection 1 (f32 0.9) centre_box) whitewash coco
                (one_image 4 6) 1 = Ok (None, w')) /\
  (exists w', @detect (one_detection 10 (f32 0.5) centre_box) whitewash coco
                (one_image 4 6) 1 = Ok (None, w')).
Proof.
  split.
  - destruct (@detect_nothing_found (one_detection 1 (f32 0.9) centre_box) whitewash
                coco (one_image 4 6) 1 (black 4 6) (one_output 1 (f32 0.9) centre_box))
      as (_ & _ & Hclass);
      [vm_compute; reflexivity | vm_compute; reflexivity | simpl; lia
       | reflexivity | reflexivity |].
    apply Hclass. intros c cat Hc Hcat.
    apply list_elem_of_In in Hc. destruct Hc as [<- | []].
    vm_compute in Hcat. inversion Hcat; subst. simpl. discriminate.
  - destruct (@detect_nothing_found (one_detection 10 (f32 0.5) centre_box) whitewash
                coco (one_image 4 6) 1 (black 4 6) (one_output 10 (f32 0.5) centre_box))
      as (_ & Hscore & _);
      [vm_compute; reflexivity | vm_compute; reflexivity | simpl; lia
       | reflexivity | reflexivity |].
    apply Hscore. intros s Hs.
    apply list_elem_of_In in Hs. destruct Hs as [<- | []].
    vm_compute. reflexivity.
Defined.

(** The caller's black image is still black after a detection that
    painted the copy white. *)
Lemma detect_leaves_argument_witness :
  exists r w',
    @detect (one_detection 10 (f32 0.9) centre_box) whitewash coco
      (one_image 4 6) 1 = Ok (r, w') /\
    heap w' !! 1%positive = Some (black 4 6) /\
    files w' !! "detect.jpg" <> Some (black 4 6).
Proof.
  destruct (@detect (one_detection 10 (f32 0.9) centre_box) whitewash coco
              (one_image 4 6) 1) as [[r w']| |] eqn:Hd.
  - exists r, w'. split; [reflexivity |].
    assert (Harr : heap (one_image 4 6) !! 1%positive = Some (black 4 6))
      by (vm_compute; reflexivity).
    destruct (@detect_leaves_argument (one_detection 10 (f32 0.9) centre_box)
                whitewash coco (one_image 4 6) 1 (black 4 6) Harr r w' Hd)
      as (Hsame & _ & out & _ & _ & _ & Hfile).
    split; [exact Hsame |].
    rewrite Hfile. vm_compute. intros Heq. inversion Heq.
  - vm_compute in Hd. discriminate.
  - vm_compute in Hd. discriminate.
Defined.

End DetectorExamples.

(** * Further properties *)

(** ** History *)

Section HistoryProperties.
Import History.

Lemma slice_tail {A} (a : A) (rest : list A) :
  slice (a :: rest) 1 (len (a :: rest)) = rest.
Proof.
  unfold slice, slice_bound, len. simpl length.
  replace (1 <? 0) with false by reflexivity.
  destruct (Z.of_nat (S (length rest)) <? 0) eqn:E; [apply Z.ltb_lt in E; lia |].
  rewrite !(Z.min_l 1) by lia. rewrite Z.min_id.
  replace (Z.to_nat 1) with 1%nat by reflexivity. simpl drop.
  apply take_ge. lia.
Qed.

Lemma slice_last {A} (a : A) (rest : list A) :
  exists y, slice (a :: rest) (-1) (len (a :: rest)) = [y].
Proof.
  unfold slice, slice_bound, len. simpl length.
  replace (-1 <? 0) with true by reflexivity.
  destruct (Z.of_nat (S (length rest)) <? 0) eqn:E; [apply Z.ltb_lt in E; lia |].
  rewrite Z.min_id. rewrite Z.max_r by lia.
  replace (Z.to_nat (Z.of_nat (S (length rest)) - (-1 + Z.of_nat (S (length rest)))))
    with 1%nat by lia.
  replace (Z.to_nat (-1 + Z.of_nat (S (length rest)))) with (length rest) by lia.
  destruct (drop (length rest) (a :: rest)) as [|y l] eqn:D.
  - apply (f_equal length) in D. rewrite length_drop in D. simpl in D. lia.
  - exists y. reflexivity.
Qed.

Lemma getitem_last {A} (rest : list A) (y : A) : getitem (rest ++ [y]) (-1) = Ok y.
Proof.
  unfold getitem, py_norm_index, len. rewrite length_app. simpl length.
  replace (-1 <? 0) with true by reflexivity.
  destruct ((0 <=? -1 + Z.of_nat (length rest + 1)) &&
            (-1 + Z.of_nat (length rest + 1) <? Z.of_nat (length rest + 1))) eqn:E;
    [| exfalso; apply andb_false_iff in E as [E | E];
       [apply Z.leb_gt in E | apply Z.ltb_ge in E]; lia].
  replace (Z.to_nat (-1 + Z.of_nat (length rest + 1))) with (length rest) by lia.
  rewrite list_lookup_middle by reflexivity. reflexivity.
Qed.

Lemma setitem_last {A} (rest : list A) (y x : A) :
  setitem (rest ++ [y]) (-1) x = Ok (rest ++ [x]).
Proof.
  unfold setitem, py_norm_index, len. rewrite length_app. simpl length.
  replace (-1 <? 0) with true by reflexivity.
  destruct ((0 <=? -1 + Z.of_nat (length rest + 1)) &&
            (-1 + Z.of_nat (length rest + 1) <? Z.of_nat (length rest + 1))) eqn:E;
    [| exfalso; apply andb_false_iff in E as [E | E];
       [apply Z.leb_gt in E | apply Z.ltb_ge in E]; lia].
  replace (Z.to_nat (-1 + Z.of_nat (length rest + 1))) with (length rest + 0)%nat by lia.
  rewrite insert_app_r. reflexivity.
Qed.

(** [append] in one equation: an empty buffer has no last row, a state
    that does not broadcast to a row is refused, and otherwise the rows
    move up by one and the state, broadcast to a row and as float32,
    becomes the last. *)
Lemma history_append_eq (h : t) (state : ndarray) :
  append h state =
  match _buffer h with
  | [] => Raise (IndexError "index out of bounds")
  | _ :: rest =>
      row ← broadcast_to state (tail (_shape h));
      mret {| _shape := _shape h; _buffer := rest ++ [f32 <$> row] |}
  end.
Proof.
  unfold append.
  destruct (_buffer h) as [|a rest]; [reflexivity |].
  rewrite slice_tail. destruct (slice_last a rest) as [y ->].
  rewrite getitem_last. simpl.
  destruct (broadcast_to state (tail (_shape h))) as [row| |]; simpl;
    [| reflexivity | reflexivity].
  rewrite setitem_last. reflexivity.
Qed.

Lemma append_frames_window (states : list ndarray) (h h' : t) :
  _buffer h <> [] ->
  append_frames h states = Ok h' ->
  exists rows,
    mapO (fun state => broadcast_to state (tail (_shape h))) states = Ok rows /\
    _shape h' = _shape h /\
    _buffer h' =
      drop (length states)
           (_buffer h ++ ((fun row : list float => f32 <$> row) <$> rows)).
Proof.
  revert h. induction states as [|state states IH]; intros h Hne Hrun; simpl in Hrun.
  - inversion Hrun; subst. exists []. simpl. rewrite app_nil_r. auto.
  - apply bind_Ok in Hrun as (h1 & H1 & Hrun).
    rewrite history_append_eq in H1.
    destruct (_buffer h) as [|a rest] eqn:Hbuf; [discriminate |].
    apply bind_Ok in H1 as (row & Hrow & H1).
    inversion H1; subst h1; clear H1.
    assert (Hne1 : rest ++ [f32 <$> row] <> [])
      by (intros E; apply app_eq_nil in E as [_ E]; discriminate E).
    destruct (IH {| _shape := _shape h; _buffer := rest ++ [f32 <$> row] |}
                 Hne1 Hrun) as (rows & Hrows & Hs & Hb).
    simpl in Hrows, Hs, Hb.
    exists (row :: rows). split.
    + simpl. rewrite Hrow. simpl. rewrite Hrows. reflexivity.
    + split; [exact Hs |].
      rewrite Hb. simpl. rewrite <- app_assoc. reflexivity.
Qed.

(** X1. A history keeps the most recent frames: after a run of appends
    to a buffer of [n >= 1] rows, the buffer is the last [n] rows of the
    old rows followed by the appended states, each broadcast to the shape
    of a row and stored as float32, in order; once at least [n] states
    were appended it holds exactly the last [n] of them.  A state of the
    shape of a row is stored as it is.  The buffer's shape is
    unchanged. *)
Theorem history_keeps_last_frames (states : list ndarray) (h h' : t) :
  _buffer h <> [] ->
  append_frames h states = Ok h' ->
  exists rows,
    mapO (fun state => broadcast_to state (tail (_shape h))) states = Ok rows /\
    length rows = length states /\
    (forall (k : nat) state row,
       states !! k = Some state -> rows !! k = Some row ->
       shape state = tail (_shape h) -> row = data state) /\
    _shape h' = _shape h /\
    length (_buffer h') = length (_buffer h) /\
    _buffer h' =
      drop (length states)
           (_buffer h ++ ((fun row : list float => f32 <$> row) <$> rows)) /\
    ((length (_buffer h) <= length states)%nat ->
       _buffer h' =
         drop (length states - length (_buffer h))
              ((fun row : list float => f32 <$> row) <$> rows)).
Proof.
  intros Hne Hrun.
  destruct (append_frames_window _ _ _ Hne Hrun) as (rows & Hrows & Hs & Hb).
  exists rows. split; [exact Hrows |].
  apply mapO_Ok_lookup in Hrows as [Hlen Hrows].
  split; [exact Hlen |]. split.
  { intros k state row Hk Hrow Hshape.
    destruct (Hrows k state Hk) as (row' & Hrow' & Hk').
    rewrite Hrow in Hk'. inversion Hk'; subst row'.
    unfold broadcast_to, shape_eqb in Hrow'.
    rewrite bool_decide_eq_true_2 in Hrow' by exact Hshape.
    inversion Hrow'. reflexivity. }
  split; [exact Hs |]. split.
  { rewrite Hb, length_drop, length_app, length_fmap. lia. }
  split; [exact Hb |].
  intros Hle. rewrite Hb. rewrite drop_app_ge by lia. reflexivity.
Qed.

End HistoryProperties.

(** ** ReplayMemory *)

Section ReplayMemoryFurther.
Import ReplayMemory.

Lemma setitem_nonneg {A} (l l' : list A) (i : Z) (x : A) :
  0 <= i -> setitem l i x = Ok l' -> l' = <[Z.to_nat i := x]> l /\ i < len l.
Proof.
  intros Hi H. unfold setitem in H.
  destruct (py_norm_index (len l) i) as [j|] eqn:Hj; [| discriminate].
  apply py_norm_index_Some in Hj as [[Hr ->] | [Hr _]]; [| lia].
  inversion H; subst. split; [reflexivity | lia].
Qed.

(** The four arrays after a successful [append]. *)
Lemma append_stores (m m' : t) (state : ndarray) (action : Z) (reward : float)
      (done : bool) :
  wf m -> append m state action reward done = Ok m' ->
  _states m' = <[Z.to_nat (_pos m) := f32 <$> data state]> (_states m) /\
  _actions m' = <[Z.to_nat (_pos m) := action mod 256]> (_actions m) /\
  _rewards m' = <[Z.to_nat (_pos m) := f32 reward]> (_rewards m) /\
  _terminals m' = <[Z.to_nat (_pos m) := float_of_bool done]> (_terminals m) /\
  shape state = _state_shape m.
Proof.
  intros Hwf H. unfold append in H.
  destruct (negb (shape_eqb (shape state) (_state_shape m))) eqn:Hshape;
    [discriminate |].
  apply bind_Ok in H as (states & Hs & H).
  apply bind_Ok in H as (actions & Ha & H).
  apply bind_Ok in H as (rewards & Hr & H).
  apply bind_Ok in H as (terminals & Ht & H).
  apply bind_Ok in H as (pos & Hp & H).
  inversion H; subst; clear H. simpl.
  destruct Hwf as [H0 _ _ _ _ _ _ _].
  apply (setitem_nonneg _ _ _ _ H0) in Hs as [-> _], Ha as [-> _],
      Hr as [-> _], Ht as [-> _].
  repeat split.
  apply negb_false_iff in Hshape. unfold shape_eqb in Hshape.
  apply bool_decide_eq_true_1 in Hshape. exact Hshape.
Qed.

(** The frames of [get_state], each as a position of [_states]. *)
Lemma get_state_lookup (m : t) (index : Z) :
  wf m -> 0 < _count m ->
  exists frames,
    get_state m index = Ok frames /\
    len frames = _history_length m /\
    forall j, 0 <= j < _history_length m ->
      frames !! Z.to_nat j =
      _states m !! Z.to_nat ((index mod _count m - _history_length m + 1 + j)
                             mod _max_size m).
Proof.
  intros Hwf Hcount.
  destruct (get_state_frames m index Hwf Hcount) as (frames & Hf & Hlen & Hhi & Hlo).
  exists frames. split; [exact Hf |]. split; [exact Hlen |].
  intros j Hj.
  assert (Hi : 0 <= index mod _count m < _count m)
    by (apply Z.mod_pos_bound; exact Hcount).
  destruct Hwf as [H0 H1 H2 H3 H4 H5 H6 H7].
  destruct (Z_le_gt_dec (_history_length m) (index mod _count m)) as [Hge | Hlt].
  - destruct (Hhi Hge) as [_ Hlook]. rewrite (Hlook j Hj).
    rewrite (Z.mod_small (index mod _count m - _history_length m + 1 + j)) by lia.
    f_equal. lia.
  - destruct (Hlo ltac:(lia) j Hj) as [_ Hlook]. exact Hlook.
Qed.

(** X2. What [append] writes is what [get_state] reads back: after a
    successful [append] at cursor [p], the newest frame of [get_state(p)]
    is the appended state (as float32), the action (as a byte), the
    reward (as float32) and the terminal flag sit at [p] in their arrays,
    and every other slot of the four arrays is as it was. *)
Theorem append_then_get_state (m m' : t) (state : ndarray) (action : Z)
        (reward : float) (done : bool) :
  reachable m -> append m state action reward done = Ok m' ->
  let p := Z.to_nat (_pos m) in
  (exists frames,
     get_state m' (_pos m) = Ok frames /\
     last frames = Some (f32 <$> data state)) /\
  _actions m' !! p = Some (action mod 256) /\
  _rewards m' !! p = Some (f32 reward) /\
  _terminals m' !! p = Some (float_of_bool done) /\
  forall j : nat, j <> p ->
    _states m' !! j = _states m !! j /\ _actions m' !! j = _actions m !! j /\
    _rewards m' !! j = _rewards m !! j /\ _terminals m' !! j = _terminals m !! j.
Proof.
  intros Hreach Happ. simpl.
  pose proof (reachable_wf _ Hreach) as Hwf.
  destruct (append_Ok _ _ _ _ _ _ Hwf Happ)
    as (Hwf' & HN & Hlt & Hsize & Hh & _ & Hc & _).
  destruct (append_stores _ _ _ _ _ _ Hwf Happ) as (Hs & Ha & Hr & Ht & _).
  pose proof Hwf as [H0 H1 H2 H3 H4 H5 H6 H7].
  assert (Hp : (Z.to_nat (_pos m) < length (_states m))%nat) by (unfold len in *; lia).
  split; [| split; [| split; [| split]]].
  - destruct (get_state_lookup m' (_pos m) Hwf') as (frames & Hf & Hlen & Hlook); [lia |].
    exists frames. split; [exact Hf |].
    rewrite last_lookup.
    replace (Init.Nat.pred (length frames)) with (Z.to_nat (_history_length m' - 1))
      by (unfold len in Hlen; lia).
    rewrite Hlook by (rewrite Hh; lia).
    rewrite (Z.mod_small (_pos m)) by lia.
    replace (_pos m - _history_length m' + 1 + (_history_length m' - 1)) with (_pos m)
      by lia.
    rewrite Hsize, Z.mod_small by lia.
    rewrite Hs. apply list_lookup_insert_eq. exact Hp.
  - rewrite Ha. apply list_lookup_insert_eq. unfold len in *. lia.
  - rewrite Hr. apply list_lookup_insert_eq. unfold len in *. lia.
  - rewrite Ht. apply list_lookup_insert_eq. unfold len in *. lia.
  - intros j Hj. rewrite Hs, Ha, Hr, Ht.
    rewrite !list_lookup_insert_ne by (intros E; apply Hj; symmetry; exact E).
    auto.
Qed.

(** X3. Consecutive states overlap: on a reachable memory, for
    [0 <= i] and [i + 1 < count], the post-state [get_state(i + 1)] is the
    pre-state [get_state(i)] moved up by one frame. *)
Theorem get_state_successor (m : t) (i : Z) :
  reachable m -> 0 <= i -> i + 1 < _count m ->
  exists pre post,
    get_state m i = Ok pre /\ get_state m (i + 1) = Ok post /\
    len pre = _history_length m /\ len post = _history_length m /\
    forall j, 0 <= j < _history_length m - 1 ->
      post !! Z.to_nat j = pre !! Z.to_nat (j + 1).
Proof.
  intros Hreach Hi Hcount.
  pose proof (reachable_wf _ Hreach) as Hwf.
  destruct (get_state_lookup m i Hwf) as (pre & Hpre & Hlpre & Hkpre); [lia |].
  destruct (get_state_lookup m (i + 1) Hwf) as (post & Hpost & Hlpost & Hkpost); [lia |].
  exists pre, post. repeat split; try assumption.
  intros j Hj.
  rewrite Hkpost, Hkpre by lia.
  rewrite (Z.mod_small i), (Z.mod_small (i + 1)) by lia.
  replace (i - _history_length m + 1 + (j + 1))
    with (i + 1 - _history_length m + 1 + j) by lia.
  reflexivity.
Qed.

End ReplayMemoryFurther.

(** ** Sampling *)

Section SamplingProperties.
Context `{Random}.
Import ReplayMemory.

(** The loop of [sample]: what it returns extends what it was given,
    without repeats, by draws that passed the two tests. *)
Lemma sample_loop_sound (fuel : nat) (m : t) (size : Z) :
  forall (indexes : list Z) (g : rng) (r : list Z) (g' : rng),
  sample_loop fuel m size indexes g = Ok (r, g') ->
  forall Q : Z -> Prop,
  (forall g0, _history_length m < _count m - 1 ->
     let i := (np_random_randint (_history_length m) (_count m - 1) g0).1 in
     ~ (_pos m <= i /\ i - _history_length m < _pos m) ->
     any_nonzero (slice (_terminals m) (i - _history_length m) i) = false ->
     Q i) ->
  NoDup indexes -> len indexes <= Z.max 0 size -> (forall i, i ∈ indexes -> Q i) ->
  NoDup r /\ len r = Z.max 0 size /\ (forall i, i ∈ r -> Q i).
Proof.
  induction fuel as [|fuel IH]; intros indexes g r g' Hrun Q HQ Hnd Hlen Hall;
    simpl in Hrun.
  - destruct (size <=? len indexes) eqn:E; [| discriminate].
    inversion Hrun; subst. apply Z.leb_le in E.
    split; [exact Hnd |]. split; [unfold len in *; lia | exact Hall].
  - destruct (size <=? len indexes) eqn:E.
    { inversion Hrun; subst. apply Z.leb_le in E.
      split; [exact Hnd |]. split; [unfold len in *; lia | exact Hall]. }
    apply Z.leb_gt in E.
    apply bind_Ok in Hrun as ([index g1] & Hdraw & Hrun).
    unfold randint in Hdraw.
    destruct (_count m - 1 <=? _history_length m) eqn:Hrange; [discriminate |].
    apply Z.leb_gt in Hrange.
    destruct (np_random_randint (_history_length m) (_count m - 1) g) as [i0 g0] eqn:Hd.
    inversion Hdraw; subst i0 g0; clear Hdraw.
    destruct (bool_decide (index ∈ indexes)) eqn:Hin;
      [eapply IH; eauto |].
    apply bool_decide_eq_false_1 in Hin.
    destruct ((_pos m <=? index) && (index - _history_length m <? _pos m)) eqn:Hwrap;
      [eapply IH; eauto |].
    destruct (any_nonzero (slice (_terminals m) (index - _history_length m) index))
      eqn:Hterm; [eapply IH; eauto |].
    eapply IH; [exact Hrun | exact HQ | | | ].
    + apply NoDup_app. split; [exact Hnd |]. split; [| apply NoDup_singleton].
      intros x Hx Hx'. apply list_elem_of_singleton in Hx'. subst x. contradiction.
    + unfold len in *. rewrite length_app. simpl. lia.
    + intros i Hi. apply elem_of_app in Hi as [Hi | Hi]; [apply Hall; exact Hi |].
      apply list_elem_of_singleton in Hi. subst i.
      pose proof (HQ g Hrange) as HQg. simpl in HQg. rewrite Hd in HQg. simpl in HQg.
      apply HQg; [| exact Hterm].
      intros [H1 H2]. apply andb_false_iff in Hwrap as [Hw | Hw];
        [apply Z.leb_gt in Hw | apply Z.ltb_ge in Hw]; lia.
Qed.

(** What [sample] returns, when it returns. *)
Lemma sample_Ok (fuel : nat) (m : t) (size : Z) (g g' : rng) (indexes : list Z) :
  sample fuel m size g = Ok (indexes, g') ->
  NoDup indexes /\
  len indexes = Z.max 0 size /\
  (forall i, i ∈ indexes ->
     ~ (_pos m <= i /\ i - _history_length m < _pos m) /\
     any_nonzero (slice (_terminals m) (i - _history_length m) i) = false) /\
  (randint_in_range ->
   forall i, i ∈ indexes -> _history_length m <= i < _count m - 1).
Proof.
  intros Hrun. unfold sample in Hrun.
  destruct (sample_loop_sound fuel m size [] g indexes g' Hrun
              (fun i => (~ (_pos m <= i /\ i - _history_length m < _pos m) /\
                         any_nonzero (slice (_terminals m) (i - _history_length m) i)
                         = false) /\
                        (randint_in_range -> _history_length m <= i < _count m - 1)))
    as (Hnd & Hlen & Hall).
  - intros g0 Hrange i Hw Ht. split; [split; assumption |].
    intros Hc. apply Hc. exact Hrange.
  - apply NoDup_nil_2.
  - unfold len. simpl. lia.
  - intros i Hi. inversion Hi.
  - split; [exact Hnd |]. split; [exact Hlen |]. split.
    + intros i Hi. apply Hall. exact Hi.
    + intros Hc i Hi. apply Hall; assumption.
Qed.

(** The elements of [l[a:b]], for a start that is not negative. *)
Lemma slice_elem {A} (l : list A) (a b j : Z) (x : A) :
  0 <= a -> a <= j < b -> l !! Z.to_nat j = Some x -> x ∈ slice l a b.
Proof.
  intros Ha Hj Hx.
  assert (Hlt : (Z.to_nat j < length l)%nat) by (eapply lookup_lt_Some; eauto).
  unfold slice, slice_bound, len.
  destruct (a <? 0) eqn:Ea; [apply Z.ltb_lt in Ea; lia |].
  destruct (b <? 0) eqn:Eb; [apply Z.ltb_lt in Eb; lia |].
  apply list_elem_of_lookup. exists (Z.to_nat j - Z.to_nat a)%nat.
  rewrite lookup_take_lt by lia.
  rewrite lookup_drop.
  replace (Z.to_nat (Z.min a (Z.of_nat (length l))) + (Z.to_nat j - Z.to_nat a))%nat
    with (Z.to_nat j) by lia.
  exact Hx.
Qed.

Lemma any_nonzero_false (l : list float) (x : float) :
  any_nonzero l = false -> x ∈ l -> (x =? 0)%float = true.
Proof.
  unfold any_nonzero. intros Hl Hx.
  destruct (x =? 0)%float eqn:E; [reflexivity |].
  assert (Hex : existsb (fun x => negb (x =? 0)%float) l = true).
  { apply existsb_exists. exists x. split; [apply list_elem_of_In; exact Hx |].
    rewrite E. reflexivity. }
  rewrite Hex in Hl. discriminate.
Qed.

(** X4. What [sample] returns, when it returns: [size] indices (none
    for a negative [size]) without repeats; for each of them the write
    cursor is not within [(index - history_length, index]], and the slice
    [terminals[index - history_length : index]] holds no flag.  With a
    generator that keeps [np.random.randint]'s promise, all are within
    [history_length .. count - 2], and the slice is the [history_length]
    slots before the index: each of these is zero, while the flag of the
    index itself is not looked at. *)
Theorem sample_sound (fuel : nat) (m : t) (size : Z) (g g' : rng) (indexes : list Z) :
  sample fuel m size g = Ok (indexes, g') ->
  NoDup indexes /\
  len indexes = Z.max 0 size /\
  (forall i, i ∈ indexes ->
     ~ (_pos m <= i /\ i - _history_length m < _pos m) /\
     any_nonzero (slice (_terminals m) (i - _history_length m) i) = false) /\
  (randint_in_range ->
   forall i, i ∈ indexes ->
     _history_length m <= i < _count m - 1 /\
     forall j d,
       i - _history_length m <= j < i ->
       _terminals m !! Z.to_nat j = Some d -> (d =? 0)%float = true).
Proof.
  intros Hrun.
  destruct (sample_Ok _ _ _ _ _ _ Hrun) as (Hnd & Hlen & Hall & Hrange).
  split; [exact Hnd |]. split; [exact Hlen |]. split; [exact Hall |].
  intros Hc i Hi. specialize (Hrange Hc i Hi). split; [exact Hrange |].
  intros j d Hj Hd.
  destruct (Hall i Hi) as [_ Hzero].
  apply (any_nonzero_false _ _ Hzero).
  apply (slice_elem _ _ _ j); [lia | exact Hj | exact Hd].
Qed.

(** A list without repeats of integers within [a, b) has at most [b - a]
    elements. *)
Lemma NoDup_range_length (l : list Z) (a b : Z) :
  NoDup l -> (forall i, i ∈ l -> a <= i < b) -> len l <= Z.max 0 (b - a).
Proof.
  intros Hnd Hall.
  assert (Hsub : l ⊆+ seqZ a (b - a)).
  { apply NoDup_submseteq; [exact Hnd |].
    intros i Hi. apply elem_of_seqZ. specialize (Hall i Hi). lia. }
  apply submseteq_length in Hsub. rewrite length_seqZ in Hsub.
  unfold len. lia.
Qed.

(** X5. [sample] has no way out when the memory is too small: asked for
    more indices than there are candidates in
    [history_length .. count - 2], it never returns, whatever the fuel and
    the draws (the loop runs on, or [np.random.randint] raises); and with
    no candidate at all ([count - 1 <= history_length]) the first draw
    raises [ValueError]. *)
Theorem sample_starved (m : t) (size : Z) :
  0 < size ->
  (randint_in_range ->
   Z.max 0 (_count m - 1 - _history_length m) < size ->
   forall fuel g, ~ is_Ok (sample fuel m size g)) /\
  (_count m - 1 <= _history_length m ->
   forall fuel g, sample (S fuel) m size g = Raise (ValueError "low >= high")).
Proof.
  intros Hsize. split.
  - intros Hc Hfew fuel g [[indexes g'] Hrun].
    destruct (sample_Ok _ _ _ _ _ _ Hrun) as (Hnd & Hlen & _ & Hrange).
    pose proof (NoDup_range_length indexes (_history_length m) (_count m - 1) Hnd
                  (Hrange Hc)) as Hle.
    lia.
  - intros Hnone fuel g. unfold sample. simpl.
    destruct (size <=? len []) eqn:E; [apply Z.leb_le in E; unfold len in E; simpl in E; lia |].
    unfold randint.
    destruct (_count m - 1 <=? _history_length m) eqn:E'; [reflexivity |].
    apply Z.leb_gt in E'. lia.
Qed.

(** X6. A minibatch is five parallel arrays over the sampled indices:
    entry [k] holds [get_state(index)], the action, [get_state(index + 1)],
    the reward and the terminal flag stored at the [k]-th sampled index,
    and on a reachable memory every pre- and post-state has
    [history_length] frames. *)
Theorem minibatch_parallel (fuel : nat) (m : t) (size : Z) (g g' : rng)
        (pre_states post_states : list (list (list float)))
        (actions : list Z) (rewards dones : list float) :
  reachable m ->
  minibatch fuel m size g = Ok (pre_states, actions, post_states, rewards, dones, g') ->
  exists indexes,
    sample fuel m size g = Ok (indexes, g') /\
    length pre_states = length indexes /\ length actions = length indexes /\
    length post_states = length indexes /\ length rewards = length indexes /\
    length dones = length indexes /\
    forall (k : nat) index, indexes !! k = Some index ->
      exists pre post a r d,
        pre_states !! k = Some pre /\ get_state m index = Ok pre /\
        len pre = _history_length m /\
        post_states !! k = Some post /\ get_state m (index + 1) = Ok post /\
        len post = _history_length m /\
        actions !! k = Some a /\ getitem (_actions m) index = Ok a /\
        rewards !! k = Some r /\ getitem (_rewards m) index = Ok r /\
        dones !! k = Some d /\ getitem (_terminals m) index = Ok d.
Proof.
  intros Hreach Hrun. pose proof (reachable_wf _ Hreach) as Hwf.
  unfold minibatch in Hrun.
  apply bind_Ok in Hrun as ([indexes g1] & Hsample & Hrun).
  apply bind_Ok in Hrun as (pre & Hpre & Hrun).
  apply bind_Ok in Hrun as (post & Hpost & Hrun).
  apply bind_Ok in Hrun as (acts & Hacts & Hrun).
  apply bind_Ok in Hrun as (rews & Hrews & Hrun).
  apply bind_Ok in Hrun as (ds & Hds & Hrun).
  inversion Hrun; subst; clear Hrun.
  apply mapO_Ok_lookup in Hpre as [Hlpre Hpre], Hpost as [Hlpost Hpost],
      Hacts as [Hlacts Hacts], Hrews as [Hlrews Hrews], Hds as [Hlds Hds].
  exists indexes. repeat (split; [assumption |]).
  intros k index Hk.
  destruct (Hpre k index Hk) as (s & Hs & Hks).
  destruct (Hpost k index Hk) as (s' & Hs' & Hks').
  destruct (Hacts k index Hk) as (a & Ha & Hka).
  destruct (Hrews k index Hk) as (r & Hr & Hkr).
  destruct (Hds k index Hk) as (d & Hd & Hkd).
  assert (Hcount : 0 < _count m).
  { destruct (Z.eq_dec (_count m) 0) as [E | E].
    - unfold get_state in Hs. rewrite E in Hs. discriminate.
    - destruct Hwf. lia. }
  destruct (get_state_frames m index Hwf Hcount) as (f & Hf & Hlf & _).
  destruct (get_state_frames m (index + 1) Hwf Hcount) as (f' & Hf' & Hlf' & _).
  exists s, s', a, r, d.
  rewrite Hs in Hf. inversion Hf; subst f.
  rewrite Hs' in Hf'. inversion Hf'; subst f'.
  repeat split; assumption.
Qed.

End SamplingProperties.

(** ** The training target *)

Section TargetProperties.
Context `{TensorFlow} `{Random}.
Import DeepQAgent.









End TargetProperties.


(** ** DeepQAgent *)

Section AgentFurther.
Context `{TensorFlow} `{Random}.
Import DeepQAgent.

(** Everything [act] does. *)
Lemma act_effects (self self' : agent) (state : ndarray) (action : Z) :
  act self state = Ok (action, self') ->
  History.append (_history self) state = Ok (_history self') /\
  _memory self' = _memory self /\
  t self' = t self /\
  _num_actions_taken self' = _num_actions_taken self + 1 /\
  duration self' = duration self /\ episode self' = episode self /\
  total_reward self' = total_reward self /\ total_q_max self' = total_q_max self /\
  total_loss self' = total_loss self /\
  input_shape self' = input_shape self /\ nb_actions self' = nb_actions self /\
  q_network_weights self' = q_network_weights self /\
  target_network_weights self' = target_network_weights self /\
  optimizer_slots self' = optimizer_slots self /\
  output self' = output self /\
  (if geb (epsilon self) (random_random (random_state self)).1
      || (t self <? INITIAL_REPLAY_SIZE)
   then 0 < nb_actions self /\
        (action, random_state self') =
        random_randrange (nb_actions self) (random_random (random_state self)).2
   else greedy self (_history self') = Ok action /\
        random_state self' = (random_random (random_state self)).2).
Proof.
  unfold act. intros H1.
  apply bind_Ok in H1 as (history & Hh & H1).
  destruct (random_random (random_state self)) as [r g]. simpl.
  apply bind_Ok in H1 as ([a g'] & Ha & H1).
  inversion H1; subst; clear H1. simpl.
  repeat (split; [first [exact Hh | reflexivity] |]).
  destruct (geb (epsilon self) r || (t self <? INITIAL_REPLAY_SIZE)).
  - unfold randrange in Ha.
    destruct (nb_actions self <=? 0) eqn:E; [discriminate |].
    apply Z.leb_gt in E. inversion Ha. split; [exact E | reflexivity].
  - apply bind_Ok in Ha as (a' & Hg & Ha). inversion Ha; subst. auto.
Qed.

(** Everything [observe] does, bar the numbers it reports. *)
Lemma observe_effects (self self' : agent) (old_state : ndarray) (action : Z)
      (reward : float) (done : bool) :
  observe self old_state action reward done = Ok self' ->
  ReplayMemory.append (_memory self) old_state action reward done = Ok (_memory self') /\
  _history self' = (if done then History.reset (_history self) else _history self) /\
  t self' = t self /\
  _num_actions_taken self' = _num_actions_taken self /\
  duration self' = (if done then 0 else duration self + 1) /\
  episode self' = (if done then episode self + 1 else episode self) /\
  input_shape self' = input_shape self /\ nb_actions self' = nb_actions self /\
  q_network_weights self' = q_network_weights self /\
  target_network_weights self' = target_network_weights self /\
  optimizer_slots self' = optimizer_slots self /\
  random_state self' = random_state self.
Proof.
  unfold observe. intros H1.
  apply bind_Ok in H1 as (q_max & Hq & H1).
  apply bind_Ok in H1 as (memory & Hm & H1).
  inversion H1; subst; clear H1. simpl.
  repeat (split; [first [exact Hm | reflexivity] |]). reflexivity.
Qed.

Lemma train_network_effects (fuel : nat) (self self' : agent) :
  train_network fuel self = Ok self' ->
  _memory self' = _memory self /\ _history self' = _history self /\
  t self' = t self /\ _num_actions_taken self' = _num_actions_taken self /\
  duration self' = duration self /\ episode self' = episode self /\
  input_shape self' = input_shape self /\
  target_network_weights self' = target_network_weights self /\
  output self' = output self.
Proof.
  unfold train_network. intros H1.
  apply bind_Ok in H1 as ([[[[[sb ab] nsb] rb] tb] g] & Hb & H1).
  apply bind_Ok in H1 as (y & Hy & H1).
  destruct (minimize _ _ _ _ _) as [[loss q] slots].
  inversion H1; subst; clear H1. simpl. repeat split.
Qed.

(** The three updates of [train] touch one field each. *)
Lemma train_effects (fuel : nat) (self self' : agent) :
  train fuel self = Ok self' ->
  let gate := (TRAIN_AFTER <=? _num_actions_taken self)
              && (_num_actions_taken self mod TRAIN_INTERVAL =? 0) in
  let ready := gate && (INITIAL_REPLAY_SIZE <=? t self) in
  let sync := ready && (t self mod TARGET_UPDATE_INTERVAL =? 0) in
  let save := ready && (t self mod SAVE_INTERVAL =? 0) in
  _memory self' = _memory self /\ _history self' = _history self /\
  _num_actions_taken self' = _num_actions_taken self /\
  duration self' = duration self /\ episode self' = episode self /\
  input_shape self' = input_shape self /\
  t self' = (if gate then t self + 1 else t self) /\
  target_network_weights self' =
    (if sync then q_network_weights self' else target_network_weights self) /\
  output self' =
    output self
    ++ (if gate then [TrainStep (episode self) (t self) (_num_actions_taken self)] else [])
    ++ (if save then [SaveCheckpoint SAVE_NETWORK_PATH (t self)] else []) /\
  (q_network_weights self' <> q_network_weights self ->
   ready = true /\ t self mod TRAIN_INTERVAL = 0).
Proof.
  unfold train. intros H1. simpl.
  destruct (TRAIN_AFTER <=? _num_actions_taken self) eqn:Hafter;
    [| inversion H1; subst; simpl; rewrite !app_nil_r; repeat split; congruence].
  destruct (_num_actions_taken self mod TRAIN_INTERVAL =? 0) eqn:Hint;
    [| inversion H1; subst; simpl; rewrite !app_nil_r; repeat split; congruence].
  apply bind_Ok in H1 as (self1 & H1' & H1).
  inversion H1; subst; clear H1. simpl in *.
  destruct (INITIAL_REPLAY_SIZE <=? t self) eqn:Hready.
  - apply bind_Ok in H1' as (self2 & H2 & H1').
    inversion H1'; subst; clear H1'.
    assert (H2' : _memory self2 = _memory self /\ _history self2 = _history self /\
                  t self2 = t self /\
                  _num_actions_taken self2 = _num_actions_taken self /\
                  duration self2 = duration self /\ episode self2 = episode self /\
                  input_shape self2 = input_shape self /\
                  target_network_weights self2 = target_network_weights self /\
                  output self2 = output self
                    ++ [TrainStep (episode self) (t self) (_num_actions_taken self)] /\
                  (q_network_weights self2 <> q_network_weights self ->
                   t self mod TRAIN_INTERVAL = 0)).
    { destruct (t self mod TRAIN_INTERVAL =? 0) eqn:Hstep.
      - apply train_network_effects in H2. simpl in H2.
        apply Z.eqb_eq in Hstep. intuition.
      - inversion H2; subst. simpl. intuition. }
    destruct H2' as (Hm & Hh & Ht & Hn & Hd & He & Hi & Htg & Ho & Hq).
    rewrite Ht.
    destruct (t self mod TARGET_UPDATE_INTERVAL =? 0); simpl; rewrite ?Ht;
      destruct (t self mod SAVE_INTERVAL =? 0); simpl;
      rewrite ?Ho, ?Ht, ?app_nil_r, <- ?app_assoc; simpl;
      repeat split; try assumption; try reflexivity; try lia; auto.
  - inversion H1'; subst; clear H1'. simpl. rewrite ?app_nil_r.
    repeat split; try reflexivity; contradiction.
Qed.

Lemma test_effects (self self' : agent) (state : ndarray) (action : option Z) :
  test self state = Ok (action, self') ->
  History.append (_history self) state = Ok (_history self') /\
  _memory self' = _memory self /\
  t self' = t self + 1 /\
  _num_actions_taken self' = _num_actions_taken self /\
  duration self' = duration self /\ episode self' = episode self /\
  input_shape self' = input_shape self /\
  q_network_weights self' = q_network_weights self /\
  target_network_weights self' = target_network_weights self /\
  output self' = output self /\ random_state self' = random_state self /\
  (if STATE_LENGTH <=? t self + 1
   then exists a, action = Some a /\ greedy self (_history self') = Ok a
   else action = None).
Proof.
  unfold test. intros H1.
  apply bind_Ok in H1 as (history & Hh & H1). simpl in *.
  destruct (STATE_LENGTH <=? t self + 1).
  - apply bind_Ok in H1 as (a & Ha & H1). inversion H1; subst; clear H1. simpl.
    repeat (split; [first [exact Hh | reflexivity] |]). exists a. auto.
  - inversion H1; subst; clear H1. simpl.
    repeat (split; [first [exact Hh | reflexivity] |]). reflexivity.
Qed.

Lemma history_append_shape (h h' : History.t) (state : ndarray) :
  History.append h state = Ok h' ->
  History._shape h' = History._shape h /\
  length (History._buffer h') = length (History._buffer h).
Proof.
  rewrite history_append_eq. intros Happ.
  destruct (History._buffer h) as [|a rest]; [discriminate |].
  apply bind_Ok in Happ as (row & _ & Happ).
  inversion Happ; subst; clear Happ. simpl.
  split; [reflexivity |]. rewrite length_app. simpl. lia.
Qed.

(** X7. While [t < INITIAL_REPLAY_SIZE] the agent explores: [act]
    returns the draw of [random.randrange(nb_actions)] whatever the
    network computes, and leaves [epsilon] alone; with a generator that
    keeps [randrange]'s promise the action is within [0, nb_actions).  In
    every case [act] pushes the state into the history, counts one more
    action, and changes neither [t], the replay memory, the networks nor
    the output. *)
Theorem act_explores_first (self self' : agent) (state : ndarray) (action : Z) :
  act self state = Ok (action, self') ->
  History.append (_history self) state = Ok (_history self') /\
  _num_actions_taken self' = _num_actions_taken self + 1 /\
  t self' = t self /\ _memory self' = _memory self /\
  q_network_weights self' = q_network_weights self /\
  target_network_weights self' = target_network_weights self /\
  output self' = output self /\
  (t self < INITIAL_REPLAY_SIZE ->
   epsilon self' = epsilon self /\
   0 < nb_actions self /\
   (action, random_state self') =
     random_randrange (nb_actions self) (random_random (random_state self)).2 /\
   (randrange_in_range -> 0 <= action < nb_actions self)).
Proof.
  intros Hact.
  pose proof (act_Ok _ _ _ _ Hact) as (_ & _ & _ & Heps).
  apply act_effects in Hact
    as (Hh & Hm & Ht & Hn & _ & _ & _ & _ & _ & _ & _ & Hq & Htg & _ & Ho & Hbranch).
  repeat (split; [assumption |]).
  intros Hearly.
  assert (E1 : (t self <? INITIAL_REPLAY_SIZE) = true) by (apply Z.ltb_lt; exact Hearly).
  assert (E2 : (INITIAL_REPLAY_SIZE <=? t self) = false) by (apply Z.leb_gt; exact Hearly).
  rewrite E1, orb_true_r in Hbranch. rewrite E2, andb_false_r in Heps.
  destruct Hbranch as [Hpos Hdraw].
  split; [exact Heps |]. split; [exact Hpos |]. split; [exact Hdraw |].
  intros Hc. specialize (Hc (nb_actions self) (random_random (random_state self)).2 Hpos).
  rewrite <- Hdraw in Hc. exact Hc.
Qed.

Lemma memory_init_history_length (size : Z) (sample_shape : list Z) (h : Z)
      (m : ReplayMemory.t) :
  ReplayMemory.__init__ size sample_shape h = Ok m ->
  ReplayMemory._history_length m = Z.max 1 h.
Proof.
  unfold ReplayMemory.__init__. intros Hm.
  destruct ((size <? 0) || _); [discriminate |].
  inversion Hm; subst. reflexivity.
Qed.

Lemma slice_from_one {A} (l : list A) : slice l 1 (len l) = tail l.
Proof.
  destruct l as [|a rest]; [reflexivity | apply slice_tail].
Qed.

Lemma init_steady (shape0 : list Z) (n : Z) (g : rng) (self : agent) :
  __init__ shape0 n g = Ok self -> steady self /\ input_shape self = shape0.
Proof.
  unfold __init__. intros H1.
  apply bind_Ok in H1 as (history & Hh & H1).
  rewrite slice_from_one in H1.
  apply bind_Ok in H1 as (memory & Hm & H1).
  inversion H1; subst; clear H1. unfold steady. simpl.
  pose proof (ReplayMemory.reach_init _ _ _ _ Hm) as Hreach.
  pose proof (memory_init_history_length _ _ _ _ Hm) as Hhl.
  apply init_Ok in Hm as (_ & _ & _ & Hsz & Hss & _).
  unfold History.__init__ in Hh.
  destruct (existsb _ shape0) eqn:Hneg; [discriminate |].
  inversion Hh; subst; clear Hh. simpl.
  repeat split; try assumption; try reflexivity; try lia.
  destruct shape0 as [|d rest]; [reflexivity |].
  simpl. rewrite length_replicate. reflexivity.
Qed.

Lemma history_reset_shape (h : History.t) :
  History._shape (History.reset h) = History._shape h /\
  length (History._buffer (History.reset h)) = length (History._buffer h).
Proof. unfold History.reset. simpl. rewrite length_fmap. auto. Qed.

Lemma do_call_steady (self self' : agent) (c : call) :
  steady self -> do_call self c = Ok self' ->
  steady self' /\ input_shape self' = input_shape self.
Proof.
  intros (Hr & Hsz & Hhl & Hss & Hhs & Hbl & Ht & Hd & He & Hn) Hcall.
  unfold steady.
  destruct c as [state | old_state action reward done | fuel | state]; simpl in Hcall.
  - apply bind_Ok in Hcall as ([a self1] & Hact & Hcall).
    inversion Hcall; subst; clear Hcall.
    apply act_effects in Hact
      as (Hh' & Hm' & Ht' & Hn' & Hd' & He' & _ & _ & _ & Hi' & _).
    apply history_append_shape in Hh' as (Hs1 & Hl1).
    rewrite Hm', Ht', Hn', Hd', He', Hi', Hs1, Hl1.
    repeat split; try assumption; lia.
  - apply observe_effects in Hcall
      as (Hm' & Hh' & Ht' & Hn' & Hd' & He' & Hi' & _).
    pose proof (ReplayMemory.reach_append _ _ _ _ _ _ Hr Hm') as Hr'.
    destruct (append_Ok _ _ _ _ _ _ (reachable_wf _ Hr) Hm')
      as (_ & _ & _ & Hsz' & Hhl' & Hss' & _).
    destruct (history_reset_shape (_history self)) as [Hrs Hrl].
    rewrite Hh', Ht', Hn', Hd', He', Hi', Hsz', Hhl', Hss'.
    destruct done; rewrite ?Hrs, ?Hrl; repeat split; try assumption; lia.
  - apply train_effects in Hcall
      as (Hm' & Hh' & Hn' & Hd' & He' & Hi' & Ht' & _).
    rewrite Hm', Hh', Hn', Hd', He', Hi', Ht'.
    repeat split; try assumption.
    destruct ((TRAIN_AFTER <=? _num_actions_taken self) && _); lia.
  - apply bind_Ok in Hcall as ([a self1] & Htest & Hcall).
    inversion Hcall; subst; clear Hcall.
    apply test_effects in Htest
      as (Hh' & Hm' & Ht' & Hn' & Hd' & He' & Hi' & _).
    apply history_append_shape in Hh' as (Hs1 & Hl1).
    rewrite Hm', Ht', Hn', Hd', He', Hi', Hs1, Hl1.
    repeat split; try assumption; lia.
Qed.

Lemma run_steady (calls : list call) (self self' : agent) :
  steady self -> run self calls = Ok self' ->
  steady self' /\ input_shape self' = input_shape self.
Proof.
  revert self. induction calls as [|c calls IH]; intros self Hs Hrun; simpl in Hrun.
  - inversion Hrun; subst. auto.
  - apply bind_Ok in Hrun as (self1 & Hc & Hrun).
    destruct (do_call_steady _ _ _ Hs Hc) as [Hs1 Hi1].
    destruct (IH _ Hs1 Hrun) as [Hs' Hi']. split; [exact Hs' | congruence].
Qed.

(** X8. Every agent a program can reach is in order: its replay memory
    is one that [append] built, of capacity [MEMORY_SIZE] and history
    length [STATE_LENGTH], so that [len(memory) <= 400000] and
    [get_state] cannot fail on it once a transition is stored; its history
    buffer keeps the shape it was built with; and [t], [duration],
    [episode] and the action counter are never negative, so that
    [observe] divides by a [duration] of at least one. *)
Theorem reachable_agent_in_order (self : agent) :
  reachable self ->
  ReplayMemory.reachable (_memory self) /\
  ReplayMemory._max_size (_memory self) = 400000 /\
  ReplayMemory._history_length (_memory self) = 4 /\
  0 <= ReplayMemory.__len__ (_memory self) <= 400000 /\
  (0 < ReplayMemory.__len__ (_memory self) ->
   forall index, is_Ok (ReplayMemory.get_state (_memory self) index)) /\
  History._shape (_history self) = input_shape self /\
  length (History._buffer (_history self)) = Z.to_nat (hd 0 (input_shape self)) /\
  0 <= t self /\ 0 <= duration self /\ 0 <= episode self /\
  0 <= _num_actions_taken self.
Proof.
  intros (shape0 & n & g & self0 & calls & Hinit & Hrun).
  destruct (init_steady _ _ _ _ Hinit) as [Hs0 _].
  destruct (run_steady _ _ _ Hs0 Hrun)
    as [(Hr & Hsz & Hhl & Hss & Hhs & Hbl & Ht & Hd & He & Hn) _].
  pose proof (reachable_wf _ Hr) as Hwf.
  unfold ReplayMemory.__len__.
  split; [exact Hr |]. split; [exact Hsz |]. split; [exact Hhl |].
  split; [destruct Hwf; unfold MEMORY_SIZE in Hsz; lia |].
  split.
  { intros Hcount index.
    destruct (get_state_frames _ index Hwf Hcount) as (frames & Hf & _).
    exists frames. exact Hf. }
  repeat split; assumption.
Qed.

Lemma run_counts (calls : list call) :
  forall (self self' : agent) (k : Z),
  steady self -> 0 <= k ->
  ReplayMemory._count (_memory self) = Z.min k MEMORY_SIZE ->
  ReplayMemory._pos (_memory self) = k mod MEMORY_SIZE ->
  run self calls = Ok self' ->
  _num_actions_taken self' = _num_actions_taken self + count_acts calls /\
  episode self' = episode self + count_terminals calls /\
  duration self' = observes_since_terminal (duration self) calls /\
  ReplayMemory._count (_memory self') = Z.min (k + count_observes calls) MEMORY_SIZE /\
  ReplayMemory._pos (_memory self') = (k + count_observes calls) mod MEMORY_SIZE.
Proof.
  induction calls as [|c calls IH]; intros self self' k Hs Hk Hcount Hpos Hrun;
    simpl in Hrun.
  - inversion Hrun; subst. simpl. rewrite !Z.add_0_r. auto.
  - apply bind_Ok in Hrun as (self1 & Hc & Hrun).
    destruct (do_call_steady _ _ _ Hs Hc) as [Hs1 _].
    destruct c as [state | old_state action reward done | fuel | state];
      simpl in Hc.
    + apply bind_Ok in Hc as ([a self2] & Hact & Hc).
      inversion Hc; subst; clear Hc.
      apply act_effects in Hact as (_ & Hm & _ & Hn & Hd & He & _).
      destruct (IH self1 self' k Hs1 Hk) as (R1 & R2 & R3 & R4 & R5);
        [congruence | congruence | exact Hrun |].
      simpl. rewrite R1, R2, R3, R4, R5, Hn, Hd, He.
      repeat split; lia.
    + apply observe_effects in Hc as (Hm & _ & _ & Hn & Hd & He & _).
      destruct Hs as (Hr & Hsz & _).
      destruct (append_all_count_pos (_memory self) (_memory self1)
                  [(old_state, action, reward, done)] k (reachable_wf _ Hr) Hk)
        as (_ & Hc1 & Hp1);
        [rewrite Hsz; exact Hcount | rewrite Hsz; exact Hpos
         | simpl; rewrite Hm; reflexivity |].
      rewrite Hsz in Hc1, Hp1. unfold len in Hc1, Hp1. simpl in Hc1, Hp1.
      destruct (IH self1 self' (k + 1) Hs1) as (R1 & R2 & R3 & R4 & R5);
        [lia | exact Hc1 | exact Hp1 | exact Hrun |].
      rewrite R1, R2, R3, R4, R5, Hn, Hd, He.
      destruct done; simpl; repeat split; try lia; f_equal; lia.
    + apply train_effects in Hc as (Hm & _ & Hn & Hd & He & _).
      destruct (IH self1 self' k Hs1 Hk) as (R1 & R2 & R3 & R4 & R5);
        [congruence | congruence | exact Hrun |].
      simpl. rewrite R1, R2, R3, R4, R5, Hn, Hd, He.
      repeat split; lia.
    + apply bind_Ok in Hc as ([a self2] & Htest & Hc).
      inversion Hc; subst; clear Hc.
      apply test_effects in Htest as (_ & Hm & _ & Hn & Hd & He & _).
      destruct (IH self1 self' k Hs1 Hk) as (R1 & R2 & R3 & R4 & R5);
        [congruence | congruence | exact Hrun |].
      simpl. rewrite R1, R2, R3, R4, R5, Hn, Hd, He.
      repeat split; lia.
Qed.

(** X9. The counters count: after any run of calls on a fresh agent,
    the action counter is the number of [act] calls, [episode] the number
    of [observe] calls that ended an episode, [duration] the number of
    [observe] calls since the last of those, [len(memory)] the number of
    [observe] calls capped at [MEMORY_SIZE], and the write cursor that
    number modulo [MEMORY_SIZE]. *)
Theorem counters_count (shape0 : list Z) (n : Z) (g : rng) (self0 self : agent)
        (calls : list call) :
  __init__ shape0 n g = Ok self0 -> run self0 calls = Ok self ->
  _num_actions_taken self = count_acts calls /\
  episode self = count_terminals calls /\
  duration self = observes_since_terminal 0 calls /\
  ReplayMemory.__len__ (_memory self) = Z.min (count_observes calls) MEMORY_SIZE /\
  ReplayMemory._pos (_memory self) = count_observes calls mod MEMORY_SIZE.
Proof.
  intros Hinit Hrun.
  destruct (init_steady _ _ _ _ Hinit) as [Hs0 _].
  assert (Hfresh : _num_actions_taken self0 = 0 /\ episode self0 = 0 /\
                   duration self0 = 0 /\
                   ReplayMemory._count (_memory self0) = 0 /\
                   ReplayMemory._pos (_memory self0) = 0).
  { unfold __init__ in Hinit.
    apply bind_Ok in Hinit as (history & Hh & Hinit).
    apply bind_Ok in Hinit as (memory & Hm & Hinit).
    inversion Hinit; subst; clear Hinit. simpl.
    apply init_Ok in Hm as (_ & Hp & Hc & _). auto. }
  destruct Hfresh as (F1 & F2 & F3 & F4 & F5).
  destruct (run_counts calls self0 self 0 Hs0) as (R1 & R2 & R3 & R4 & R5);
    [lia | rewrite F4; reflexivity | rewrite F5; reflexivity | exact Hrun |].
  unfold ReplayMemory.__len__.
  rewrite R1, R2, R3, R4, R5, F1, F2, F3, !Z.add_0_l. auto.
Qed.

Lemma descending_check_sound (n : nat) (e : float) :
  descending_check n e = true ->
  forall k : nat, (k <= n)%nat ->
    (decrements k e <=? decrements k e)%float = true /\
    ((k < n)%nat -> (decrements (S k) e <=? decrements k e)%float = true).
Proof.
  revert e. induction n as [|n IH]; intros e Hc k Hk; simpl in Hc;
    apply andb_true_iff in Hc as [Hrefl Hrest].
  - assert (k = O) by lia. subst k. simpl. split; [exact Hrefl | lia].
  - apply andb_true_iff in Hrest as [Hstep Hrest].
    destruct k as [|k].
    + simpl. split; [exact Hrefl | intros _; exact Hstep].
    + destruct (IH _ Hrest k) as [H1 H2]; [lia |].
      split; [exact H1 |]. intros Hlt. apply H2. lia.
Qed.

Lemma descending_checked :
  descending_check (Z.to_nat EXPLORATION_STEPS) INITIAL_EPSILON = true.
Proof. vm_compute. reflexivity. Qed.

(** X10. [epsilon] never goes up: whatever call is made on a reachable
    agent, [epsilon] afterwards is at most [epsilon] before (in binary64
    arithmetic), and only [act] can lower it. *)
Theorem epsilon_never_increases (self self' : agent) (c : call) :
  reachable self -> do_call self c = Ok self' ->
  (epsilon self' <=? epsilon self)%float = true /\
  (epsilon self' <> epsilon self ->
   exists state, c = Act state /\ INITIAL_REPLAY_SIZE <= t self /\
                 gtb (epsilon self) FINAL_EPSILON = true).
Proof.
  intros Hreach Hcall.
  destruct (reachable_annealing _ Hreach) as [Hstep (k & Hk & Heps)].
  destruct (descending_check_sound _ _ descending_checked k Hk) as [Hrefl Hdown].
  assert (Hsame : epsilon self' = epsilon self ->
                  (epsilon self' <=? epsilon self)%float = true /\
                  (epsilon self' <> epsilon self ->
                   exists state, c = Act state /\ INITIAL_REPLAY_SIZE <= t self /\
                                 gtb (epsilon self) FINAL_EPSILON = true)).
  { intros E. rewrite E. split; [rewrite Heps; exact Hrefl | congruence]. }
  destruct c as [state | old_state action reward done | fuel | state]; simpl in Hcall.
  - apply bind_Ok in Hcall as ([a self1] & Hact & Hcall).
    inversion Hcall; subst; clear Hcall.
    apply act_Ok in Hact as (_ & _ & _ & He).
    destruct (gtb (epsilon self) FINAL_EPSILON && (INITIAL_REPLAY_SIZE <=? t self)) eqn:G;
      [| apply Hsame; exact He].
    apply andb_true_iff in G as [G1 G2]. apply Z.leb_le in G2.
    split; [| intros _; exists state; auto].
    destruct (annealing_check_sound _ _ annealing_checked k Hk) as (_ & _ & _ & Hend).
    assert (Hlt : (k < Z.to_nat EXPLORATION_STEPS)%nat).
    { destruct (Nat.eq_dec k (Z.to_nat EXPLORATION_STEPS)) as [E | E]; [| lia].
      rewrite Heps, (Hend E) in G1. discriminate. }
    rewrite He, Hstep, Heps, <- decrements_S. apply Hdown. exact Hlt.
  - apply observe_Ok in Hcall as (_ & He & _). apply Hsame. exact He.
  - apply train_Ok in Hcall as (He & _). apply Hsame. exact He.
  - apply bind_Ok in Hcall as ([a self1] & Htest & Hcall).
    inversion Hcall; subst; clear Hcall.
    apply test_Ok in Htest as (He & _). apply Hsame. exact He.
Qed.

(** X11. When [train] copies the online network to the target network
    and saves a checkpoint: exactly on the calls made inside the gate with
    [t >= INITIAL_REPLAY_SIZE] and [t] a multiple of 10000, after the
    gradient step of that call (such a [t] is a multiple of
    [TRAIN_INTERVAL]); on every other call the target network is left as
    it was and no checkpoint is written.  The online network changes only
    on a call inside the gate with [t >= INITIAL_REPLAY_SIZE] and [t] a
    multiple of [TRAIN_INTERVAL].  [train] never touches the replay
    memory or the history. *)
Theorem train_syncs_and_saves (fuel : nat) (self self' : agent) :
  train fuel self = Ok self' ->
  let gate := (TRAIN_AFTER <=? _num_actions_taken self)
              && (_num_actions_taken self mod TRAIN_INTERVAL =? 0) in
  let due := gate && (INITIAL_REPLAY_SIZE <=? t self) && (t self mod 10000 =? 0) in
  target_network_weights self' =
    (if due then q_network_weights self' else target_network_weights self) /\
  output self' =
    output self
    ++ (if gate then [TrainStep (episode self) (t self) (_num_actions_taken self)] else [])
    ++ (if due then [SaveCheckpoint "models_sim" (t self)] else []) /\
  (due = true -> t self mod TRAIN_INTERVAL = 0) /\
  (q_network_weights self' <> q_network_weights self ->
   gate = true /\ INITIAL_REPLAY_SIZE <= t self /\ t self mod TRAIN_INTERVAL = 0) /\
  _memory self' = _memory self /\ _history self' = _history self.
Proof.
  intros Htrain. simpl.
  apply train_effects in Htrain
    as (Hm & Hh & _ & _ & _ & _ & _ & Htg & Ho & Hq).
  simpl in Htg, Ho, Hq.
  split; [exact Htg |]. split; [exact Ho |]. split.
  { intros Hdue. apply andb_true_iff in Hdue as [_ Hdue].
    apply Z.eqb_eq in Hdue. unfold TRAIN_INTERVAL.
    Z.div_mod_to_equations. lia. }
  split; [| split; assumption].
  intros Hne. destruct (Hq Hne) as [Hready Hstep].
  apply andb_true_iff in Hready as [Hgate Hready]. apply Z.leb_le in Hready.
  auto.
Qed.


End AgentFurther.

(** ** The driver *)

Section DriverProperties.
Context `{TensorFlow} `{Random} `{Driver.EnvironmentSim}.
Import DeepQAgent Driver.

Lemma result_bind_Done {A B} (f : A -> result B) (m : result A) (b : B) :
  m ≫= f = Done b -> exists a, m = Done a /\ f a = Done b.
Proof. destruct m as [a| |]; simpl; [eauto | discriminate | discriminate]. Qed.

Lemma lift_Done {A} (o : outcome A) (a : A) : lift o = Done a -> o = Ok a.
Proof. destruct o; simpl; intros E; inversion E; reflexivity. Qed.

Lemma interpret_action_Done (action : Z) (offset : float * float * float) :
  interpret_action action = Done offset -> 0 <= action <= 4.
Proof.
  unfold interpret_action. intros E.
  destruct (action =? 0) eqn:E0; [lia |].
  destruct (action =? 1) eqn:E1; [lia |].
  destruct (action =? 2) eqn:E2; [lia |].
  destruct (action =? 3) eqn:E3; [lia |].
  destruct (action =? 4) eqn:E4; [lia | discriminate].
Qed.

(** A turn of the training loop is three calls on the agent. *)
Lemma train_turn_calls (fuel : nat) (s s' : loop) :
  train_turn fuel s = Done s' ->
  exists action reward done a1 a2,
    0 <= action <= 4 /\
    act (agent s) (current_state s) = Ok (action, a1) /\
    observe a1 (current_state s) action reward done = Ok a2 /\
    train fuel a2 = Ok (agent s').
Proof.
  unfold train_turn. intros Hturn.
  apply result_bind_Done in Hturn as ([action a1] & Hact & Hturn).
  apply lift_Done in Hact.
  apply result_bind_Done in Hturn as (offset & Hoff & Hturn).
  apply interpret_action_Done in Hoff.
  destruct (step (Some offset) (environment s)) as [[[new_state reward] done] e].
  apply result_bind_Done in Hturn as (a2 & Hobs & Hturn).
  apply lift_Done in Hobs.
  apply result_bind_Done in Hturn as (a3 & Htrain & Hturn).
  apply lift_Done in Htrain.
  exists action, reward, done, a1, a2.
  destruct done; [destruct (restart_game e) as [st e'] |];
    inversion Hturn; subst; simpl; auto.
Qed.

(** The value of [t] after [n] turns: the multiples of [TRAIN_INTERVAL]
    from [TRAIN_AFTER] to [n]. *)
Lemma gate_count (k : Z) :
  0 <= k ->
  (if k + 1 <? 500 then 0 else (k + 1) / 4 - 124)
  = (if k <? 500 then 0 else k / 4 - 124)
    + (if (TRAIN_AFTER <=? k + 1) && ((k + 1) mod TRAIN_INTERVAL =? 0) then 1 else 0).
Proof.
  intros Hk. unfold TRAIN_AFTER, TRAIN_INTERVAL.
  destruct (Z.ltb_spec (k + 1) 500) as [E1 | E1];
    destruct (Z.ltb_spec k 500) as [E2 | E2];
    destruct (Z.leb_spec 500 (k + 1)) as [E3 | E3];
    destruct (Z.eqb_spec ((k + 1) mod 4) 0) as [E4 | E4]; simpl;
    Z.div_mod_to_equations; lia.
Qed.

Lemma turns_schedule (fuel : nat) (n : nat) :
  forall (s s' : loop) (k : Z),
  0 <= k -> steady (agent s) ->
  _num_actions_taken (agent s) = k ->
  t (agent s) = (if k <? 500 then 0 else k / 4 - 124) ->
  ReplayMemory._count (_memory (agent s)) = Z.min k MEMORY_SIZE ->
  ReplayMemory._pos (_memory (agent s)) = k mod MEMORY_SIZE ->
  (k <= 40496 -> epsilon (agent s) = INITIAL_EPSILON) ->
  turns (train_turn fuel) n s = Done s' ->
  steady (agent s') /\
  (exists calls, run (agent s) calls = Ok (agent s')) /\
  _num_actions_taken (agent s') = k + Z.of_nat n /\
  t (agent s') = (if k + Z.of_nat n <? 500 then 0 else (k + Z.of_nat n) / 4 - 124) /\
  ReplayMemory._count (_memory (agent s')) = Z.min (k + Z.of_nat n) MEMORY_SIZE /\
  ReplayMemory._pos (_memory (agent s')) = (k + Z.of_nat n) mod MEMORY_SIZE /\
  (k + Z.of_nat n <= 40496 -> epsilon (agent s') = INITIAL_EPSILON).
Proof.
  induction n as [|n IH]; intros s s' k Hk Hs Hnum Ht Hcount Hpos Heps Hturns;
    simpl in Hturns.
  - inversion Hturns; subst. rewrite !Z.add_0_r.
    split; [exact Hs |]. split; [exists []; reflexivity |]. auto.
  - apply result_bind_Done in Hturns as (s1 & Hturn & Hturns).
    destruct (train_turn_calls _ _ _ Hturn)
      as (action & reward & done & a1 & a2 & _ & Hact & Hobs & Htrain).
    assert (Hrun1 : run (agent s) [Act (current_state s);
                                   Observe (current_state s) action reward done;
                                   Train fuel] = Ok (agent s1))
      by (simpl; rewrite Hact; simpl; rewrite Hobs; simpl; rewrite Htrain; reflexivity).
    destruct (run_steady _ _ _ Hs Hrun1) as [Hs1 _].
    destruct (run_counts _ _ _ k Hs Hk Hcount Hpos Hrun1) as (R1 & _ & _ & R4 & R5).
    change (count_acts _) with 1 in R1.
    change (count_observes _) with 1 in R4, R5.
    pose proof (act_Ok _ _ _ _ Hact) as (Hta & _ & Hna & Hea).
    pose proof (observe_Ok _ _ _ _ _ _ Hobs) as (Hto & Heo & _ & Hno & _).
    pose proof (train_Ok _ _ _ Htrain) as (Het & _ & _ & _).
    pose proof Htrain as Htrain'.
    apply train_effects in Htrain as (_ & _ & _ & _ & _ & _ & Htt & _).
    simpl in Htt. rewrite Hno, Hna, Hto, Hta, Hnum, Ht in Htt.
    assert (Ht1 : t (agent s1) = (if k + 1 <? 500 then 0 else (k + 1) / 4 - 124)).
    { rewrite (gate_count k Hk), Htt.
      destruct ((TRAIN_AFTER <=? k + 1) && ((k + 1) mod TRAIN_INTERVAL =? 0)); lia. }
    assert (Heps1 : k + 1 <= 40496 -> epsilon (agent s1) = INITIAL_EPSILON).
    { intros Hle. rewrite Het, Heo, Hea.
      assert (Hearly : (INITIAL_REPLAY_SIZE <=? t (agent s)) = false).
      { apply Z.leb_gt. rewrite Ht. unfold INITIAL_REPLAY_SIZE.
        destruct (k <? 500); [lia |]. Z.div_mod_to_equations. lia. }
      rewrite Hearly, andb_false_r. apply Heps. lia. }
    destruct (IH s1 s' (k + 1)) as (Hs' & (calls & Hcalls) & R1' & Rt' & R4' & R5' & Re');
      try assumption; try lia.
    replace (k + Z.of_nat (S n)) with (k + 1 + Z.of_nat n) by lia.
    split; [exact Hs' |]. split; [| auto].
    exists ([Act (current_state s); Observe (current_state s) action reward done;
             Train fuel] ++ calls).
    simpl. rewrite Hact. simpl. rewrite Hobs. simpl. rewrite Htrain'. simpl.
    exact Hcalls.
Qed.

Lemma init_fresh (shape0 : list Z) (n : Z) (g : rng) (self : DeepQAgent.agent) :
  __init__ shape0 n g = Ok self ->
  ReplayMemory._count (_memory self) = 0 /\ ReplayMemory._pos (_memory self) = 0 /\
  nb_actions self = n /\ output self = [].
Proof.
  unfold __init__. intros Hinit.
  apply bind_Ok in Hinit as (history & Hh & Hinit).
  apply bind_Ok in Hinit as (memory & Hm & Hinit).
  inversion Hinit; subst; clear Hinit. simpl.
  apply init_Ok in Hm as (_ & Hp & Hc & _). auto.
Qed.

Lemma start_Done (g : rng) (e : env) (s0 : loop) :
  start g e = Done s0 ->
  __init__ [4; 2] 5 g = Ok (agent s0) /\ printed s0 = [] /\
  (current_state s0, environment s0) = reset e.
Proof.
  unfold start. intros Hstart.
  apply result_bind_Done in Hstart as (a & Ha & Hstart).
  apply lift_Done in Ha. destruct (reset e) as [st e'].
  inversion Hstart; subst; simpl. auto.
Qed.

(** X13. The schedule of the training loop.  After [n] turns the agent
    has taken [n] actions and stored [n] transitions (capped at
    [MEMORY_SIZE]); [t] has counted the turns from the 500th on whose
    number is a multiple of four, so it reaches [INITIAL_REPLAY_SIZE]
    exactly at the 40496th turn, and until then [epsilon] is still
    [INITIAL_EPSILON]. *)
Theorem training_loop_schedule (fuel n : nat) (g : rng) (e : env) (s0 s : loop) :
  start g e = Done s0 ->
  turns (train_turn fuel) n s0 = Done s ->
  let k := Z.of_nat n in
  reachable (agent s) /\
  _num_actions_taken (agent s) = k /\
  ReplayMemory.__len__ (_memory (agent s)) = Z.min k MEMORY_SIZE /\
  t (agent s) = (if k <? TRAIN_AFTER then 0 else k / TRAIN_INTERVAL - 124) /\
  (INITIAL_REPLAY_SIZE <= t (agent s) <-> 40496 <= k) /\
  (k <= 40496 -> epsilon (agent s) = INITIAL_EPSILON).
Proof.
  intros Hstart Hturns k.
  apply start_Done in Hstart as (Hinit & _ & _).
  destruct (init_steady _ _ _ _ Hinit) as [Hs0 _].
  destruct (init_agent_Ok _ _ _ _ Hinit) as (Ht0 & He0 & _ & Hn0 & _).
  destruct (init_fresh _ _ _ _ Hinit) as (Hc0 & Hp0 & _).
  destruct (turns_schedule fuel n s0 s 0) as (_ & (calls & Hcalls) & R1 & Rt & R4 & _ & Re);
    try assumption; try reflexivity; try lia.
  { intros _. exact He0. }
  rewrite Z.add_0_l in R1, Rt, R4, Re. fold k in R1, Rt, R4, Re.
  split; [exists [4; 2], 5, g, (agent s0), calls; auto |].
  split; [exact R1 |]. split; [exact R4 |].
  unfold TRAIN_AFTER, TRAIN_INTERVAL.
  split; [exact Rt |]. split; [| exact Re].
  rewrite Rt. unfold INITIAL_REPLAY_SIZE.
  destruct (Z.ltb_spec k 500); split; intros; Z.div_mod_to_equations; lia.
Qed.

Lemma test_turn_Done (s s' : loop) :
  test_turn s = Done s' ->
  t (agent s) + 1 < STATE_LENGTH /\ t (agent s') = t (agent s) + 1 /\
  _memory (agent s') = _memory (agent s) /\ epsilon (agent s') = epsilon (agent s) /\
  output (agent s') = output (agent s) /\ printed s' = printed s.
Proof.
  unfold test_turn. intros Hturn.
  apply result_bind_Done in Hturn as ([action a] & Htest & Hturn).
  apply lift_Done in Htest.
  pose proof (test_Ok _ _ _ _ Htest) as (He & _).
  apply test_effects in Htest
    as (_ & Hm & Ht & _ & _ & _ & _ & _ & _ & Ho & _ & Hact).
  destruct action as [x|]; simpl in Hturn; [discriminate |].
  destruct (step None (environment s)) as [[[ns r] d] e'].
  inversion Hturn; subst; simpl.
  destruct (STATE_LENGTH <=? t (agent s) + 1) eqn:E.
  - destruct Hact as (x & Hx & _). discriminate.
  - apply Z.leb_gt in E. repeat split; try assumption; lia.
Qed.

Lemma test_turns (n : nat) :
  forall s s' : loop,
  turns test_turn n s = Done s' ->
  t (agent s') = t (agent s) + Z.of_nat n /\
  (n = O \/ t (agent s) + Z.of_nat n < STATE_LENGTH) /\
  _memory (agent s') = _memory (agent s) /\ epsilon (agent s') = epsilon (agent s) /\
  output (agent s') = output (agent s) /\ printed s' = printed s.
Proof.
  induction n as [|n IH]; intros s s' Hturns; simpl in Hturns.
  - inversion Hturns; subst. rewrite Z.add_0_r. auto 10.
  - apply result_bind_Done in Hturns as (s1 & Hturn & Hturns).
    apply test_turn_Done in Hturn as (Hlt & Ht & Hm & He & Ho & Hp).
    apply IH in Hturns as (Ht' & Hn & Hm' & He' & Ho' & Hp').
    rewrite Ht', Ht, Hm', Hm, He', He, Ho', Ho, Hp', Hp.
    unfold STATE_LENGTH in *. repeat split; lia.
Qed.

(** X14. The testing loop ends at its fourth turn.  The first three
    turns (while [test] returns [None]) step the simulator with no
    offset and leave the agent's memory, [epsilon] and output alone; as
    soon as [test] returns an action, which it does at the fourth call,
    the loop calls [interpret_action_seq], a name that is not defined, and
    the program stops with a [NameError].  No run of the testing loop has
    more than three turns. *)
Theorem testing_loop_ends (g : rng) (e : env) (s0 : loop) :
  start g e = Done s0 ->
  (forall n s, turns test_turn n s0 = Done s ->
     (n <= 3)%nat /\ t (agent s) = Z.of_nat n /\
     _memory (agent s) = _memory (agent s0) /\
     epsilon (agent s) = INITIAL_EPSILON /\
     output (agent s) = [] /\ printed s = []) /\
  (forall s, turns test_turn 3 s0 = Done s ->
     is_Ok (test (agent s) (current_state s)) ->
     test_turn s = Failed (NameError "interpret_action_seq")).
Proof.
  intros Hstart.
  apply start_Done in Hstart as (Hinit & Hp0 & _).
  destruct (init_agent_Ok _ _ _ _ Hinit) as (Ht0 & He0 & _).
  destruct (init_fresh _ _ _ _ Hinit) as (_ & _ & _ & Ho0).
  split.
  - intros n s Hturns.
    apply test_turns in Hturns as (Ht & Hn & Hm & He & Ho & Hp).
    rewrite Ht, Ht0, Hm, He, He0, Ho, Ho0, Hp, Hp0.
    unfold STATE_LENGTH in Hn. repeat split; try lia.
  - intros s Hturns [[action a] Htest].
    apply test_turns in Hturns as (Ht & _).
    rewrite Ht0 in Ht. unfold test_turn. rewrite Htest.
    apply test_effects in Htest
      as (_ & _ & _ & _ & _ & _ & _ & _ & _ & _ & _ & Hact).
    rewrite Ht in Hact. simpl in Hact. destruct Hact as (x & -> & _).
    reflexivity.
Qed.

Lemma argmax_from_range (l : list float) :
  forall (mp : float) (best i : Z),
  0 <= best < i -> 0 <= argmax_from mp best i l < i + len l.
Proof.
  unfold len.
  induction l as [|x l IH]; intros mp best i Hb; simpl argmax_from.
  - simpl. lia.
  - rewrite length_cons.
    destruct (negb (x <=? mp)%float).
    + destruct (is_nan x); [lia |].
      specialize (IH x i (i + 1)). lia.
    + specialize (IH mp best (i + 1)). lia.
Qed.

Lemma np_argmax_range (l : list float) (a : Z) :
  np_argmax l = Ok a -> 0 <= a < len l.
Proof.
  destruct l as [|x l]; simpl; intros E; inversion E; subst; clear E.
  unfold len. rewrite length_cons.
  destruct (is_nan x); [lia |].
  pose proof (argmax_from_range l x 0 1). unfold len in *. lia.
Qed.

Lemma concat_fmap_length {A B} (f : A -> B) (rows : list (list A)) :
  length (concat ((fun row : list A => f <$> row) <$> rows)) = length (concat rows).
Proof.
  induction rows as [|row rows IH]; [reflexivity |].
  rewrite fmap_cons. simpl concat.
  rewrite !length_app, length_fmap, IH. reflexivity.
Qed.

Lemma greedy_range (self : DeepQAgent.agent) (h : History.t) (a : Z) :
  greedy self h = Ok a ->
  0 <= a < len (concat (model (q_network_weights self) [History.value h])).
Proof.
  unfold greedy, q_values_eval. intros E. apply np_argmax_range in E.
  unfold len in *.
  rewrite (concat_fmap_length f32
             (model (q_network_weights self) [History.value h])) in E.
  exact E.
Qed.

Lemma train_nb_actions (fuel : nat) (self self' : DeepQAgent.agent) :
  train fuel self = Ok self' -> nb_actions self' = nb_actions self.
Proof.
  unfold train. intros Ha1.
  destruct (TRAIN_AFTER <=? _num_actions_taken self);
    [| inversion Ha1; subst; reflexivity].
  destruct (_num_actions_taken self mod TRAIN_INTERVAL =? 0);
    [| inversion Ha1; subst; reflexivity].
  apply bind_Ok in Ha1 as (self1 & Hb1 & Ha1).
  inversion Ha1; subst; clear Ha1. simpl. simpl in Hb1.
  destruct (INITIAL_REPLAY_SIZE <=? t self);
    [| inversion Hb1; subst; reflexivity].
  apply bind_Ok in Hb1 as (self2 & Ha2 & Hb1).
  assert (Hb2 : nb_actions self2 = nb_actions self).
  { destruct (t self mod TRAIN_INTERVAL =? 0).
    - unfold train_network in Ha2.
      apply bind_Ok in Ha2 as ([[[[[sb ab] nsb] rb] tb] g] & Hb & Ha2).
      apply bind_Ok in Ha2 as (y & Hy & Ha2).
      destruct (minimize _ _ _ _ _) as [[loss q] slots].
      inversion Ha2; subst; reflexivity.
    - inversion Ha2; subst; reflexivity. }
  inversion Hb1; subst; clear Hb1.
  destruct (t self2 mod TARGET_UPDATE_INTERVAL =? 0);
    destruct (t _ mod SAVE_INTERVAL =? 0); simpl; exact Hb2.
Qed.

Lemma interpret_action_defined (action : Z) :
  0 <= action <= 4 -> exists offset, interpret_action action = Done offset.
Proof.
  intros Ha. unfold interpret_action.
  destruct (Z.eqb_spec action 0); [eauto |].
  destruct (Z.eqb_spec action 1); [eauto |].
  destruct (Z.eqb_spec action 2); [eauto |].
  destruct (Z.eqb_spec action 3); [eauto |].
  destruct (Z.eqb_spec action 4); [eauto | lia].
Qed.

Lemma train_turn_Failed (fuel : nat) (s : loop) (f : failure) :
  randrange_in_range ->
  (forall w x, len (concat (model w [x])) <= 5) ->
  nb_actions (agent s) = 5 ->
  train_turn fuel s = Failed f -> exists x, f = AgentError x.
Proof.
  intros Hrand Hwidth Hnb. unfold train_turn.
  destruct (act (agent s) (current_state s)) as [[action a]| x |] eqn:Hact; simpl;
    [| intros E; inversion E; eauto | discriminate].
  assert (Ha : 0 <= action <= 4).
  { apply act_effects in Hact
      as (_ & _ & _ & _ & _ & _ & _ & _ & _ & _ & _ & _ & _ & _ & _ & Hact).
    destruct (geb _ _ || _).
    - destruct Hact as (Hpos & Hdraw).
      pose proof (Hrand (nb_actions (agent s))
                        (random_random (random_state (agent s))).2 Hpos) as Hr.
      rewrite <- Hdraw in Hr. simpl in Hr. lia.
    - destruct Hact as (Hg & _). apply greedy_range in Hg.
      pose proof (Hwidth (q_network_weights (agent s)) (History.value (_history a))).
      lia. }
  destruct (interpret_action_defined action Ha) as (offset & ->). simpl.
  destruct (step (Some offset) (environment s)) as [[[new_state reward] done] e].
  destruct (observe a (current_state s) action reward done) as [a2| x |]; simpl;
    [| intros E; inversion E; eauto | discriminate].
  destruct (train fuel a2) as [a3| x |]; simpl;
    [| intros E; inversion E; eauto | discriminate].
  destruct done; [destruct (restart_game e) |]; discriminate.
Qed.

Lemma turns_Failed (fuel : nat) (n : nat) :
  randrange_in_range ->
  (forall w x, len (concat (model w [x])) <= 5) ->
  forall (s : loop) (f : failure),
  nb_actions (agent s) = 5 ->
  turns (train_turn fuel) n s = Failed f -> exists x, f = AgentError x.
Proof.
  intros Hrand Hwidth.
  induction n as [|n IH]; intros s f Hnb; simpl; [discriminate |].
  destruct (train_turn fuel s) as [s1| f1 |] eqn:Hturn; simpl;
    [| intros E; inversion E; subst; eapply train_turn_Failed; eauto | discriminate].
  apply IH.
  destruct (train_turn_calls _ _ _ Hturn)
    as (action & reward & done & a1 & a2 & _ & Hact & Hobs & Htrain).
  apply train_nb_actions in Htrain.
  apply observe_effects in Hobs as (_ & _ & _ & _ & _ & _ & _ & Hnbo & _).
  apply act_effects in Hact as (_ & _ & _ & _ & _ & _ & _ & _ & _ & _ & Hnba & _).
  congruence.
Qed.

(** X15. The training loop never trips over [interpret_action]: with a
    network of at most five outputs and a [random.randrange] that keeps
    within its range, every action that [act] returns is one of 0..4, so
    no turn ends in the [UnboundLocalError] of [interpret_action] (nor in
    a [NameError]); a failure of the loop is an exception raised inside
    the agent. *)
Theorem training_loop_actions_interpretable (fuel n : nat) (g : rng) (e : env)
        (s0 : loop) (f : failure) :
  randrange_in_range ->
  (forall w x, len (concat (model w [x])) <= 5) ->
  start g e = Done s0 ->
  turns (train_turn fuel) n s0 = Failed f ->
  exists x, f = AgentError x.
Proof.
  intros Hrand Hwidth Hstart.
  apply start_Done in Hstart as (Hinit & _ & _).
  destruct (init_fresh _ _ _ _ Hinit) as (_ & _ & Hnb & _).
  apply turns_Failed; assumption.
Qed.

(** X16. [interpret_action] is defined on the actions 0 to 4 only: for
    those it returns an offset in the plane ([z] is 0) of length 0 or
    0.25 along one axis, for every other action it fails with the
    [UnboundLocalError] of [quad_offset]. *)
Theorem interpret_action_domain (action : Z) :
  (0 <= action <= 4 <->
   exists x y : float,
     interpret_action action = Done (x, y, 0%float) /\
     (x = 0%float \/ y = 0%float) /\
     (action <> 0 -> (abs x + abs y)%float = 0.25%float)) /\
  (~ 0 <= action <= 4 <->
   interpret_action action = Failed (UnboundLocalError "quad_offset")).
Proof.
  unfold interpret_action.
  destruct (Z.eqb_spec action 0) as [-> | N0].
  { split; split; try lia; try discriminate.
    intros _. exists 0%float, 0%float.
    split; [reflexivity |]. split; [auto |]. intros N; try lia; reflexivity. }
  destruct (Z.eqb_spec action 1) as [-> | N1].
  { split; split; try lia; try discriminate.
    intros _. exists 0.25%float, 0%float.
    split; [reflexivity |]. split; [auto |]. intros N; try lia; reflexivity. }
  destruct (Z.eqb_spec action 2) as [-> | N2].
  { split; split; try lia; try discriminate.
    intros _. exists 0%float, 0.25%float.
    split; [reflexivity |]. split; [auto |]. intros N; try lia; reflexivity. }
  destruct (Z.eqb_spec action 3) as [-> | N3].
  { split; split; try lia; try discriminate.
    intros _. exists (- 0.25)%float, 0%float.
    split; [reflexivity |]. split; [auto |]. intros N; try lia; reflexivity. }
  destruct (Z.eqb_spec action 4) as [-> | N4].
  { split; split; try lia; try discriminate.
    intros _. exists 0%float, (- 0.25)%float.
    split; [reflexivity |]. split; [auto |]. intros N; try lia; reflexivity. }
  split; split; try lia; try reflexivity.
  intros (x & y & E & _). discriminate.
Qed.

End DriverProperties.

(** ** Detector *)

Lemma getitem_nonneg_inv {A} (l : list A) (i : Z) (x : A) :
  0 <= i -> getitem l i = Ok x -> l !! Z.to_nat i = Some x /\ i < len l.
Proof.
  intros Hi. unfold getitem.
  destruct (py_norm_index (len l) i) as [j|] eqn:Hj; [| discriminate].
  apply py_norm_index_Some in Hj as [[Hr ->] | [Hr _]]; [| lia].
  destruct (l !! Z.to_nat i) as [y|]; [| discriminate].
  intros E; inversion E; subst. split; [reflexivity | lia].
Qed.

Lemma concat_length_bands {A} (bands : Z) (l : list (list A)) :
  Forall (fun px => len px = bands) l -> len (concat l) = bands * len l.
Proof.
  unfold len. induction 1 as [|px l Hpx _ IH]; simpl; [lia |].
  rewrite length_app. lia.
Qed.

Lemma bytes_unchanged (l : list Z) :
  Forall (fun v => 0 <= v <= 255) l -> (fun v => v mod 256) <$> l = l.
Proof.
  induction 1 as [|v l Hv _ IH]; [reflexivity |].
  rewrite fmap_cons, IH, Z.mod_small by lia. reflexivity.
Qed.

Section DetectorFurther.
Context `{Detector.Graph} `{Detector.VisUtil}.
Import Detector.

(** What the loop returned tells which index it stopped at. *)
Lemma scan_inv (self : t) (bboxes : list (list float)) (classes : list Z)
      (scores : list float) (im_width im_height : Z) (d : nat) :
  forall (a n : Z) (r : option (float * float * float * float)),
  0 <= a -> Z.to_nat (n - a) = d ->
  scan self bboxes classes (Some scores) im_width im_height (arange a n) = Ok r ->
  match r with
  | Some g =>
      exists k ymin xmin ymax xmax,
        a <= k < n /\ k < len bboxes /\
        (forall j, a <= j < k -> ~ qualifies self classes scores (Z.to_nat j)) /\
        qualifies self classes scores (Z.to_nat k) /\
        bboxes !! Z.to_nat k = Some [ymin; xmin; ymax; xmax] /\
        g = spec_geometry im_height im_width ymin xmin ymax xmax
  | None => forall j, a <= j < n -> ~ qualifies self classes scores (Z.to_nat j)
  end.
Proof.
  induction d as [|d IH]; intros a n r Ha Hd Hscan.
  - unfold arange in Hscan. rewrite Hd in Hscan. simpl in Hscan.
    inversion Hscan; subst. intros j Hj. lia.
  - rewrite arange_cons in Hscan by lia. simpl in Hscan.
    apply bind_Ok in Hscan as (above & Habove & Hscan).
    apply bind_Ok in Habove as (s & Hs & Habove).
    apply getitem_nonneg_inv in Hs as [Hs _]; [| exact Ha].
    inversion Habove; subst above; clear Habove.
    assert (Hrest :
      ~ qualifies self classes scores (Z.to_nat a) ->
      scan self bboxes classes (Some scores) im_width im_height (arange (a + 1) n)
      = Ok r ->
      match r with
      | Some g =>
          exists k ymin xmin ymax xmax,
            a <= k < n /\ k < len bboxes /\
            (forall j, a <= j < k -> ~ qualifies self classes scores (Z.to_nat j)) /\
            qualifies self classes scores (Z.to_nat k) /\
            bboxes !! Z.to_nat k = Some [ymin; xmin; ymax; xmax] /\
            g = spec_geometry im_height im_width ymin xmin ymax xmax
      | None => forall j, a <= j < n -> ~ qualifies self classes scores (Z.to_nat j)
      end).
    { intros Hno Hscan'.
      apply IH in Hscan'; [| lia | lia].
      destruct r as [g|].
      - destruct Hscan' as (k & ymin & xmin & ymax & xmax & Hk & Hlen & Hbefore & Hrest).
        exists k, ymin, xmin, ymax, xmax.
        split; [lia |]. split; [exact Hlen |]. split; [| exact Hrest].
        intros j Hj. destruct (Z.eq_dec j a) as [-> | Hne]; [exact Hno |].
        apply Hbefore. lia.
      - intros j Hj. destruct (Z.eq_dec j a) as [-> | Hne]; [exact Hno |].
        apply Hscan'. lia. }
    destruct (gtb s min_score_thresh) eqn:Hgt.
    + apply bind_Ok in Hscan as (c & Hc & Hscan).
      apply getitem_nonneg_inv in Hc as [Hc _]; [| exact Ha].
      destruct (category_index self !! c) as [cat|] eqn:Hcat.
      * destruct (String.eqb (name cat) "traffic light") eqn:Hname.
        -- apply bind_Ok in Hscan as (box & Hbox & Hscan).
           apply getitem_nonneg_inv in Hbox as [Hbox Hlen]; [| exact Ha].
           apply bind_Ok in Hscan as (g & Hg & Hscan).
           inversion Hscan; subst r; clear Hscan.
           destruct box as [|ymin [|xmin [|ymax [|xmax [|extra box]]]]];
             try discriminate.
           inversion Hg; subst g; clear Hg.
           exists a, ymin, xmin, ymax, xmax.
           split; [lia |]. split; [exact Hlen |].
           split; [intros j Hj; lia |].
           split; [| split; [exact Hbox | reflexivity]].
           exists s, c, cat. apply String.eqb_eq in Hname. auto.
        -- apply Hrest; [| exact Hscan].
           intros (s' & c' & cat' & Hs' & _ & Hc' & Hcat' & Hname').
           rewrite Hc in Hc'. inversion Hc'; subst c'.
           rewrite Hcat in Hcat'. inversion Hcat'; subst cat'.
           apply String.eqb_neq in Hname. contradiction.
      * apply Hrest; [| exact Hscan].
        intros (s' & c' & cat' & Hs' & _ & Hc' & Hcat' & _).
        rewrite Hc in Hc'. inversion Hc'; subst c'.
        rewrite Hcat in Hcat'. discriminate.
    + apply Hrest; [| exact Hscan].
      intros (s' & c' & cat' & Hs' & Hgt' & _).
      rewrite Hs in Hs'. inversion Hs'; subst s'.
      rewrite Hgt in Hgt'. discriminate.
Qed.

(** X17. What the result of [detect] says about the detections.  A
    tuple is the geometry of the first detection, in the order of the
    graph's output, whose score is above [min_score_thresh] and whose
    class the label map names "traffic light" (computed with the image's
    two dimensions exchanged); [None] means that no detection qualifies.
    The image has at least two dimensions, and the loop has looked up a
    score and a class for every box it passed. *)
Theorem detect_result (self : t) (w w' : world) (image_np : positive)
        (array : image) (r : option (float * float * float * float)) :
  heap w !! image_np = Some array ->
  detect self w image_np = Ok (r, w') ->
  exists out rows columns,
    run_inference_for_single_image array = Ok out /\
    slice (im_shape array) 0 2 = [rows; columns] /\
    match r with
    | Some g =>
        exists (k : nat) ymin xmin ymax xmax,
          (k < length (detection_boxes out))%nat /\
          (forall j, (j < k)%nat ->
             ~ qualifies self (detection_classes out) (detection_scores out) j) /\
          qualifies self (detection_classes out) (detection_scores out) k /\
          detection_boxes out !! k = Some [ymin; xmin; ymax; xmax] /\
          g = spec_geometry columns rows ymin xmin ymax xmax
    | None =>
        forall j, (j < length (detection_boxes out))%nat ->
          ~ qualifies self (detection_classes out) (detection_scores out) j
    end.
Proof.
  intros Hheap Hdetect.
  destruct (run_inference_for_single_image array) as [out| x |] eqn:Hout;
    [| unfold detect in Hdetect; rewrite Hheap in Hdetect; simpl in Hdetect;
       rewrite Hout in Hdetect; discriminate
     | unfold detect in Hdetect; rewrite Hheap in Hdetect; simpl in Hdetect;
       rewrite Hout in Hdetect; discriminate].
  rewrite (detect_unfold self w image_np array out Hheap Hout) in Hdetect.
  simpl in Hdetect.
  destruct (slice (im_shape array) 0 2) as [|rows [|columns [|extra dims]]];
    try discriminate.
  apply bind_Ok in Hdetect as (r' & Hscan & Hdetect).
  inversion Hdetect; subst r'; clear Hdetect.
  exists out, rows, columns. split; [reflexivity |]. split; [reflexivity |].
  apply (scan_inv _ _ _ _ _ _ _ 0 _ _ (Z.le_refl 0) eq_refl) in Hscan.
  destruct r as [g|].
  - destruct Hscan as (k & ymin & xmin & ymax & xmax & Hk & Hlen & Hbefore & Hq & Hb & Hg).
    exists (Z.to_nat k), ymin, xmin, ymax, xmax.
    unfold len in Hlen. split; [lia |].
    split; [| auto].
    intros j Hj. rewrite <- (Nat2Z.id j). apply Hbefore. lia.
  - intros j Hj. rewrite <- (Nat2Z.id j). apply Hscan. unfold len. lia.
Qed.

(** X18. What [run_inference_for_single_image] returns is the first
    entry of each fetched array: the boxes and scores as they are, the
    number of detections truncated to an int, the classes truncated and
    wrapped to bytes (so every class is within 0..255), and the masks
    when the graph has them.  It fails with [IndexError] when the graph
    reports no number of detections. *)
Theorem run_inference_first_of_batch (image : image) :
  (forall out, run_inference_for_single_image image = Ok out ->
     (exists n, fetched_num_detections (sess_run image) !! 0%nat = Some n /\
                trunc n = Some (num_detections out)) /\
     (exists classes,
        fetched_detection_classes (sess_run image) !! 0%nat = Some classes /\
        detection_classes out = uint8_of_float <$> classes) /\
     Forall (fun c => 0 <= c <= 255) (detection_classes out) /\
     fetched_detection_boxes (sess_run image) !! 0%nat = Some (detection_boxes out) /\
     fetched_detection_scores (sess_run image) !! 0%nat = Some (detection_scores out) /\
     (detection_masks out = None <-> fetched_detection_masks (sess_run image) = None)) /\
  (fetched_num_detections (sess_run image) = [] ->
   run_inference_for_single_image image = Raise (IndexError "index out of bounds")).
Proof.
  split.
  - unfold run_inference_for_single_image. intros out Hrun.
    apply bind_Ok in Hrun as (n & Hn & Hrun).
    apply bind_Ok in Hrun as (num & Hnum & Hrun).
    apply bind_Ok in Hrun as (classes & Hclasses & Hrun).
    apply bind_Ok in Hrun as (boxes & Hboxes & Hrun).
    apply bind_Ok in Hrun as (scores & Hscores & Hrun).
    apply bind_Ok in Hrun as (masks & Hmasks & Hrun).
    inversion Hrun; subst out; clear Hrun. simpl.
    apply getitem_nonneg_inv in Hn as [Hn _]; [| lia].
    apply getitem_nonneg_inv in Hclasses as [Hclasses _]; [| lia].
    apply getitem_nonneg_inv in Hboxes as [Hboxes _]; [| lia].
    apply getitem_nonneg_inv in Hscores as [Hscores _]; [| lia].
    split.
    { exists n. split; [exact Hn |].
      unfold int_of_float in Hnum.
      destruct (trunc n) as [z|]; [inversion Hnum; reflexivity |].
      destruct (is_nan n); discriminate. }
    split; [exists classes; auto |].
    split.
    { apply Forall_fmap, Forall_forall. intros x _. simpl.
      unfold uint8_of_float. destruct (trunc x) as [z|]; [| lia].
      pose proof (Z.mod_pos_bound z 256). lia. }
    split; [exact Hboxes |]. split; [exact Hscores |].
    destruct (fetched_detection_masks (sess_run image)) as [m|].
    + apply bind_Ok in Hmasks as (x & _ & Hmasks). inversion Hmasks; subst.
      split; discriminate.
    + inversion Hmasks; subst. split; reflexivity.
  - intros Hempty. unfold run_inference_for_single_image.
    rewrite Hempty. reflexivity.
Qed.

End DetectorFurther.

Section LoadImage.
Import Detector.

(** X19. [load_image_into_numpy_array] returns an array of shape
    (height, width, 3), rows first, whose bytes are the pixels' values
    modulo 256 (the values themselves when they are bytes already).  It
    needs three bands: on an image that is not empty and whose pixels all
    have another number of bands, such as a greyscale or an RGBA image,
    the [reshape] raises [ValueError]. *)
Theorem load_image_into_numpy_array_shape (image : pil_image) :
  (forall array, load_image_into_numpy_array image = Ok array ->
     im_shape array = [(size image).2; (size image).1; 3] /\
     len (pixels array) = (size image).2 * (size image).1 * 3 /\
     Forall (fun v => 0 <= v <= 255) (pixels array) /\
     (Forall (fun v => 0 <= v <= 255) (concat (getdata image)) ->
      pixels array = concat (getdata image))) /\
  (forall bands,
     bands <> 3 -> 0 < (size image).1 * (size image).2 ->
     len (getdata image) = (size image).1 * (size image).2 ->
     Forall (fun px => len px = bands) (getdata image) ->
     load_image_into_numpy_array image = Raise (ValueError "cannot reshape array")).
Proof.
  unfold load_image_into_numpy_array.
  destruct (size image) as [im_width im_height]. simpl fst. simpl snd.
  split.
  - intros array Hload.
    destruct ((im_height <? 0) || (im_width <? 0)
              || negb (len (concat (getdata image)) =? im_height * im_width * 3)) eqn:E;
      [discriminate |].
    inversion Hload; subst array; clear Hload. simpl.
    apply orb_false_iff in E as [_ E]. apply negb_false_iff, Z.eqb_eq in E.
    split; [reflexivity |].
    split; [unfold len in *; rewrite length_fmap; exact E |].
    split.
    + apply Forall_fmap, Forall_forall. intros v _. simpl.
      pose proof (Z.mod_pos_bound v 256). lia.
    + apply bytes_unchanged.
  - intros bands Hbands Hpos Hlen Hall.
    rewrite (concat_length_bands bands _ Hall), Hlen.
    destruct ((im_height <? 0) || (im_width <? 0)
              || negb (bands * (im_width * im_height) =? im_height * im_width * 3)) eqn:E;
      [reflexivity |].
    apply orb_false_iff in E as [_ E]. apply negb_false_iff, Z.eqb_eq in E.
    nia.
Qed.

End LoadImage.

(** ** Examples *)

Section FurtherExamples.
Import ReplayMemory.

(** Three frames pushed into a history of two: the last two remain, the
    single value 7 as the row (7, 7). *)
Lemma history_keeps_last_frames_witness :
  exists h',
    append_frames history2 three_frames = Ok h' /\
    History._buffer h' = [[2%float; 2%float]; [7%float; 7%float]].
Proof.
  assert (N : History._buffer history2 <> []) by discriminate.
  destruct (append_frames history2 three_frames) as [h'| |] eqn:E;
    [| vm_compute in E; discriminate | vm_compute in E; discriminate].
  exists h'. split; [reflexivity |].
  destruct (history_keeps_last_frames three_frames history2 h' N E)
    as (rows & Hrows & _ & _ & _ & _ & _ & Hlast).
  rewrite Hlast by (simpl; lia).
  vm_compute in Hrows. inversion Hrows; subst rows. vm_compute. reflexivity.
Defined.

(** A sixth frame appended to the five: it is stored at the cursor, its
    action as a byte. *)
Lemma append_then_get_state_witness :
  exists m',
    append memory5_frames (frame 6 6) 258 0.5 true = Ok m' /\
    _actions m' !! 0%nat = Some 2 /\
    _terminals m' !! 0%nat = Some 1%float /\
    exists frames, get_state m' 0 = Ok frames /\ last frames = Some [6%float; 6%float].
Proof.
  destruct (append memory5_frames (frame 6 6) 258 0.5 true) as [m'| |] eqn:E;
    [| vm_compute in E; discriminate | vm_compute in E; discriminate].
  exists m'. split; [reflexivity |].
  destruct (append_then_get_state memory5_frames m' (frame 6 6) 258 0.5 true
              memory5_frames_reachable E)
    as ((frames & Hget & Hlast) & Ha & _ & Ht & _).
  split; [exact Ha |]. split; [exact Ht |].
  exists frames. split; [exact Hget | exact Hlast].
Defined.

(** Indices 2 and 3 of the five frames share the frame at 2. *)
Lemma get_state_successor_witness :
  exists pre post,
    get_state memory5_frames 2 = Ok pre /\
    get_state memory5_frames 3 = Ok post /\
    post !! 0%nat = pre !! 1%nat.
Proof.
  assert (H0 : 0 <= 2) by lia.
  assert (H1 : 2 + 1 < _count memory5_frames) by (simpl; lia).
  destruct (get_state_successor memory5_frames 2 memory5_frames_reachable H0 H1)
    as (pre & post & Hpre & Hpost & _ & _ & Hshift).
  exists pre, post. split; [exact Hpre |]. split; [exact Hpost |].
  apply (Hshift 0). simpl. lia.
Defined.

(** Two indices sampled from the five frames, the fourth of which ended
    an episode: index 3 is sampled, its own flag being outside the slice,
    and the two slots before it are zero. *)
Lemma sample_sound_witness :
  exists g',
    @sample counting_random 10 memory5_terminal 2 0 = Ok ([2; 3], g') /\
    _terminals memory5_terminal !! 3%nat = Some 1%float /\
    _terminals memory5_terminal !! 2%nat = Some 0%float /\
    NoDup [2; 3].
Proof.
  destruct (@sample counting_random 10 memory5_terminal 2 0)
    as [[indexes g']| |] eqn:E;
    [| vm_compute in E; discriminate | vm_compute in E; discriminate].
  assert (Hi : indexes = [2; 3]) by (vm_compute in E; inversion E; reflexivity).
  subst indexes. exists g'. split; [reflexivity |].
  destruct (@sample_sound counting_random 10 memory5_terminal 2 0 g' [2; 3] E)
    as (Hnd & _).
  split; [reflexivity |]. split; [reflexivity | exact Hnd].
Defined.

(** Nothing can be sampled from an empty memory. *)
Lemma sample_starved_witness :
  0 < 1 /\
  forall fuel g,
    @sample counting_random (S fuel) memory5 1 g = Raise (ValueError "low >= high").
Proof.
  assert (H0 : 0 < 1) by lia.
  split; [exact H0 |].
  destruct (@sample_starved counting_random memory5 1 H0) as [_ Hraise].
  apply Hraise. simpl. lia.
Defined.

(** A minibatch of two transitions from the five frames. *)
Lemma minibatch_parallel_witness :
  exists pre_states actions post_states rewards dones g' indexes,
    @minibatch counting_random 10 memory5_frames 2 0
    = Ok (pre_states, actions, post_states, rewards, dones, g') /\
    @sample counting_random 10 memory5_frames 2 0 = Ok (indexes, g') /\
    length pre_states = length indexes /\ length post_states = length indexes.
Proof.
  destruct (@minibatch counting_random 10 memory5_frames 2 0)
    as [[[[[[pre_states actions] post_states] rewards] dones] g']| |] eqn:E;
    [| vm_compute in E; discriminate | vm_compute in E; discriminate].
  destruct (@minibatch_parallel counting_random 10 memory5_frames 2 0 g'
              pre_states post_states actions rewards dones
              memory5_frames_reachable E)
    as (indexes & Hsample & Hpre & _ & Hpost & _).
  exists pre_states, actions, post_states, rewards, dones, g', indexes.
  split; [reflexivity |]. split; [exact Hsample |]. split; [exact Hpre | exact Hpost].
Defined.

End FurtherExamples.

Section AgentFurtherExamples.
Import DeepQAgent.
#[local] Existing Instance zero_network.
#[local] Existing Instance counting_random.

(** The first action of the driver's agent is the draw of
    [randrange(5)], and [epsilon] stays at 1; the state, a single value,
    is broadcast to the history's last row. *)
Lemma act_explores_first_witness :
  exists (self self' : agent) action,
    driver_agent = Ok self /\
    act self (single 7) = Ok (action, self') /\
    last (History._buffer (_history self')) = Some [7%float; 7%float] /\
    0 <= action < 5 /\ epsilon self' = epsilon self /\
    _num_actions_taken self' = _num_actions_taken self + 1.
Proof.
  assert (E : (self ← driver_agent;
               '(action, self') ← act self (single 7);
               mret (nb_actions self, t self, last (History._buffer (_history self'))))
              = Ok (5, 0, Some [7%float; 7%float]))
    by (vm_compute; reflexivity).
  apply bind_Ok in E as (self & Hinit & E).
  apply bind_Ok in E as ([action self'] & Hact & E).
  assert (Hnb : nb_actions self = 5) by (inversion E; reflexivity).
  assert (Ht : t self = 0) by (inversion E; reflexivity).
  assert (Hlast : last (History._buffer (_history self')) = Some [7%float; 7%float])
    by (inversion E; reflexivity).
  clear E. exists self, self', action.
  split; [exact Hinit |]. split; [exact Hact |]. split; [exact Hlast |].
  destruct (act_explores_first self self' (single 7) action Hact)
    as (_ & Hn & _ & _ & _ & _ & _ & Hearly).
  destruct Hearly as (He & _ & _ & Hrange);
    [rewrite Ht; unfold INITIAL_REPLAY_SIZE; lia |].
  rewrite <- Hnb. split; [| split; [exact He | exact Hn]].
  apply Hrange. intros n g Hn0. simpl.
  pose proof (Z.mod_pos_bound g n Hn0). lia.
Defined.

(** The agent after one episode of two steps is in order. *)
Lemma reachable_agent_in_order_witness :
  exists self : agent,
    reachable self /\
    ReplayMemory._max_size (_memory self) = 400000 /\
    0 <= ReplayMemory.__len__ (_memory self) <= 400000 /\
    0 <= duration self.
Proof.
  assert (E : (self ← (self0 ← __init__ [4; 2] 5 0; run self0 episode_calls);
               mret (t self)) = Ok 0)
    by (vm_compute; reflexivity).
  apply bind_Ok in E as (self & Hrun & _).
  pose proof (init_run_reachable _ _ _ _ _ Hrun) as Hreach.
  exists self. split; [exact Hreach |].
  destruct (reachable_agent_in_order self Hreach)
    as (_ & Hmax & _ & Hlen & _ & _ & _ & _ & Hd & _).
  split; [exact Hmax |]. split; [exact Hlen | exact Hd].
Defined.

(** The counters after one episode of two steps. *)
Lemma counters_count_witness :
  exists self0 self : agent,
    __init__ [4; 2] 5 0 = Ok self0 /\ run self0 episode_calls = Ok self /\
    _num_actions_taken self = 2 /\ episode self = 1 /\ duration self = 0 /\
    ReplayMemory.__len__ (_memory self) = 2.
Proof.
  assert (E : (self0 ← __init__ [4; 2] 5 0;
               self ← run self0 episode_calls;
               mret (t self)) = Ok 0)
    by (vm_compute; reflexivity).
  apply bind_Ok in E as (self0 & Hinit & E).
  apply bind_Ok in E as (self & Hrun & _).
  exists self0, self. split; [exact Hinit |]. split; [exact Hrun |].
  destruct (counters_count [4; 2] 5 _ self0 self episode_calls Hinit Hrun)
    as (Hn & He & Hd & Hl & _).
  rewrite Hn, He, Hd, Hl. repeat split; reflexivity.
Defined.

(** One more action after the episode: [epsilon] has not moved. *)
Lemma epsilon_never_increases_witness :
  exists self self' : agent,
    reachable self /\ do_call self (Act (frame 2 2)) = Ok self' /\
    (epsilon self' <=? epsilon self)%float = true.
Proof.
  assert (E : (self ← (self0 ← __init__ [4; 2] 5 0; run self0 episode_calls);
               self' ← do_call self (Act (frame 2 2));
               mret (t self')) = Ok 0)
    by (vm_compute; reflexivity).
  apply bind_Ok in E as (self & Hrun & E).
  apply bind_Ok in E as (self' & Hcall & _).
  pose proof (init_run_reachable _ _ _ _ _ Hrun) as Hreach.
  exists self, self'. split; [exact Hreach |]. split; [exact Hcall |].
  destruct (epsilon_never_increases self self' (Act (frame 2 2)) Hreach Hcall)
    as (Hle & _).
  exact Hle.
Defined.

(** [train] with the gate open and [t] at 10000: after the gradient
    step the target network is the online network, which it was not
    before, and a checkpoint is written. *)
Lemma train_syncs_and_saves_witness :
  exists self' : @agent recording_network counting_random,
    train 64 (agent_at 10000 500) = Ok self' /\
    target_network_weights (agent_at 10000 500) = [] /\
    q_network_weights self' = replicate 64 (f32 2.98%float) /\
    target_network_weights self' = q_network_weights self' /\
    output self' = [TrainStep 0 10000 500; SaveCheckpoint "models_sim" 10000].
Proof.
  assert (E : (self' ← train 64 (agent_at 10000 500);
               mret (q_network_weights self'))
              = Ok (replicate 64 (f32 2.98%float)))
    by (vm_compute; reflexivity).
  apply bind_Ok in E as (self' & Htrain & E).
  assert (Hq : q_network_weights self' = replicate 64 (f32 2.98%float)).
  { apply (f_equal (fun o => match o with Ok q => q | _ => [] end)) in E.
    exact E. }
  clear E. exists self'. split; [exact Htrain |]. split; [reflexivity |].
  split; [exact Hq |].
  destruct (@train_syncs_and_saves recording_network counting_random 64
              (agent_at 10000 500) self' Htrain)
    as (Htarget & Hout & _).
  split; [exact Htarget | exact Hout].
Defined.


End AgentFurtherExamples.

Section DriverExamples.
Import DeepQAgent Driver.

(** Three turns of the training loop. *)
Lemma training_loop_schedule_witness :
  exists s0 s : @loop zero_network counting_random counting_env,
    @start zero_network counting_random counting_env 0 0 = Done s0 /\
    turns (train_turn 0) 3 s0 = Done s /\
    _num_actions_taken (agent s) = 3 /\
    ReplayMemory.__len__ (_memory (agent s)) = 3 /\
    t (agent s) = 0 /\ epsilon (agent s) = INITIAL_EPSILON.
Proof.
  assert (E : (s0 ← @start zero_network counting_random counting_env 0 0;
               s ← turns (train_turn 0) 3 s0;
               mret (length (printed s))) = Done 4%nat)
    by (vm_compute; reflexivity).
  apply result_bind_Done in E as (s0 & Hstart & E).
  apply result_bind_Done in E as (s & Hturns & _).
  exists s0, s. split; [exact Hstart |]. split; [exact Hturns |].
  destruct (@training_loop_schedule zero_network counting_random counting_env
              0 3 0 0 s0 s Hstart Hturns)
    as (_ & Hn & Hlen & Ht & _ & He).
  split; [exact Hn |]. split; [exact Hlen |]. split; [exact Ht |].
  apply He. lia.
Defined.

(** The testing loop: three turns, and the fourth fails. *)
Lemma testing_loop_ends_witness :
  exists s0 s : @loop zero_network counting_random counting_env,
    @start zero_network counting_random counting_env 0 0 = Done s0 /\
    turns test_turn 3 s0 = Done s /\
    t (agent s) = 3 /\
    test_turn s = Failed (NameError "interpret_action_seq").
Proof.
  assert (E : (s0 ← @start zero_network counting_random counting_env 0 0;
               s ← turns test_turn 3 s0;
               '(action, _) ← lift (test (agent s) (current_state s));
               mret action) = Done (Some 0))
    by (vm_compute; reflexivity).
  apply result_bind_Done in E as (s0 & Hstart & E).
  apply result_bind_Done in E as (s & Hturns & E).
  apply result_bind_Done in E as ([action a] & Htest & _).
  apply lift_Done in Htest.
  exists s0, s. split; [exact Hstart |]. split; [exact Hturns |].
  destruct (@testing_loop_ends zero_network counting_random counting_env
              0 0 s0 Hstart) as (Hfirst & Hfourth).
  destruct (Hfirst 3%nat s Hturns) as (_ & Ht & _).
  split; [exact Ht |].
  apply Hfourth; [exact Hturns |]. exists (action, a). exact Htest.
Defined.

(** A simulator with frames of the wrong shape: the first turn fails
    inside the agent. *)
Lemma training_loop_actions_interpretable_witness :
  exists (s0 : @loop zero_network counting_random wide_env) (x : exn),
    @start zero_network counting_random wide_env 0 tt = Done s0 /\
    turns (train_turn 0) 1 s0 = Failed (AgentError x).
Proof.
  assert (E0 : (s0 ← @start zero_network counting_random wide_env 0 tt;
                mret tt) = Done tt)
    by (vm_compute; reflexivity).
  apply result_bind_Done in E0 as (s0 & Hstart & _).
  assert (E1 : (s0 ← @start zero_network counting_random wide_env 0 tt;
                turns (train_turn 0) 1 s0)
               = Failed (AgentError (ValueError "could not broadcast input array")))
    by (vm_compute; reflexivity).
  rewrite Hstart in E1.
  change (turns (train_turn 0) 1 s0
          = Failed (AgentError (ValueError "could not broadcast input array"))) in E1.
  assert (Hrand : @randrange_in_range counting_random).
  { intros n g Hn. simpl. pose proof (Z.mod_pos_bound g n Hn). lia. }
  assert (Hwidth : forall w x, len (concat (@model zero_network w [x])) <= 5).
  { intros w x. vm_compute. discriminate. }
  destruct (@training_loop_actions_interpretable zero_network counting_random wide_env
              0 1 0 tt s0 _ Hrand Hwidth Hstart E1) as (x & Hx).
  exists s0, x. split; [exact Hstart |]. rewrite <- Hx. exact E1.
Defined.

End DriverExamples.

Section DetectorFurtherExamples.
Import Detector.

(** A traffic light in the middle of a black image. *)
Lemma detect_result_witness :
  exists r w' out rows columns,
    @detect (one_detection 10 (f32 0.9) centre_box) whitewash coco
      (one_image 4 6) 1 = Ok (r, w') /\
    @run_inference_for_single_image (one_detection 10 (f32 0.9) centre_box)
      (black 4 6) = Ok out /\
    slice (im_shape (black 4 6)) 0 2 = [rows; columns].
Proof.
  destruct (@detect (one_detection 10 (f32 0.9) centre_box) whitewash coco
              (one_image 4 6) 1) as [[r w']| |] eqn:Hd;
    [| vm_compute in Hd; discriminate | vm_compute in Hd; discriminate].
  assert (Harr : heap (one_image 4 6) !! 1%positive = Some (black 4 6))
    by (vm_compute; reflexivity).
  destruct (@detect_result (one_detection 10 (f32 0.9) centre_box) whitewash coco
              (one_image 4 6) w' 1 (black 4 6) r Harr Hd)
    as (out & rows & columns & Hout & Hslice & _).
  exists r, w', out, rows, columns.
  split; [reflexivity |]. split; [exact Hout | exact Hslice].
Defined.

End DetectorFurtherExamples.

